(** * Smart Order Risk Analyzer: the ingestion, scoring, notification and
      broadcast core, embedded from the TypeScript sources.

    Conventions of the embedding.
    - A value of TypeScript type [any] that comes out of [JSON.parse] is a
      [JSValue]: a finite tree without sharing, so two object or array
      values met at different places are different references.
    - A string is held as the bytes of its UTF-8 encoding.
    - A JavaScript number is a [number]: NaN, the two infinities, or the
      rational a double stands for; the sign of zero is not kept.
      [parseFloat] rounds the decimal literal it reads to the nearest
      double.
    - A thrown exception is the [Throw] case of [result].
    - What the engine or the host provides (the clock and time zone behind
      [Date], number formatting, [JSON.parse], the HMAC primitive, the
      process environment) is a field of the class [Host].
    - A MongoDB collection is the list of its documents, held in [World];
      the [_id] and the dates of a document are left out, and driver
      failures are not represented. *)

From Stdlib Require Import ZArith QArith Lia Bool Ascii String List.
From stdpp Require Import base option list strings gmap.

Local Open Scope Z_scope.
Local Open Scope string_scope.
Local Open Scope list_scope.

(** ** Exceptions *)

Inductive JSError := TypeError | SyntaxError.

Inductive result (A : Type) :=
| Ok (a : A)
| Throw (e : JSError).
Arguments Ok {A} a.
Arguments Throw {A} e.

Definition rbind {A B} (m : result A) (k : A -> result B) : result B :=
  match m with
  | Ok a => k a
  | Throw e => Throw e
  end.

Notation "x <- m ;; k" := (rbind m (fun x => k))
  (at level 100, m at next level, right associativity).

(** ** Numbers *)

Inductive number :=
| NaN
| NegInfinity
| Fin (q : Q)
| PosInfinity.

(** [a > b] on numbers; false as soon as one side is NaN. *)
Definition num_gt (a b : number) : bool :=
  match a, b with
  | NaN, _ | _, NaN => false
  | NegInfinity, _ => false
  | _, PosInfinity => false
  | PosInfinity, _ => true
  | Fin _, NegInfinity => true
  | Fin x, Fin y => negb (Qle_bool x y)
  end.

(** [a === b] on numbers. *)
Definition num_eq (a b : number) : bool :=
  match a, b with
  | Fin x, Fin y => Qeq_bool x y
  | PosInfinity, PosInfinity => true
  | NegInfinity, NegInfinity => true
  | _, _ => false
  end.

(** ** Values produced by [JSON.parse] (plus [undefined]) *)

Set Warnings "-register-all".

Inductive JSValue :=
| JUndefined
| JNull
| JBool (b : bool)
| JNumber (n : number)
| JString (s : string)
| JArray (items : list JSValue)
| JObject (fields : list (string * JSValue)).

(** ToBoolean. *)
Definition truthy (v : JSValue) : bool :=
  match v with
  | JUndefined | JNull => false
  | JBool b => b
  | JNumber NaN => false
  | JNumber (Fin q) => negb (Qeq_bool q 0)
  | JNumber _ => true
  | JString s => negb (String.eqb s "")
  | JArray _ | JObject _ => true
  end.

Definition nullish (v : JSValue) : bool :=
  match v with
  | JUndefined | JNull => true
  | _ => false
  end.

Fixpoint assoc (k : string) (fields : list (string * JSValue)) : option JSValue :=
  match fields with
  | [] => None
  | (k', v) :: rest => if String.eqb k k' then Some v else assoc k rest
  end.

(** [v.name] for the property names the sources read (none of them is
    defined on the prototypes of strings, numbers, booleans or arrays):
    a TypeError on [null] and [undefined], the own property of an object,
    [undefined] everywhere else. *)
Definition getProp (v : JSValue) (name : string) : result JSValue :=
  match v with
  | JUndefined | JNull => Throw TypeError
  | JObject fields => Ok (default JUndefined (assoc name fields))
  | _ => Ok JUndefined
  end.

(** [v?.name] *)
Definition getPropOpt (v : JSValue) (name : string) : JSValue :=
  match getProp v name with
  | Ok x => x
  | Throw _ => JUndefined
  end.

(** [a !== b].  Objects and arrays compare by reference, and no two
    places of a parsed payload hold the same reference. *)
Definition strictNeq (a b : JSValue) : bool :=
  match a, b with
  | JUndefined, JUndefined => false
  | JNull, JNull => false
  | JBool x, JBool y => negb (Bool.eqb x y)
  | JNumber x, JNumber y => negb (num_eq x y)
  | JString x, JString y => negb (String.eqb x y)
  | _, _ => true
  end.

(** ToString throws exactly on an object whose own [toString] property
    shadows the inherited method (a parsed value is never callable), and
    on an array that holds such an object at any depth, [join] converting
    every element. *)
Fixpoint toStringThrows (v : JSValue) : bool :=
  match v with
  | JObject fields => bool_decide (is_Some (assoc "toString" fields))
  | JArray items =>
      (fix any (l : list JSValue) : bool :=
         match l with
         | [] => false
         | x :: rest => toStringThrows x || any rest
         end) items
  | _ => false
  end.

(** ** String helpers *)

(** The value of a byte. *)
Definition codeOf (c : ascii) : Z := Z.of_N (N_of_ascii c).

(** The code point of a two-byte and of a three-byte UTF-8 sequence, -1
    when the bytes are not such a sequence. *)
Definition codePoint2 (c1 c2 : ascii) : Z :=
  if ((192 <=? codeOf c1) && (codeOf c1 <=? 223)
      && (128 <=? codeOf c2) && (codeOf c2 <=? 191))%Z
  then (codeOf c1 - 192) * 64 + (codeOf c2 - 128)
  else -1.

Definition codePoint3 (c1 c2 c3 : ascii) : Z :=
  if ((224 <=? codeOf c1) && (codeOf c1 <=? 239)
      && (128 <=? codeOf c2) && (codeOf c2 <=? 191)
      && (128 <=? codeOf c3) && (codeOf c3 <=? 191))%Z
  then (codeOf c1 - 224) * 4096 + (codeOf c2 - 128) * 64 + (codeOf c3 - 128)
  else -1.

Definition lowerAscii (c : ascii) : ascii :=
  let n := nat_of_ascii c in
  if andb (Nat.leb 65 n) (Nat.leb n 90) then ascii_of_nat (n + 32) else c.

(** [s.toLowerCase()], as far as ASCII text can tell: the letters A-Z are
    lowered and the Kelvin sign U+212A becomes [k], the one character
    outside ASCII whose lower case lies inside it.  Every other character
    outside ASCII is kept, where JavaScript lowers it to characters that
    are again outside ASCII (U+0130 to [i] followed by U+0307).  The
    sources compare the result with ASCII text only: they split it at [@],
    compare a part with the listed domains and search it for [gift]. *)
Fixpoint toLowerCase (s : string) : string :=
  match s with
  | EmptyString => EmptyString
  | String c1 r1 =>
      match r1 with
      | String c2 (String c3 r3) =>
          if (codePoint3 c1 c2 c3 =? 8490)%Z then String "k" (toLowerCase r3)
          else String (lowerAscii c1) (toLowerCase r1)
      | _ => String (lowerAscii c1) (toLowerCase r1)
      end
  end.

(** [hay.includes(needle)] *)
Fixpoint includes (needle hay : string) : bool :=
  String.prefix needle hay ||
  match hay with
  | EmptyString => false
  | String _ rest => includes needle rest
  end.

(** The text before the first [sep], or the whole string. *)
Fixpoint beforeSep (sep : ascii) (s : string) : string :=
  match s with
  | EmptyString => EmptyString
  | String c rest => if Ascii.eqb c sep then EmptyString else String c (beforeSep sep rest)
  end.

(** The text after the first [sep], if there is one. *)
Fixpoint afterSep (sep : ascii) (s : string) : option string :=
  match s with
  | EmptyString => None
  | String c rest => if Ascii.eqb c sep then Some rest else afterSep sep rest
  end.

(** [s.split(sep)[1]] for a one-character separator. *)
Definition splitSecond (sep : ascii) (s : string) : option string :=
  option_map (beforeSep sep) (afterSep sep s).

(** [v.toLowerCase()]: only a string has the method. *)
Definition callToLowerCase (v : JSValue) : result string :=
  match v with
  | JString s => Ok (toLowerCase s)
  | _ => Throw TypeError
  end.

(** ** [parseFloat] *)

(** StrWhiteSpaceChar: the white space and the line terminators of
    ECMAScript, that is TAB, LF, VT, FF, CR, the no-break space, the byte
    order mark, the two separators U+2028 and U+2029, and the space
    separators of Unicode. *)
Definition isWhiteSpace (codePoint : Z) : bool :=
  (((9 <=? codePoint) && (codePoint <=? 13))
   || (codePoint =? 32) || (codePoint =? 160) || (codePoint =? 5760)
   || ((8192 <=? codePoint) && (codePoint <=? 8202))
   || (codePoint =? 8232) || (codePoint =? 8233) || (codePoint =? 8239)
   || (codePoint =? 8287) || (codePoint =? 12288) || (codePoint =? 65279))%Z.

(** The leading white space is skipped, one character of one, two or three
    bytes at a time. *)
Fixpoint trimStart (s : string) : string :=
  match s with
  | String c1 r1 =>
      if isWhiteSpace (codeOf c1) && (codeOf c1 <? 128)%Z then trimStart r1
      else
        match r1 with
        | String c2 r2 =>
            if isWhiteSpace (codePoint2 c1 c2) then trimStart r2
            else
              match r2 with
              | String c3 r3 =>
                  if isWhiteSpace (codePoint3 c1 c2 c3) then trimStart r3 else s
              | EmptyString => s
              end
        | EmptyString => s
        end
  | EmptyString => s
  end.

Definition digitOf (c : ascii) : option Z :=
  let n := nat_of_ascii c in
  if Nat.leb 48 n && Nat.leb n 57 then Some (Z.of_nat n - 48) else None.

(** Reads a run of decimal digits: the accumulated value, the number of
    digits read, and what follows them. *)
Fixpoint readDigits (s : string) (acc : Z) (count : nat) : Z * nat * string :=
  match s with
  | String c rest =>
      match digitOf c with
      | Some d => readDigits rest (10 * acc + d) (S count)
      | None => (acc, count, s)
      end
  | EmptyString => (acc, count, s)
  end.

(** The exponent part [e[+-]digits], when it is complete. *)
Definition readExponent (s : string) : Z :=
  match s with
  | String c rest =>
      if Ascii.eqb c "e" || Ascii.eqb c "E" then
        let '(sign, digits) :=
          match rest with
          | String "+" r => (1, r)
          | String "-" r => (-1, r)
          | _ => (1, rest)
          end in
        let '(e, n, _) := readDigits digits 0 0 in
        match n with O => 0 | _ => sign * e end
      else 0
  | EmptyString => 0
  end.

(** [num / den] rounded to the nearest integer, a tie going to the even
    one. *)
Definition roundHalfEven (num den : Z) : Z :=
  let quotient := num / den in
  let remainder := num mod den in
  match (2 * remainder ?= den) with
  | Lt => quotient
  | Gt => quotient + 1
  | Eq => if Z.even quotient then quotient else quotient + 1
  end.

(** The Number value for the positive rational [n / d]: the nearest double,
    a tie going to the even significand; infinity from [2^1024 - 2^970]
    on.  With [e] the binary exponent of [n / d], the doubles around it
    are the multiples of [2^p], where [p] is [e - 52] and not below
    -1074. *)
Definition roundToDouble (n d : Z) : number :=
  let k := Z.log2 n - Z.log2 d in
  let e := if (0 <=? k)%Z
           then (if (d * 2 ^ k <=? n)%Z then k else k - 1)
           else (if (d <=? n * 2 ^ (- k))%Z then k else k - 1) in
  let p := Z.max (e - 52) (-1074) in
  if (0 <=? p)%Z then
    let m := roundHalfEven n (d * 2 ^ p) in
    if (2 ^ 1024 <=? m * 2 ^ p)%Z then PosInfinity else Fin (inject_Z (m * 2 ^ p))
  else
    let m := roundHalfEven (n * 2 ^ (- p)) d in
    Fin (Qred (Qmake m (Z.to_pos (2 ^ (- p))))).

(** The Number value for [m * 10^e], [m] not negative. *)
Definition scale10 (m e : Z) : number :=
  if (m =? 0)%Z then Fin 0
  else if (0 <=? e)%Z then roundToDouble (m * 10 ^ e) 1
  else roundToDouble m (10 ^ (- e)).

(** StrUnsignedDecimalLiteral: the longest prefix is taken. *)
Definition parseUnsigned (s : string) : number :=
  if String.prefix "Infinity" s then PosInfinity
  else
    let '(ip, ni, r1) := readDigits s 0 0 in
    let '(m, nf, r2) :=
      match r1 with
      | String "." r => readDigits r ip 0
      | _ => (ip, O, r1)
      end in
    match (ni + nf)%nat with
    | O => NaN
    | _ => scale10 m (readExponent r2 - Z.of_nat nf)
    end.

Definition negate (n : number) : number :=
  match n with
  | NaN => NaN
  | NegInfinity => PosInfinity
  | PosInfinity => NegInfinity
  | Fin q => Fin (Qopp q)
  end.

Definition parseFloatString (s : string) : number :=
  match trimStart s with
  | String "-" rest => negate (parseUnsigned rest)
  | String "+" rest => parseUnsigned rest
  | t => parseUnsigned t
  end.

(** [parseFloat] of the string a value converts to.  A number converts to
    a literal that reads back as itself; an array converts to the join of
    its elements, whose longest numeric prefix lies in the first one;
    [undefined], [null], booleans and objects give no numeric prefix. *)
Fixpoint parseFloatValue (v : JSValue) : number :=
  match v with
  | JNumber n => n
  | JString s => parseFloatString s
  | JArray (x :: _) => parseFloatValue x
  | _ => NaN
  end.

Definition parseFloat (v : JSValue) : result number :=
  if toStringThrows v then Throw TypeError else Ok (parseFloatValue v).

(** ** What the engine and the host provide *)

Class Host := {
  (** [new Date(v).getHours()] in the server's time zone, for a value that
      converts without throwing; [None] is NaN (an invalid date). *)
  localHours : JSValue -> option Z;
  (** Number::toString *)
  numberToString : number -> string;
  (** [JSON.parse]; [None] is a SyntaxError. *)
  JSON_parse : string -> option JSValue;
  (** [createHmac("SHA256", key).update(data).digest("base64")] *)
  hmacSha256Base64 : string -> string -> string;
  (** [process.env.SHOPIFY_API_SECRET] *)
  SHOPIFY_API_SECRET : option string;
}.

(** * app/models/store.server.ts *)

Module Store.

Record RiskThresholds := {
  high : Q;
  medium : Q;
}.

Record RiskFactors := {
  orderValue : bool;
  customerHistory : bool;
  ipLocation : bool;
  checkoutSpeed : bool;
  addressMismatch : bool;
  emailDomain : bool;
  orderTime : bool;
  giftCardUse : bool;
  quantitySpike : bool;
}.

Inductive Frequency := immediate | hourly | daily.

Record EmailChannel := {
  emailEnabled : bool;
  address : string;
}.

Record SlackChannel := {
  slackEnabled : bool;
  webhookUrl : string;
}.

Record Notifications := {
  email : EmailChannel;
  slack : SlackChannel;
  frequency : Frequency;
}.

Record Automations := {
  holdHighRiskOrders : bool;
  emailVerification : bool;
  cancelHighRiskOrders : bool;
  customEmail : bool;
  flagForReview : bool;
  customEmailTemplate : option string;
}.

Inductive DataSharing := none | anonymized | full.

Record AiSettings := {
  enableFeedback : bool;
  dataSharing : DataSharing;
}.

(** The [shopId] of a document is its key in the collection; the two
    timestamps are left out. *)
Record StoreSettings := {
  riskThresholds : RiskThresholds;
  riskFactors : RiskFactors;
  notifications : Notifications;
  automations : Automations;
  aiSettings : AiSettings;
}.

Inductive Plan := free | pro | business.

Record TrialStatus := {
  isActive : bool;
  daysRemaining : Z;
  plan : Plan;
}.

Definition plan_eqb (a b : Plan) : bool :=
  match a, b with
  | free, free | pro, pro | business, business => true
  | _, _ => false
  end.

Definition frequency_eqb (a b : Frequency) : bool :=
  match a, b with
  | immediate, immediate | hourly, hourly | daily, daily => true
  | _, _ => false
  end.

End Store.

(** * app/models/order.server.ts *)

Module OrderModel.

Inductive RiskLevel := low | medium | high.

Inductive OrderStatus := approved | pending | declined | on_hold.

Definition level_eqb (a b : RiskLevel) : bool :=
  match a, b with
  | low, low | medium, medium | high, high => true
  | _, _ => false
  end.

(** The object [analyzeOrderRisk] returns, stored as [riskAnalysis].
    [ipAddress] is whatever the payload held. *)
Record RiskAnalysis := {
  score : Z;
  level : RiskLevel;
  factors : list string;
  reviewed : bool;
  status : OrderStatus;
  ipAddress : JSValue;
  checkoutSpeed : JSValue;
}.

Record Customer := {
  customerId : JSValue;
  firstName : JSValue;
  lastName : JSValue;
  customerEmail : JSValue;
  phone : JSValue;
  totalOrders : JSValue;
  totalSpent : option number;
}.

Record Item := {
  itemId : string;
  title : JSValue;
  quantity : JSValue;
  price : number;
  sku : JSValue;
}.

Record Address := {
  address1 : JSValue;
  address2 : JSValue;
  city : JSValue;
  province : JSValue;
  zip : JSValue;
  country : JSValue;
}.

(** [date] keeps the payload's [created_at], of which the stored date is
    a function; [createdAt] and [updatedAt] are left out. *)
Record Order := {
  shopId : string;
  orderId : string;
  orderNumber : JSValue;
  date : JSValue;
  customer : Customer;
  financialStatus : JSValue;
  fulfillmentStatus : JSValue;
  totalPrice : number;
  currency : JSValue;
  items : list Item;
  shippingAddress : option Address;
  billingAddress : option Address;
  riskAnalysis : RiskAnalysis;
}.

End OrderModel.

(** ** The collections *)

(** The documents of a collection in their natural order.  A document of
    [storeSettings] or of [trialStatus] is its [shopId] with its other
    fields. *)
Record Database := {
  storeSettingsColl : list (string * Store.StoreSettings);
  trialStatusColl : list (string * Store.TrialStatus);
  ordersColl : list OrderModel.Order;
}.

(** [findOne({ shopId })]: the first matching document. *)
Definition findOne {A} (shopId : string) (coll : list (string * A)) : option A :=
  option_map snd (List.find (fun document => String.eqb (fst document) shopId) coll).

Definition getStoreSettings (db : Database) (shopId : string) : option Store.StoreSettings :=
  findOne shopId (storeSettingsColl db).

Definition getTrialStatus (db : Database) (shopId : string) : option Store.TrialStatus :=
  findOne shopId (trialStatusColl db).

(** [findOne({ shopId, orderId })]: the first matching document. *)
Definition getOrderById (db : Database) (shopId orderId : string) : option OrderModel.Order :=
  List.find (fun o => String.eqb (OrderModel.shopId o) shopId
                      && String.eqb (OrderModel.orderId o) orderId)
            (ordersColl db).

(** [insertOne]: the document is appended. *)
Definition createOrder (db : Database) (order : OrderModel.Order) : Database :=
  {| storeSettingsColl := storeSettingsColl db;
     trialStatusColl := trialStatusColl db;
     ordersColl := ordersColl db ++ [order] |}.

(** * app/utils/riskAnalysis.server.ts *)

Module RiskAnalysis.
Import OrderModel.

Record RiskFactorResult := {
  factor : string;
  description : string;
  riskContribution : Z;
}.

(** The two locals the factor checks update: the array [riskFactors] and
    the counter [totalRiskScore]. *)
Record Scoring := {
  riskFactors : list RiskFactorResult;
  totalRiskScore : Z;
}.

Definition noRisk : Scoring := {| riskFactors := []; totalRiskScore := 0 |}.

(** [riskFactors.push(f); totalRiskScore += f.riskContribution] *)
Definition flag (f : RiskFactorResult) (st : Scoring) : Scoring :=
  {| riskFactors := riskFactors st ++ [f];
     totalRiskScore := totalRiskScore st + riskContribution f |}.

Definition defaultThresholds : Store.RiskThresholds :=
  {| Store.high := 75; Store.medium := 50 |}.

Definition defaultFactors : Store.RiskFactors :=
  {| Store.orderValue := true; Store.customerHistory := true;
     Store.ipLocation := true; Store.checkoutSpeed := true;
     Store.addressMismatch := true; Store.emailDomain := true;
     Store.orderTime := true; Store.giftCardUse := true;
     Store.quantitySpike := true |}.

(** The factor set of the free plan. *)
Definition freeFactors : Store.RiskFactors :=
  {| Store.orderValue := true; Store.addressMismatch := true;
     Store.emailDomain := true; Store.orderTime := false;
     Store.customerHistory := false; Store.ipLocation := false;
     Store.checkoutSpeed := false; Store.giftCardUse := false;
     Store.quantitySpike := false |}.

(** [trialStatus?.isActive || trialStatus?.plan === 'pro' ||
    trialStatus?.plan === 'business'], as a condition. *)
Definition isProPlan (trialStatus : option Store.TrialStatus) : bool :=
  match trialStatus with
  | None => false
  | Some t =>
      Store.isActive t || Store.plan_eqb (Store.plan t) Store.pro
      || Store.plan_eqb (Store.plan t) Store.business
  end.

Definition suspiciousDomains : list string :=
  ["tempmail.com"; "throwawaymail.com"; "mailinator.com";
   "guerrillamail.com"; "yopmail.com"; "sharklasers.com"].

Definition checkOrderValue (factorsToCheck : Store.RiskFactors)
    (order : JSValue) (st : Scoring) : result Scoring :=
  if Store.orderValue factorsToCheck then
    total_price <- getProp order "total_price" ;;
    totalPrice <- parseFloat total_price ;;
    if num_gt totalPrice (Fin 1000) then
      Ok (flag {| factor := "orderValue"; description := "High value order";
                  riskContribution := 20 |} st)
    else if num_gt totalPrice (Fin 500) then
      Ok (flag {| factor := "orderValue"; description := "Medium-high value order";
                  riskContribution := 10 |} st)
    else Ok st
  else Ok st.

Definition checkAddressMismatch (factorsToCheck : Store.RiskFactors)
    (order : JSValue) (st : Scoring) : result Scoring :=
  if Store.addressMismatch factorsToCheck then
    billing <- getProp order "billing_address" ;;
    if truthy billing then
      shipping <- getProp order "shipping_address" ;;
      if truthy shipping then
        bzip <- getProp billing "zip" ;;
        szip <- getProp shipping "zip" ;;
        bcity <- getProp billing "city" ;;
        scity <- getProp shipping "city" ;;
        bcountry <- getProp billing "country" ;;
        scountry <- getProp shipping "country" ;;
        if strictNeq bzip szip || strictNeq bcity scity || strictNeq bcountry scountry then
          Ok (flag {| factor := "addressMismatch";
                      description := "Billing and shipping addresses don't match";
                      riskContribution := 15 |} st)
        else Ok st
      else Ok st
    else Ok st
  else Ok st.

Definition checkEmailDomain (factorsToCheck : Store.RiskFactors)
    (order : JSValue) (st : Scoring) : result Scoring :=
  if Store.emailDomain factorsToCheck then
    customer <- getProp order "customer" ;;
    if truthy customer then
      rawEmail <- getProp customer "email" ;;
      if truthy rawEmail then
        email <- callToLowerCase rawEmail ;;
        match splitSecond "@" email with
        | Some domain =>
            if negb (String.eqb domain "")
               && existsb (String.eqb domain) suspiciousDomains then
              Ok (flag {| factor := "emailDomain";
                          description := "Suspicious email domain";
                          riskContribution := 25 |} st)
            else Ok st
        | None => Ok st
        end
      else Ok st
    else Ok st
  else Ok st.

Definition checkIpLocation (factorsToCheck : Store.RiskFactors)
    (order : JSValue) (st : Scoring) : result Scoring :=
  if Store.ipLocation factorsToCheck then
    browser_ip <- getProp order "browser_ip" ;;
    if truthy browser_ip then
      Ok (flag {| factor := "ipLocation";
                  description := "IP address tracking enabled";
                  riskContribution := 5 |} st)
    else Ok st
  else Ok st.

(** [new Date(v)]: the conversion of [v] to a primitive may throw; the
    date stands for the value it was built from. *)
Definition newDate (v : JSValue) : result JSValue :=
  if toStringThrows v then Throw TypeError else Ok v.

Definition checkOrderTime `{Host} (factorsToCheck : Store.RiskFactors)
    (order : JSValue) (st : Scoring) : result Scoring :=
  if Store.orderTime factorsToCheck then
    created_at <- getProp order "created_at" ;;
    if truthy created_at then
      orderDate <- newDate created_at ;;
      match localHours orderDate with
      | Some h =>
          if (22 <=? h)%Z || (h <=? 4)%Z then
            Ok (flag {| factor := "orderTime";
                        description := "Order placed during unusual hours";
                        riskContribution := 10 |} st)
          else Ok st
      | None => Ok st
      end
    else Ok st
  else Ok st.

(** [names.some(method => method.toLowerCase().includes('gift'))] on the
    elements of an array: it stops at the first match. *)
Fixpoint someGift (names : list JSValue) : result bool :=
  match names with
  | [] => Ok false
  | method :: rest =>
      lowered <- callToLowerCase method ;;
      if includes "gift" lowered then Ok true else someGift rest
  end.

(** Only an array has the method [some]. *)
Definition callSomeGift (v : JSValue) : result bool :=
  match v with
  | JArray names => someGift names
  | _ => Throw TypeError
  end.

Definition checkGiftCardUse (factorsToCheck : Store.RiskFactors)
    (order : JSValue) (st : Scoring) : result Scoring :=
  if Store.giftCardUse factorsToCheck then
    names <- getProp order "payment_gateway_names" ;;
    if truthy names then
      gift <- callSomeGift names ;;
      if gift then
        Ok (flag {| factor := "giftCardUse";
                    description := "Payment with gift card";
                    riskContribution := 15 |} st)
      else Ok st
    else Ok st
  else Ok st.

(** Lines 53-158 of [analyzeOrderRisk]: the factor checks in their order. *)
Definition scoreFactors `{Host} (factorsToCheck : Store.RiskFactors)
    (isPro : bool) (order : JSValue) : result Scoring :=
  st <- checkOrderValue factorsToCheck order noRisk ;;
  st <- checkAddressMismatch factorsToCheck order st ;;
  st <- checkEmailDomain factorsToCheck order st ;;
  if isPro then
    st <- checkIpLocation factorsToCheck order st ;;
    st <- checkOrderTime factorsToCheck order st ;;
    checkGiftCardUse factorsToCheck order st
  else Ok st.

(** [storeSettings?.automations?.flag], as a condition. *)
Definition automation (storeSettings : option Store.StoreSettings)
    (flag : Store.Automations -> bool) : bool :=
  match storeSettings with
  | Some s => flag (Store.automations s)
  | None => false
  end.

Definition analyzeOrderRisk `{Host} (db : Database) (order : JSValue)
    (shopId : string) : result RiskAnalysis :=
  let storeSettings := getStoreSettings db shopId in
  let trialStatus := getTrialStatus db shopId in
  let riskThresholds :=
    match storeSettings with
    | Some s => Store.riskThresholds s
    | None => defaultThresholds
    end in
  let enabledFactors :=
    match storeSettings with
    | Some s => Store.riskFactors s
    | None => defaultFactors
    end in
  let isPro := isProPlan trialStatus in
  let factorsToCheck := if isPro then enabledFactors else freeFactors in
  st <- scoreFactors factorsToCheck isPro order ;;
  let totalRiskScore := totalRiskScore st in
  let riskLevel :=
    if Qle_bool (Store.high riskThresholds) (inject_Z totalRiskScore) then high
    else if Qle_bool (Store.medium riskThresholds) (inject_Z totalRiskScore) then medium
    else low in
  let status :=
    if level_eqb riskLevel high && automation storeSettings Store.holdHighRiskOrders
    then on_hold
    else if level_eqb riskLevel high && automation storeSettings Store.flagForReview
    then pending
    else if level_eqb riskLevel high && automation storeSettings Store.cancelHighRiskOrders
    then declined
    else approved in
  browser_ip <- getProp order "browser_ip" ;;
  client_details <- getProp order "client_details" ;;
  Ok {| score := totalRiskScore;
        level := riskLevel;
        factors := map description (riskFactors st);
        reviewed := false;
        status := status;
        ipAddress := if truthy browser_ip then browser_ip
                     else getPropOpt client_details "browser_ip";
        checkoutSpeed := JUndefined |}.

(** ** [mapShopifyOrderToModel] *)

(** ToString of a value that converts without throwing. *)
Fixpoint jsString `{Host} (v : JSValue) : string :=
  match v with
  | JUndefined => "undefined"
  | JNull => "null"
  | JBool true => "true"
  | JBool false => "false"
  | JNumber n => numberToString n
  | JString s => s
  | JArray items =>
      (fix join (l : list JSValue) : string :=
         match l with
         | [] => ""
         | x :: rest =>
             let piece := if nullish x then "" else jsString x in
             match rest with
             | [] => piece
             | _ => piece +:+ "," +:+ join rest
             end
         end) items
  | JObject _ => "[object Object]"
  end.

(** [v.toString()] *)
Definition callToString `{Host} (v : JSValue) : result string :=
  if nullish v || toStringThrows v then Throw TypeError else Ok (jsString v).

(** [a || b] *)
Definition orElse (a b : JSValue) : JSValue := if truthy a then a else b.

(** [s.replace('#', '')]: the first [#] is removed. *)
Fixpoint removeFirstHash (s : string) : string :=
  match s with
  | EmptyString => EmptyString
  | String c rest => if Ascii.eqb c "#" then rest else String c (removeFirstHash rest)
  end.

(** [v?.replace('#', '')]: only a string has the method. *)
Definition callReplaceHashOpt (v : JSValue) : result JSValue :=
  match v with
  | JUndefined | JNull => Ok JUndefined
  | JString s => Ok (JString (removeFirstHash s))
  | _ => Throw TypeError
  end.

(** [order.order_number?.toString() || order.name?.replace('#', '') || ''] *)
Definition orderNumberOf `{Host} (order : JSValue) : result JSValue :=
  order_number <- getProp order "order_number" ;;
  shown <- (if nullish order_number then Ok JUndefined
            else s <- callToString order_number ;; Ok (JString s)) ;;
  if truthy shown then Ok shown
  else
    name <- getProp order "name" ;;
    replaced <- callReplaceHashOpt name ;;
    Ok (orElse replaced (JString "")).

Definition customerOf `{Host} (order : JSValue) : result Customer :=
  customer <- getProp order "customer" ;;
  let id := getPropOpt customer "id" in
  shownId <- (if nullish id then Ok JUndefined
              else s <- callToString id ;; Ok (JString s)) ;;
  let total_spent := getPropOpt customer "total_spent" in
  spent <- (if truthy total_spent then n <- parseFloat total_spent ;; Ok (Some n)
            else Ok None) ;;
  Ok {| customerId := shownId;
        firstName := orElse (getPropOpt customer "first_name") (JString "Guest");
        lastName := orElse (getPropOpt customer "last_name") (JString "Customer");
        customerEmail := orElse (getPropOpt customer "email") (JString "");
        phone := getPropOpt customer "phone";
        totalOrders := getPropOpt customer "orders_count";
        totalSpent := spent |}.

Definition itemOf `{Host} (item : JSValue) : result Item :=
  id <- getProp item "id" ;;
  shownId <- callToString id ;;
  itemTitle <- getProp item "title" ;;
  itemQuantity <- getProp item "quantity" ;;
  itemPrice <- getProp item "price" ;;
  parsedPrice <- parseFloat (orElse itemPrice (JString "0")) ;;
  itemSku <- getProp item "sku" ;;
  Ok {| itemId := shownId;
        title := orElse itemTitle (JString "Unknown Product");
        quantity := orElse itemQuantity (JNumber (Fin 1));
        price := parsedPrice;
        sku := itemSku |}.

Fixpoint mapItems `{Host} (l : list JSValue) : result (list Item) :=
  match l with
  | [] => Ok []
  | item :: rest =>
      first <- itemOf item ;;
      others <- mapItems rest ;;
      Ok (first :: others)
  end.

(** [(order.line_items || []).map(...)]: only an array has [map]. *)
Definition itemsOf `{Host} (order : JSValue) : result (list Item) :=
  line_items <- getProp order "line_items" ;;
  if truthy line_items then
    match line_items with
    | JArray l => mapItems l
    | _ => Throw TypeError
    end
  else Ok [].

Definition addressOf (order : JSValue) (name : string) : result (option Address) :=
  a <- getProp order name ;;
  if truthy a then
    Ok (Some {| address1 := orElse (getPropOpt a "address1") (JString "");
                address2 := orElse (getPropOpt a "address2") (JString "");
                city := orElse (getPropOpt a "city") (JString "");
                province := orElse (getPropOpt a "province") (JString "");
                zip := orElse (getPropOpt a "zip") (JString "");
                country := orElse (getPropOpt a "country") (JString "") |})
  else Ok None.

Definition mapShopifyOrderToModel `{Host} (order : JSValue) (shopId : string)
    (riskAnalysis : RiskAnalysis) : result Order :=
  id <- getProp order "id" ;;
  shownId <- callToString id ;;
  number <- orderNumberOf order ;;
  created_at <- getProp order "created_at" ;;
  orderDate <- newDate created_at ;;
  cust <- customerOf order ;;
  financial_status <- getProp order "financial_status" ;;
  fulfillment_status <- getProp order "fulfillment_status" ;;
  total_price <- getProp order "total_price" ;;
  parsedTotal <- parseFloat (orElse total_price (JString "0")) ;;
  orderCurrency <- getProp order "currency" ;;
  lineItems <- itemsOf order ;;
  shipping <- addressOf order "shipping_address" ;;
  billing <- addressOf order "billing_address" ;;
  Ok {| shopId := shopId;
        orderId := shownId;
        orderNumber := number;
        date := orderDate;
        customer := cust;
        financialStatus := orElse financial_status (JString "unknown");
        fulfillmentStatus := orElse fulfillment_status (JString "unfulfilled");
        totalPrice := parsedTotal;
        currency := orElse orderCurrency (JString "USD");
        items := lineItems;
        shippingAddress := shipping;
        billingAddress := billing;
        riskAnalysis := riskAnalysis |}.

End RiskAnalysis.

(** * Effects *)

Definition Socket := nat.

(** What a socket is sent: the two envelopes of the realtime channel. *)
Inductive Message :=
| ConnectionMessage (message : string)
| UpdateMessage (data : JSValue).

(** A call that leaves the process.  A console line is kept by its fixed
    text; the interpolated values are dropped. *)
Inductive Event :=
| ConsoleLog (text : string)
| ConsoleError (text : string)
| JsonParse (raw : string)
| InsertOne (order : OrderModel.Order)
| EmailNotification (address : string) (order : OrderModel.Order)
    (customTemplate : option string)
| SlackNotification (webhookUrl : string) (order : OrderModel.Order)
| SocketSend (socket : Socket) (message : Message)
| SocketClose (socket : Socket) (code : Z).

Record World := {
  database : Database;
  events : list Event;
}.

(** A computation that reads and updates the world and may throw. *)
Definition IO (A : Type) : Type := World -> result A * World.

Definition ioRet {A} (a : A) : IO A := fun w => (Ok a, w).

Definition ioBind {A B} (m : IO A) (k : A -> IO B) : IO B :=
  fun w =>
    match m w with
    | (Ok a, w') => k a w'
    | (Throw e, w') => (Throw e, w')
    end.

Notation "x <~ m ;; k" := (ioBind m (fun x => k))
  (at level 100, m at next level, right associativity).
Notation "m ;;; k" := (ioBind m (fun _ => k))
  (at level 100, right associativity).

Definition emit (e : Event) : IO unit :=
  fun w => (Ok tt, {| database := database w; events := events w ++ [e] |}).

Definition readDatabase : IO Database := fun w => (Ok (database w), w).

Definition writeDatabase (db : Database) : IO unit :=
  fun w => (Ok tt, {| database := db; events := events w |}).

Definition liftResult {A} (r : result A) : IO A := fun w => (r, w).

(** [try { body } catch (error) { handler }] *)
Definition tryCatch (body : IO unit) (handler : JSError -> IO unit) : IO unit :=
  fun w =>
    match body w with
    | (Ok _, w') => (Ok tt, w')
    | (Throw e, w') => handler e w'
    end.

(** * app/utils/notifications.server.ts *)

Module Notifications.
Import OrderModel.

(** The body only writes to the console what it would send. *)
Definition sendEmailNotification (email : string) (order : Order)
    (customTemplate : option string) : IO unit :=
  emit (EmailNotification email order customTemplate).

Definition sendSlackNotification (webhookUrl : string) (order : Order) : IO unit :=
  emit (SlackNotification webhookUrl order).

Definition nonEmpty (s : string) : bool := negb (String.eqb s "").

Definition sendRiskNotifications (order : Order) (shopId : string) : IO unit :=
  tryCatch
    (db <~ readDatabase ;;
     let storeSettings := getStoreSettings db shopId in
     let trialStatus := getTrialStatus db shopId in
     let isPro := RiskAnalysis.isProPlan trialStatus in
     if negb (level_eqb (level (riskAnalysis order)) high)
        && negb (level_eqb (level (riskAnalysis order)) medium) then
       emit (ConsoleLog "No notification needed for low-risk order")
     else
       match storeSettings with
       | None => emit (ConsoleLog "No notification settings found for shop:")
       | Some settings =>
           let notifications := Store.notifications settings in
           if negb isPro && negb (level_eqb (level (riskAnalysis order)) high) then
             emit (ConsoleLog
               "Free plan users only receive notifications for high-risk orders")
           else if negb (Store.frequency_eqb (Store.frequency notifications)
                           Store.immediate) then
             emit (ConsoleLog "Notification queued for delivery")
           else
             (if Store.emailEnabled (Store.email notifications)
                 && nonEmpty (Store.address (Store.email notifications)) then
                sendEmailNotification
                  (Store.address (Store.email notifications)) order
                  (Store.customEmailTemplate (Store.automations settings))
              else ioRet tt) ;;;
             (if isPro && Store.slackEnabled (Store.slack notifications)
                 && nonEmpty (Store.webhookUrl (Store.slack notifications)) then
                sendSlackNotification
                  (Store.webhookUrl (Store.slack notifications)) order
              else ioRet tt) ;;;
             emit (ConsoleLog "Notifications sent for order")
       end)
    (fun _ => emit (ConsoleError "Error sending notifications:")).

End Notifications.

(** * app/routes/webhooks.orders.created.tsx *)

Module Webhook.

Record Request := {
  headers : gmap string string;
}.

(** [request.headers.get(name)] *)
Definition headersGet (request : Request) (name : string) : option string :=
  headers request !! name.

(** A header value read as a condition: present and not empty. *)
Definition present (h : option string) : bool :=
  match h with
  | Some s => negb (String.eqb s "")
  | None => false
  end.

(** [process.env.SHOPIFY_API_SECRET || ""] *)
Definition secretKey `{Host} : string := default "" SHOPIFY_API_SECRET.

Definition jsonParse `{Host} (raw : string) : IO JSValue :=
  emit (JsonParse raw) ;;;
  liftResult (match JSON_parse raw with
              | Some v => Ok v
              | None => Throw SyntaxError
              end).

(** The interpolation of [payload.name || payload.id] in a console line:
    the property reads and the conversion to a string may throw. *)
Definition orderLabel (payload : JSValue) : result unit :=
  name <- getProp payload "name" ;;
  label <- (if truthy name then Ok name else getProp payload "id") ;;
  if toStringThrows label then Throw TypeError else Ok tt.

Definition processWebhook `{Host} (request : Request) (rawPayload : string) : IO unit :=
  let signature := headersGet request "x-shopify-hmac-sha256" in
  let generatedSignature := hmacSha256Base64 secretKey rawPayload in
  if present signature
     && negb (bool_decide (signature = Some generatedSignature)) then
    emit (ConsoleError "Invalid webhook signature")
  else
    tryCatch
      (payload <~ jsonParse rawPayload ;;
       let shop := headersGet request "x-shopify-shop-domain" in
       match shop with
       | Some shopId =>
           if String.eqb shopId "" then
             emit (ConsoleError "Missing shop domain in webhook headers")
           else
             emit (ConsoleLog "Received webhook from shop") ;;;
             liftResult (orderLabel payload) ;;;
             emit (ConsoleLog "Order received") ;;;
             emit (ConsoleLog "Analyzing order risk for shop:") ;;;
             db <~ readDatabase ;;
             riskAnalysis <~ liftResult (RiskAnalysis.analyzeOrderRisk db payload shopId) ;;
             emit (ConsoleLog "Risk analysis result:") ;;;
             orderData <~ liftResult
               (RiskAnalysis.mapShopifyOrderToModel payload shopId riskAnalysis) ;;
             emit (InsertOne orderData) ;;;
             db <~ readDatabase ;;
             writeDatabase (createOrder db orderData) ;;;
             emit (ConsoleLog "Order saved to database") ;;;
             liftResult (orderLabel payload) ;;;
             emit (ConsoleLog "Order Analysis Summary:") ;;;
             id <~ liftResult (getProp payload "id") ;;
             shownId <~ liftResult (RiskAnalysis.callToString id) ;;
             db <~ readDatabase ;;
             match getOrderById db shopId shownId with
             | Some savedOrder => Notifications.sendRiskNotifications savedOrder shopId
             | None => emit (ConsoleError "Could not find saved order for notifications")
             end
       | None => emit (ConsoleError "Missing shop domain in webhook headers")
       end)
      (fun _ => emit (ConsoleError "Error processing webhook payload:")).

End Webhook.

(** * app/utils/websocket.server.ts *)

Module WebSocketServer.

(** A [Set<WebSocket>]: its elements in insertion order, none twice. *)
Definition setAdd (socket : Socket) (s : list Socket) : list Socket :=
  if bool_decide (socket ∈ s) then s else s ++ [socket].

Definition setDelete (socket : Socket) (s : list Socket) : list Socket :=
  filter (fun x => x ≠ socket) s.

(** [shopConnections] is a plain object: besides the properties stored in
    it, it has the ones every object inherits from [Object.prototype],
    under these names. *)
Definition objectPrototypeKeys : list string :=
  ["constructor"; "__defineGetter__"; "__defineSetter__"; "hasOwnProperty";
   "__lookupGetter__"; "__lookupSetter__"; "isPrototypeOf";
   "propertyIsEnumerable"; "toString"; "valueOf"; "__proto__"; "toLocaleString"].

(** What [shopConnections[shopId]] evaluates to: the set stored under the
    name; or else the value inherited under it, a function or the
    prototype object, which is truthy and has none of [add], [size] and
    [forEach]; or else [undefined]. *)
Inductive Slot :=
| OwnSet (connections : list Socket)
| InheritedValue
| NoValue.

Definition slotOf (conns : gmap string (list Socket)) (shopId : string) : Slot :=
  match conns !! shopId with
  | Some connections => OwnSet connections
  | None => if bool_decide (shopId ∈ objectPrototypeKeys) then InheritedValue else NoValue
  end.

(** The properties stored in [shopConnections], and for every socket the
    shop ids captured by the listeners that the connection handler
    registered on it. *)
Record Server := {
  shopConnections : gmap string (list Socket);
  listeners : gmap Socket (list string);
}.

Definition initial : Server := {| shopConnections := ∅; listeners := ∅ |}.

(** The sockets registered for a shop. *)
Definition connectionsOf (sv : Server) (shopId : string) : list Socket :=
  default [] (shopConnections sv !! shopId).

(** What a handler leaves behind: how it ended, the server, and what it
    wrote. *)
Record Outcome := {
  ended : result unit;
  after : Server;
  wrote : list Event;
}.

(** The handler of ['connection'] that [initializeWebSocketServer]
    installs; [shop] is [url.searchParams.get('shop')]. *)
Definition onConnection (socket : Socket) (shop : option string)
    (sv : Server) : Outcome :=
  match shop with
  | Some shopId =>
      if String.eqb shopId "" then
        {| ended := Ok tt; after := sv;
           wrote := [ConsoleError "WebSocket connection attempt without shop ID";
                     SocketClose socket 1003] |}
      else
        let created :=
          match slotOf (shopConnections sv) shopId with
          | NoValue => <[shopId := []]> (shopConnections sv)
          | _ => shopConnections sv
          end in
        match slotOf created shopId with
        | OwnSet _ =>
            {| ended := Ok tt;
               after :=
                 {| shopConnections := alter (setAdd socket) shopId created;
                    listeners :=
                      <[socket := default [] (listeners sv !! socket) ++ [shopId]]>
                        (listeners sv) |};
               wrote := [ConsoleLog "WebSocket connected for shop";
                         SocketSend socket
                           (ConnectionMessage "Connected to order updates")] |}
        | _ =>
            {| ended := Throw TypeError;
               after := {| shopConnections := created; listeners := listeners sv |};
               wrote := [ConsoleLog "WebSocket connected for shop"] |}
        end
  | None =>
      {| ended := Ok tt; after := sv;
         wrote := [ConsoleError "WebSocket connection attempt without shop ID";
                   SocketClose socket 1003] |}
  end.

(** The listener of ['close'] registered for [socket] with [shopId]. *)
Definition onClose (socket : Socket) (shopId : string)
    (conns : gmap string (list Socket)) : gmap string (list Socket) :=
  let removed := alter (setDelete socket) shopId conns in
  match removed !! shopId with
  | Some [] => delete shopId removed
  | _ => removed
  end.

(** The listener of ['error']: it writes to the console. *)
Definition onError (socket : Socket) (shopId : string)
    (conns : gmap string (list Socket)) : gmap string (list Socket) :=
  conns.

(** What the socket library delivers to the server. *)
Inductive Delivery :=
| Connection (socket : Socket) (shop : option string)
| Close (socket : Socket)
| Error (socket : Socket).

Definition step (sv : Server) (d : Delivery) : Outcome :=
  match d with
  | Connection socket shop => onConnection socket shop sv
  | Close socket =>
      let shops := default [] (listeners sv !! socket) in
      {| ended := Ok tt;
         after :=
           {| shopConnections :=
                fold_left (fun conns shopId => onClose socket shopId conns)
                          shops (shopConnections sv);
              listeners := listeners sv |};
         wrote := map (fun _ => ConsoleLog "WebSocket disconnected for shop") shops |}
  | Error socket =>
      let shops := default [] (listeners sv !! socket) in
      {| ended := Ok tt;
         after :=
           {| shopConnections :=
                fold_left (fun conns shopId => onError socket shopId conns)
                          shops (shopConnections sv);
              listeners := listeners sv |};
         wrote := map (fun _ => ConsoleError "WebSocket error for shop") shops |}
  end.

(** The server after a sequence of deliveries; a handler that throws
    leaves the server as it was at the throw. *)
Definition run (ds : list Delivery) (sv : Server) : Server :=
  fold_left (fun s d => after (step s d)) ds sv.

(** [broadcastUpdate]: how it ends and what it writes; [readyState] is the
    state the library reports for each socket, 1 being OPEN. *)
Definition broadcastUpdate (readyState : Socket -> Z) (sv : Server)
    (shopId : string) (data : JSValue) : result unit * list Event :=
  match slotOf (shopConnections sv) shopId with
  | NoValue => (Ok tt, [])
  | OwnSet [] => (Ok tt, [])
  | OwnSet connections =>
      (Ok tt,
       map (fun socket => SocketSend socket (UpdateMessage data))
           (filter (fun socket => readyState socket = 1) connections)
       ++ [ConsoleLog "Broadcasted update to clients for shop"])
  | InheritedValue => (Throw TypeError, [])
  end.

Definition notifyNewOrder (readyState : Socket -> Z) (sv : Server)
    (shopId : string) (orderData : JSValue) : result unit * list Event :=
  broadcastUpdate readyState sv shopId
    (JObject [("event", JString "new_order"); ("order", orderData)]).

(** Follows the spec's words: the connections that attached to [shopId]
    with success, the handler having neither turned them away nor thrown,
    and whose disconnect has not been handled since, read off the
    deliveries from the most recent one backwards. *)
Fixpoint attachedOpen (recentFirst : list Delivery) (shopId : string)
    (socket : Socket) : bool :=
  match recentFirst with
  | [] => false
  | Connection s (Some shop) :: older =>
      if negb (String.eqb shop "") && negb (bool_decide (shop ∈ objectPrototypeKeys))
         && bool_decide (s = socket) && bool_decide (shop = shopId)
      then true else attachedOpen older shopId socket
  | Close s :: older =>
      if bool_decide (s = socket) then false else attachedOpen older shopId socket
  | _ :: older => attachedOpen older shopId socket
  end.

End WebSocketServer.

(** * Vocabulary of the properties *)

Module Vocabulary.
Import OrderModel RiskAnalysis.

(** What the entries named [name] add up to. *)
Definition contributionOf (name : string) (st : Scoring) : Z :=
  fold_right
    (fun f acc => if String.eqb (factor f) name then riskContribution f + acc else acc)
    0 (riskFactors st).

(** A check leaves the scoring as it is or flags one entry of its own
    name, worth at most [bound]. *)
Inductive adds (name : string) (bound : Z) (st : Scoring) : Scoring -> Prop :=
| adds_nothing : adds name bound st st
| adds_entry f :
    factor f = name -> 0 < riskContribution f <= bound ->
    adds name bound st (flag f st).

Definition basicFactors : list string :=
  ["orderValue"; "addressMismatch"; "emailDomain"].

Definition proOnlyFactors : list string :=
  ["ipLocation"; "orderTime"; "giftCardUse"; "customerHistory";
   "checkoutSpeed"; "quantitySpike"].

(** The thresholds [analyzeOrderRisk] compares the score with. *)
Definition thresholdsOf (storeSettings : option Store.StoreSettings) : Store.RiskThresholds :=
  match storeSettings with
  | Some s => Store.riskThresholds s
  | None => {| Store.high := 75; Store.medium := 50 |}
  end.

(** The stored settings of a shop with other factor toggles. *)
Definition withToggles (toggles : Store.RiskFactors) (s : Store.StoreSettings)
    : Store.StoreSettings :=
  {| Store.riskThresholds := Store.riskThresholds s;
     Store.riskFactors := toggles;
     Store.notifications := Store.notifications s;
     Store.automations := Store.automations s;
     Store.aiSettings := Store.aiSettings s |}.

Definition setToggles (db : Database) (shopId : string)
    (toggles : Store.RiskFactors) : Database :=
  {| storeSettingsColl :=
       map (fun document =>
              if String.eqb (fst document) shopId
              then (fst document, withToggles toggles (snd document))
              else document)
           (storeSettingsColl db);
     trialStatusColl := trialStatusColl db;
     ordersColl := ordersColl db |}.

Definition isString (v : JSValue) : bool :=
  match v with
  | JString _ => true
  | _ => false
  end.

(** The fields the pro and e-mail checks call methods on have the types
    of the order resource: the customer's e-mail, when set, is a string;
    [created_at] converts to a date; the gateway names, when set, are an
    array of strings. *)
Definition methodFieldsTyped (order : JSValue) : bool :=
  let customer := getPropOpt order "customer" in
  let email := getPropOpt customer "email" in
  let names := getPropOpt order "payment_gateway_names" in
  (negb (truthy customer) || negb (truthy email) || isString email)
  && negb (toStringThrows (getPropOpt order "created_at"))
  && (negb (truthy names)
      || match names with
         | JArray l => forallb isString l
         | _ => false
         end).

(** The events a computation adds to the world. *)
Definition emitted {A} (m : IO A) (w : World) : list Event :=
  drop (length (events w)) (events (snd (m w))).

(** What holds of the server after any deliveries: no shop is mapped to an
    empty set, a registered socket carries a listener of its shop, and
    nothing is stored under an inherited name. *)
Definition wellFormed (sv : WebSocketServer.Server) : Prop :=
  (forall shopId, WebSocketServer.shopConnections sv !! shopId <> Some [])
  /\ (forall shopId socket,
        socket ∈ WebSocketServer.connectionsOf sv shopId ->
        shopId ∈ default [] (WebSocketServer.listeners sv !! socket))
  /\ (forall shopId,
        shopId ∈ WebSocketServer.objectPrototypeKeys ->
        WebSocketServer.shopConnections sv !! shopId = None).

(** A computation that only adds events satisfying [P]. *)
Definition emitsOnly {A} (P : Event -> Prop) (m : IO A) : Prop :=
  forall w, exists new, events (snd (m w)) = events w ++ new /\ Forall P new.

Definition isSocketSend (e : Event) : bool :=
  match e with
  | SocketSend _ _ => true
  | _ => false
  end.

Definition isDispatch (e : Event) : bool :=
  match e with
  | EmailNotification _ _ _ | SlackNotification _ _ => true
  | _ => false
  end.

Definition isInsertOrParse (e : Event) : bool :=
  match e with
  | InsertOne _ | JsonParse _ => true
  | _ => false
  end.

End Vocabulary.

(** * Sample data *)

Module Sample.
Import OrderModel.

Definition shop : string := "demo.myshopify.com".

(** The scenario order: 1200.00, another billing country, a disposable
    mailbox, a gift card, no browser IP. *)
Definition order : JSValue :=
  JObject
    [("id", JString "820982911946154508");
     ("name", JString "#1001");
     ("created_at", JString "2024-05-04T23:15:00");
     ("total_price", JString "1200.00");
     ("billing_address",
       JObject [("zip", JString "10001"); ("city", JString "New York");
                ("country", JString "United States")]);
     ("shipping_address",
       JObject [("zip", JString "10001"); ("city", JString "New York");
                ("country", JString "Canada")]);
     ("customer", JObject [("email", JString "Buyer@Mailinator.com")]);
     ("payment_gateway_names", JArray [JString "Gift Card"])].

Definition rawOrder : string := "{...the scenario order...}".

Definition signatureOfRaw : string := "c2lnbmF0dXJlLW9mLXRoZS1zY2VuYXJpby1vcmRlcg==".

#[local] Instance host : Host :=
  {| localHours := fun _ => Some 23;
     numberToString := fun _ => "0";
     JSON_parse := fun raw => if String.eqb raw rawOrder then Some order else None;
     hmacSha256Base64 := fun _ _ => signatureOfRaw;
     SHOPIFY_API_SECRET := Some "shpss_secret" |}.

Definition settings : Store.StoreSettings :=
  {| Store.riskThresholds := {| Store.high := 75; Store.medium := 50 |};
     Store.riskFactors := RiskAnalysis.defaultFactors;
     Store.notifications :=
       {| Store.email := {| Store.emailEnabled := true;
                            Store.address := "owner@demo.example" |};
          Store.slack := {| Store.slackEnabled := false; Store.webhookUrl := "" |};
          Store.frequency := Store.immediate |};
     Store.automations :=
       {| Store.holdHighRiskOrders := true; Store.emailVerification := false;
          Store.cancelHighRiskOrders := false; Store.customEmail := false;
          Store.flagForReview := true; Store.customEmailTemplate := None |};
     Store.aiSettings := {| Store.enableFeedback := true;
                            Store.dataSharing := Store.anonymized |} |}.

Definition proTrial : Store.TrialStatus :=
  {| Store.isActive := false; Store.daysRemaining := 0; Store.plan := Store.pro |}.

Definition freeTrial : Store.TrialStatus :=
  {| Store.isActive := false; Store.daysRemaining := 14; Store.plan := Store.free |}.

Definition proDb : Database :=
  {| storeSettingsColl := [(shop, settings)];
     trialStatusColl := [(shop, proTrial)];
     ordersColl := [] |}.

Definition freeDb : Database :=
  {| storeSettingsColl := [(shop, settings)];
     trialStatusColl := [(shop, freeTrial)];
     ordersColl := [] |}.

Definition emptyDb : Database :=
  {| storeSettingsColl := []; trialStatusColl := []; ordersColl := [] |}.

Definition request (signature : option string) : Webhook.Request :=
  {| Webhook.headers :=
       match signature with
       | Some s => <["x-shopify-hmac-sha256" := s]>
                     {[ "x-shopify-shop-domain" := shop ]}
       | None => {[ "x-shopify-shop-domain" := shop ]}
       end |}.

Definition world (db : Database) : World := {| database := db; events := [] |}.

End Sample.

(** * Further vocabulary *)

Module Observations.
Import OrderModel RiskAnalysis.

(** The factor set [analyzeOrderRisk] checks for a shop (lines 23-51). *)
Definition factorsToCheck (db : Database) (shopId : string) : Store.RiskFactors :=
  if isProPlan (getTrialStatus db shopId) then
    match getStoreSettings db shopId with
    | Some s => Store.riskFactors s
    | None => defaultFactors
    end
  else freeFactors.

(** Lines 84-88: the zip, the city or the country differs. *)
Definition addressesDiffer (billing shipping : JSValue) : bool :=
  strictNeq (getPropOpt billing "zip") (getPropOpt shipping "zip")
  || strictNeq (getPropOpt billing "city") (getPropOpt shipping "city")
  || strictNeq (getPropOpt billing "country") (getPropOpt shipping "country").

(** Lines 100-107: the text between the first and the second [@] of the
    lower-cased e-mail is one of the listed domains. *)
Definition hasSuspiciousDomain (email : string) : bool :=
  match splitSecond "@" (toLowerCase email) with
  | Some domain =>
      negb (String.eqb domain "") && existsb (String.eqb domain) suspiciousDomains
  | None => false
  end.

(** Line 137: the hour is in the night window. *)
Definition unusualHour (hourOfDay : option Z) : bool :=
  match hourOfDay with
  | Some h => (22 <=? h)%Z || (h <=? 4)%Z
  | None => false
  end.

(** Two factor sets that agree on the six toggles the checks read. *)
Definition sameImplementedToggles (a b : Store.RiskFactors) : Prop :=
  Store.orderValue a = Store.orderValue b
  /\ Store.addressMismatch a = Store.addressMismatch b
  /\ Store.emailDomain a = Store.emailDomain b
  /\ Store.ipLocation a = Store.ipLocation b
  /\ Store.orderTime a = Store.orderTime b
  /\ Store.giftCardUse a = Store.giftCardUse b.

(** One check: the scoring is left as it is, or one entry is flagged whose
    contribution is a positive multiple of 5. *)
Definition flagsAtMostOne (st st' : Scoring) : Prop :=
  st' = st
  \/ exists f, st' = flag f st /\ 0 < riskContribution f /\ riskContribution f mod 5 = 0.

(** The score is a non-negative multiple of 5, and 0 exactly when nothing
    is flagged. *)
Definition wellScored (st : Scoring) : Prop :=
  0 <= totalRiskScore st
  /\ totalRiskScore st mod 5 = 0
  /\ (totalRiskScore st = 0 <-> riskFactors st = []).

(** A computation whose only exception is the TypeError. *)
Definition throwsOnlyTypeError {A} (r : result A) : Prop :=
  forall e, r = Throw e -> e = TypeError.

(** Lines 33-45 of [processWebhook]: the delivery is let through, because
    it has no signature, an empty one, or the right one. *)
Definition passesSignature `{Host} (request : Webhook.Request) (rawPayload : string) : bool :=
  negb (Webhook.present (Webhook.headersGet request "x-shopify-hmac-sha256")
        && negb (bool_decide
                   (Webhook.headersGet request "x-shopify-hmac-sha256"
                    = Some (hmacSha256Base64 Webhook.secretKey rawPayload)))).

(** The console lines and calls of [processWebhook] up to the dispatcher,
    for a delivery that is stored as [order]. *)
Definition storedTrace (rawPayload : string) (order : Order) : list Event :=
  [JsonParse rawPayload;
   ConsoleLog "Received webhook from shop";
   ConsoleLog "Order received";
   ConsoleLog "Analyzing order risk for shop:";
   ConsoleLog "Risk analysis result:";
   InsertOne order;
   ConsoleLog "Order saved to database";
   ConsoleLog "Order Analysis Summary:"].

(** A console line or the call of [JSON.parse]. *)
Definition isConsoleOrParse (e : Event) : bool :=
  match e with
  | ConsoleLog _ | ConsoleError _ | JsonParse _ => true
  | _ => false
  end.

(** No order stored for the shop is rated high. *)
Definition noHighStored (db : Database) (shopId : string) : Prop :=
  forall o, In o (ordersColl db) -> OrderModel.shopId o = shopId ->
            level (riskAnalysis o) <> high.

(** The same request without its signature header. *)
Definition withoutSignature (request : Webhook.Request) : Webhook.Request :=
  {| Webhook.headers := delete "x-shopify-hmac-sha256" (Webhook.headers request) |}.

End Observations.

(** * app/models/store.server.ts, the writing side

    The dates of a document are not held, so those of an update are
    dropped; every other field of an update is written. *)

Module StoreOps.

(** [insertOne]: the document is appended. *)
Definition insertOne {A} (shopId : string) (fields : A) (coll : list (string * A))
    : list (string * A) :=
  coll ++ [(shopId, fields)].

Definition defaultSettings : Store.StoreSettings :=
  {| Store.riskThresholds := {| Store.high := 75; Store.medium := 50 |};
     Store.riskFactors :=
       {| Store.orderValue := true; Store.customerHistory := true;
          Store.ipLocation := true; Store.checkoutSpeed := true;
          Store.addressMismatch := true; Store.emailDomain := true;
          Store.orderTime := true; Store.giftCardUse := true;
          Store.quantitySpike := true |};
     Store.notifications :=
       {| Store.email := {| Store.emailEnabled := true; Store.address := "" |};
          Store.slack := {| Store.slackEnabled := false; Store.webhookUrl := "" |};
          Store.frequency := Store.immediate |};
     Store.automations :=
       {| Store.holdHighRiskOrders := true; Store.emailVerification := false;
          Store.cancelHighRiskOrders := false; Store.customEmail := false;
          Store.flagForReview := true; Store.customEmailTemplate := None |};
     Store.aiSettings :=
       {| Store.enableFeedback := true; Store.dataSharing := Store.anonymized |} |}.

(** Returns the document it inserted, and the database. *)
Definition createDefaultStoreSettings (db : Database) (shopId : string)
    : Store.StoreSettings * Database :=
  (defaultSettings,
   {| storeSettingsColl := insertOne shopId defaultSettings (storeSettingsColl db);
      trialStatusColl := trialStatusColl db;
      ordersColl := ordersColl db |}).

(** [Partial<StoreSettings>]: each field is there or not, [shopId] and
    the two dates like the others. *)
Record PartialStoreSettings := {
  setShopId : option string;
  setRiskThresholds : option Store.RiskThresholds;
  setRiskFactors : option Store.RiskFactors;
  setNotifications : option Store.Notifications;
  setAutomations : option Store.Automations;
  setAiSettings : option Store.AiSettings;
  setCreatedAt : option JSValue;
  setUpdatedAt : option JSValue;
}.

(** The fields that are there replace the stored ones. *)
Definition setSettings (p : PartialStoreSettings) (s : Store.StoreSettings)
    : Store.StoreSettings :=
  {| Store.riskThresholds := default (Store.riskThresholds s) (setRiskThresholds p);
     Store.riskFactors := default (Store.riskFactors s) (setRiskFactors p);
     Store.notifications := default (Store.notifications s) (setNotifications p);
     Store.automations := default (Store.automations s) (setAutomations p);
     Store.aiSettings := default (Store.aiSettings s) (setAiSettings p) |}.

(** [$set] on a document: a [shopId] that is there replaces the one of the
    document, which no longer belongs to the shop it was found under. *)
Definition setSettingsDocument (p : PartialStoreSettings)
    (document : string * Store.StoreSettings) : string * Store.StoreSettings :=
  (default (fst document) (setShopId p), setSettings p (snd document)).

(** [updateOne({ shopId }, { $set })]: the first document of the shop is
    changed where it stands; whether a document matched, and the
    collection. *)
Fixpoint updateOne {A} (shopId : string) (change : string * A -> string * A)
    (coll : list (string * A)) : bool * list (string * A) :=
  match coll with
  | [] => (false, [])
  | document :: rest =>
      if String.eqb (fst document) shopId then (true, change document :: rest)
      else
        let '(matched, updated) := updateOne shopId change rest in
        (matched, document :: updated)
  end.

Definition updateStoreSettings (db : Database) (shopId : string)
    (settings : PartialStoreSettings) : option Store.StoreSettings * Database :=
  let '(matched, coll) :=
    updateOne shopId (setSettingsDocument settings) (storeSettingsColl db) in
  let db1 := {| storeSettingsColl := coll; trialStatusColl := trialStatusColl db;
                ordersColl := ordersColl db |} in
  let db2 :=
    if matched then db1
    else
      let created := snd (createDefaultStoreSettings db1 shopId) in
      {| storeSettingsColl :=
           snd (updateOne shopId (setSettingsDocument settings)
                  (storeSettingsColl created));
         trialStatusColl := trialStatusColl created;
         ordersColl := ordersColl created |} in
  (getStoreSettings db2 shopId, db2).

Definition defaultTrialStatus : Store.TrialStatus :=
  {| Store.isActive := false; Store.daysRemaining := 14; Store.plan := Store.free |}.

Definition createDefaultTrialStatus (db : Database) (shopId : string)
    : Store.TrialStatus * Database :=
  (defaultTrialStatus,
   {| storeSettingsColl := storeSettingsColl db;
      trialStatusColl := insertOne shopId defaultTrialStatus (trialStatusColl db);
      ordersColl := ordersColl db |}).

(** [Partial<TrialStatus>] *)
Record PartialTrialStatus := {
  setTrialShopId : option string;
  setIsActive : option bool;
  setStartedAt : option JSValue;
  setDaysRemaining : option Z;
  setPlan : option Store.Plan;
  setTrialCreatedAt : option JSValue;
  setTrialUpdatedAt : option JSValue;
}.

Definition setTrialStatus (p : PartialTrialStatus) (t : Store.TrialStatus)
    : Store.TrialStatus :=
  {| Store.isActive := default (Store.isActive t) (setIsActive p);
     Store.daysRemaining := default (Store.daysRemaining t) (setDaysRemaining p);
     Store.plan := default (Store.plan t) (setPlan p) |}.

Definition setTrialStatusDocument (p : PartialTrialStatus)
    (document : string * Store.TrialStatus) : string * Store.TrialStatus :=
  (default (fst document) (setTrialShopId p), setTrialStatus p (snd document)).

Definition updateTrialStatus (db : Database) (shopId : string)
    (status : PartialTrialStatus) : option Store.TrialStatus * Database :=
  let '(matched, coll) :=
    updateOne shopId (setTrialStatusDocument status) (trialStatusColl db) in
  let db1 := {| storeSettingsColl := storeSettingsColl db; trialStatusColl := coll;
                ordersColl := ordersColl db |} in
  let db2 :=
    if matched then db1
    else
      let created := snd (createDefaultTrialStatus db1 shopId) in
      {| storeSettingsColl := storeSettingsColl created;
         trialStatusColl :=
           snd (updateOne shopId (setTrialStatusDocument status)
                  (trialStatusColl created));
         ordersColl := ordersColl created |} in
  (getTrialStatus db2 shopId, db2).

(** The update [startTrial] writes, [currentDate] being the date of the
    call. *)
Definition updatedTrialStatus (currentDate : JSValue) : PartialTrialStatus :=
  {| setTrialShopId := None; setIsActive := Some true;
     setStartedAt := Some currentDate; setDaysRemaining := Some 14;
     setPlan := Some Store.pro; setTrialCreatedAt := None;
     setTrialUpdatedAt := Some currentDate |}.

Definition startTrial (currentDate : JSValue) (db : Database) (shopId : string)
    : option Store.TrialStatus * Database :=
  let '(matched, coll) :=
    updateOne shopId (setTrialStatusDocument (updatedTrialStatus currentDate))
      (trialStatusColl db) in
  let db1 := {| storeSettingsColl := storeSettingsColl db; trialStatusColl := coll;
                ordersColl := ordersColl db |} in
  let db2 :=
    if matched then db1
    else
      let created := snd (createDefaultTrialStatus db1 shopId) in
      {| storeSettingsColl := storeSettingsColl created;
         trialStatusColl :=
           snd (updateOne shopId
                  (setTrialStatusDocument (updatedTrialStatus currentDate))
                  (trialStatusColl created));
         ordersColl := ordersColl created |} in
  (getTrialStatus db2 shopId, db2).

(** An update that leaves the document with the shop: it has no [shopId],
    or the shop's own. *)
Definition keepsShop (shopId : string) (newShopId : option string) : Prop :=
  newShopId = None \/ newShopId = Some shopId.

End StoreOps.

(** * Properties *)

Import OrderModel RiskAnalysis Vocabulary.

(** ** The string and number helpers on examples *)

Example parseFloat_scenario_price : parseFloat (JString "1200.00") = Ok (Fin 1200).
Proof. reflexivity. Qed.

Example parseFloatString_prefixes :
  (parseFloatString "  12.5e1x", parseFloatString "-.5", parseFloatString "1e",
   parseFloatString "abc", parseFloatString ".", parseFloatString "1.e-2")
  = (Fin 125, Fin (-1 # 2), Fin 1, NaN, NaN,
     Fin (5764607523034235 # 576460752303423488)).
Proof. vm_compute. reflexivity. Qed.

(** The literal is rounded to a double: a price just above 1000 is 1000,
    2^53 + 1 is 2^53, and a literal beyond the largest double is
    infinite. *)
Example parseFloatString_rounds :
  (parseFloatString "1000.0000000000000001", parseFloatString "500.00000000000000001",
   parseFloatString "9007199254740993", parseFloatString "1e309",
   parseFloatString "1e-400")
  = (Fin 1000, Fin 500, Fin 9007199254740992, PosInfinity, Fin 0).
Proof. vm_compute. reflexivity. Qed.

(** A no-break space (bytes 194 160) and a byte order mark (bytes 239 187
    191) in front of the digits are skipped like a space. *)
Example parseFloatString_skips_white_space :
  (parseFloatString (String "194" (String "160" "1200")),
   parseFloatString (String "239" (String "187" (String "191" " 12"))),
   parseFloatString (String "195" (String "160" "1200")))
  = (Fin 1200, Fin 12, NaN).
Proof. vm_compute. reflexivity. Qed.

Example parseFloat_shadowed_toString :
  parseFloat (JObject [("toString", JNumber (Fin 0))]) = Throw TypeError.
Proof. reflexivity. Qed.

Example splitSecond_domain :
  splitSecond "@" (toLowerCase "Buyer@Mailinator.com") = Some "mailinator.com".
Proof. reflexivity. Qed.

(** The Kelvin sign (bytes 226 132 170) lowers to [k]. *)
Example toLowerCase_kelvin_sign :
  toLowerCase ("a@SHAR" +:+ String "226" (String "132" (String "170" "LASERS.com")))
  = "a@sharklasers.com".
Proof. reflexivity. Qed.

(** ** One factor check at a time *)

Ltac split_checks :=
  repeat match goal with
    | H : context [match ?x with _ => _ end] |- _ => destruct x eqn:?; simplify_eq
    | H : Ok _ = Ok _ |- _ => inversion H; clear H; subst
    end.

Ltac solve_adds :=
  intros; unfold rbind in *; split_checks;
  first [ apply adds_nothing
        | apply adds_entry; simpl; first [reflexivity | lia] ].

Lemma checkOrderValue_adds fc order st st' :
  checkOrderValue fc order st = Ok st' -> adds "orderValue" 20 st st'.
Proof. unfold checkOrderValue. solve_adds. Qed.

Lemma checkAddressMismatch_adds fc order st st' :
  checkAddressMismatch fc order st = Ok st' -> adds "addressMismatch" 15 st st'.
Proof. unfold checkAddressMismatch. solve_adds. Qed.

Lemma checkEmailDomain_adds fc order st st' :
  checkEmailDomain fc order st = Ok st' -> adds "emailDomain" 25 st st'.
Proof. unfold checkEmailDomain. solve_adds. Qed.

Lemma checkIpLocation_adds fc order st st' :
  checkIpLocation fc order st = Ok st' -> adds "ipLocation" 5 st st'.
Proof. unfold checkIpLocation. solve_adds. Qed.

Lemma checkOrderTime_adds `{Host} fc order st st' :
  checkOrderTime fc order st = Ok st' -> adds "orderTime" 10 st st'.
Proof. unfold checkOrderTime. solve_adds. Qed.

Lemma checkGiftCardUse_adds fc order st st' :
  checkGiftCardUse fc order st = Ok st' -> adds "giftCardUse" 15 st st'.
Proof. unfold checkGiftCardUse. solve_adds. Qed.

Lemma adds_total name bound st st' :
  adds name bound st st' -> 0 <= bound ->
  totalRiskScore st <= totalRiskScore st' <= totalRiskScore st + bound.
Proof. destruct 1; unfold flag; simpl; lia. Qed.

Lemma contributionOf_flag name f st :
  contributionOf name (flag f st)
  = contributionOf name st + (if String.eqb (factor f) name then riskContribution f else 0).
Proof.
  unfold contributionOf, flag; simpl.
  induction (riskFactors st) as [|g fs IH]; simpl.
  - destruct (String.eqb (factor f) name); lia.
  - rewrite IH. destruct (String.eqb (factor g) name), (String.eqb (factor f) name); lia.
Qed.

Lemma adds_contribution name bound st st' other :
  adds name bound st st' ->
  contributionOf other st' =
    contributionOf other st
    + (if String.eqb name other then totalRiskScore st' - totalRiskScore st else 0).
Proof.
  destruct 1 as [|f Hname Hc].
  - destruct (String.eqb name other); lia.
  - rewrite contributionOf_flag, Hname. simpl.
    destruct (String.eqb name other); lia.
Qed.

Lemma adds_names name bound st st' (P : string -> Prop) :
  adds name bound st st' -> P name ->
  Forall (fun f => P (factor f)) (riskFactors st) ->
  Forall (fun f => P (factor f)) (riskFactors st').
Proof.
  destruct 1 as [|f Hname Hc]; intros HP Hall; [assumption|].
  simpl. apply Forall_app; split; [assumption|].
  constructor; [now rewrite Hname | constructor].
Qed.

(** ** The checks in sequence *)

Lemma scoreFactors_free `{Host} fc order st :
  scoreFactors fc false order = Ok st ->
  exists s1 s2,
    adds "orderValue" 20 noRisk s1 /\ adds "addressMismatch" 15 s1 s2
    /\ adds "emailDomain" 25 s2 st.
Proof.
  unfold scoreFactors, rbind. intros Hrun.
  destruct (checkOrderValue fc order noRisk) as [s1|] eqn:H1; [|discriminate].
  destruct (checkAddressMismatch fc order s1) as [s2|] eqn:H2; [|discriminate].
  destruct (checkEmailDomain fc order s2) as [s3|] eqn:H3; [|discriminate].
  inversion Hrun; subst. exists s1, s2.
  repeat split;
    eauto using checkOrderValue_adds, checkAddressMismatch_adds, checkEmailDomain_adds.
Qed.

Lemma scoreFactors_pro `{Host} fc order st :
  scoreFactors fc true order = Ok st ->
  exists s1 s2 s3 s4 s5,
    adds "orderValue" 20 noRisk s1 /\ adds "addressMismatch" 15 s1 s2
    /\ adds "emailDomain" 25 s2 s3 /\ adds "ipLocation" 5 s3 s4
    /\ adds "orderTime" 10 s4 s5 /\ adds "giftCardUse" 15 s5 st.
Proof.
  unfold scoreFactors, rbind. intros Hrun.
  destruct (checkOrderValue fc order noRisk) as [s1|] eqn:H1; [|discriminate].
  destruct (checkAddressMismatch fc order s1) as [s2|] eqn:H2; [|discriminate].
  destruct (checkEmailDomain fc order s2) as [s3|] eqn:H3; [|discriminate].
  destruct (checkIpLocation fc order s3) as [s4|] eqn:H4; [|discriminate].
  destruct (checkOrderTime fc order s4) as [s5|] eqn:H5; [|discriminate].
  exists s1, s2, s3, s4, s5.
  repeat split; eauto using checkOrderValue_adds, checkAddressMismatch_adds,
    checkEmailDomain_adds, checkIpLocation_adds, checkOrderTime_adds,
    checkGiftCardUse_adds.
Qed.

(** The score is never negative and never above the sum of all weights. *)
Lemma scoreFactors_range `{Host} fc isPro order st :
  scoreFactors fc isPro order = Ok st -> 0 <= totalRiskScore st <= 90.
Proof.
  destruct isPro; intros Hrun.
  - apply scoreFactors_pro in Hrun as (s1 & s2 & s3 & s4 & s5 & A1 & A2 & A3 & A4 & A5 & A6).
    apply adds_total in A1, A2, A3, A4, A5, A6; simpl in *; lia.
  - apply scoreFactors_free in Hrun as (s1 & s2 & A1 & A2 & A3).
    apply adds_total in A1, A2, A3; simpl in *; lia.
Qed.

(** What [analyzeOrderRisk] returns, read off its body. *)
Lemma analyzeOrderRisk_inv `{Host} db order shopId v :
  analyzeOrderRisk db order shopId = Ok v ->
  let storeSettings := getStoreSettings db shopId in
  let isPro := isProPlan (getTrialStatus db shopId) in
  let th := thresholdsOf storeSettings in
  exists st,
    scoreFactors
      (if isPro then match storeSettings with
                     | Some s => Store.riskFactors s
                     | None => defaultFactors
                     end
       else freeFactors) isPro order = Ok st
    /\ score v = totalRiskScore st
    /\ factors v = map description (riskFactors st)
    /\ level v =
         (if Qle_bool (Store.high th) (inject_Z (score v)) then high
          else if Qle_bool (Store.medium th) (inject_Z (score v)) then medium
          else low)
    /\ status v =
         (if level_eqb (level v) high && automation storeSettings Store.holdHighRiskOrders
          then on_hold
          else if level_eqb (level v) high && automation storeSettings Store.flagForReview
          then pending
          else if level_eqb (level v) high
                  && automation storeSettings Store.cancelHighRiskOrders
          then declined
          else approved).
Proof.
  unfold analyzeOrderRisk, rbind. intros Hrun; simpl.
  destruct (scoreFactors _ _ order) as [st|] eqn:Hst; [|discriminate].
  destruct (getProp order "browser_ip"); [|discriminate].
  destruct (getProp order "client_details"); [|discriminate].
  inversion Hrun; subst; simpl. exists st.
  unfold thresholdsOf, defaultThresholds.
  destruct (getStoreSettings db shopId); auto.
Qed.

(** ** The risk level *)

Lemma step_of_thresholds (hi me s : Q) :
  let l := if Qle_bool hi s then high else if Qle_bool me s then medium else low in
  (l = high <-> (hi <= s)%Q)
  /\ (l = medium <-> (me <= s)%Q /\ (s < hi)%Q)
  /\ (l = low <-> ~ (hi <= s)%Q /\ ~ ((me <= s)%Q /\ (s < hi)%Q)).
Proof.
  assert (Hlt : (s < hi)%Q <-> ~ (hi <= s)%Q).
  { split; [apply Qlt_not_le | apply Qnot_le_lt]. }
  pose proof (Qle_bool_iff hi s) as Hh.
  pose proof (Qle_bool_iff me s) as Hm.
  simpl. destruct (Qle_bool hi s), (Qle_bool me s);
    repeat split; intros; try congruence; try tauto;
    try solve [intuition congruence].
Qed.

(** C1. The level of a returned verdict is the step function of its score
    against the shop's thresholds, 75 and 50 when the shop has no stored
    settings: high exactly from the high threshold on, medium exactly from
    the medium threshold up to the high one, low exactly otherwise. *)
Theorem level_is_step_of_score `{Host} db order shopId v :
  analyzeOrderRisk db order shopId = Ok v ->
  let th :=
    match getStoreSettings db shopId with
    | Some s => Store.riskThresholds s
    | None => {| Store.high := 75; Store.medium := 50 |}
    end in
  let s := inject_Z (score v) in
  (level v = high <-> (Store.high th <= s)%Q)
  /\ (level v = medium <-> (Store.medium th <= s)%Q /\ (s < Store.high th)%Q)
  /\ (level v = low <->
        ~ (Store.high th <= s)%Q /\ ~ ((Store.medium th <= s)%Q /\ (s < Store.high th)%Q)).
Proof.
  intros Hrun. apply analyzeOrderRisk_inv in Hrun as (st & _ & _ & _ & Hlevel & _).
  unfold thresholdsOf in Hlevel. simpl.
  set (th := match getStoreSettings db shopId with
             | Some s => Store.riskThresholds s
             | None => _
             end) in *.
  rewrite Hlevel. apply step_of_thresholds.
Qed.

(** At the scenario order on the pro shop, whose verdict is high. *)
Lemma level_is_step_of_score_witness :
  exists v, analyzeOrderRisk (H := Sample.host) Sample.proDb Sample.order Sample.shop = Ok v
            /\ (level v = high <-> (75 <= inject_Z (score v))%Q).
Proof.
  eexists. split; [reflexivity|].
  exact (proj1 (level_is_step_of_score (H := Sample.host)
                  Sample.proDb Sample.order Sample.shop _ eq_refl)).
Defined.

(** ** The status *)

Lemma status_below_high `{Host} db order shopId v :
  analyzeOrderRisk db order shopId = Ok v -> level v <> high -> status v = approved.
Proof.
  intros Hrun Hlevel.
  apply analyzeOrderRisk_inv in Hrun as (st & _ & _ & _ & _ & Hstatus).
  rewrite Hstatus. destruct (level v); [reflexivity | reflexivity | congruence].
Qed.

(** C3. The status of a returned verdict follows the fixed priority: a high
    level with [holdHighRiskOrders] gives [on_hold] whatever the other two
    flags are; otherwise a high level with [flagForReview] gives [pending];
    otherwise a high level with [cancelHighRiskOrders] gives [declined];
    everything else, and so every medium or low verdict, is [approved]. *)
Theorem status_follows_priority `{Host} db order shopId v :
  analyzeOrderRisk db order shopId = Ok v ->
  let hold := automation (getStoreSettings db shopId) Store.holdHighRiskOrders in
  let review := automation (getStoreSettings db shopId) Store.flagForReview in
  let cancel := automation (getStoreSettings db shopId) Store.cancelHighRiskOrders in
  (level v = high -> hold = true -> status v = on_hold)
  /\ (level v = high -> hold = false -> review = true -> status v = pending)
  /\ (level v = high -> hold = false -> review = false -> cancel = true ->
      status v = declined)
  /\ (level v = high -> hold = false -> review = false -> cancel = false ->
      status v = approved)
  /\ (level v <> high -> status v = approved).
Proof.
  intros Hrun. apply analyzeOrderRisk_inv in Hrun as (st & _ & _ & _ & _ & Hstatus).
  simpl in *. rewrite Hstatus.
  repeat split.
  - intros -> ->. reflexivity.
  - intros -> -> ->. reflexivity.
  - intros -> -> -> ->. reflexivity.
  - intros -> -> -> ->. reflexivity.
  - intros Hlevel. destruct (level v); [reflexivity | reflexivity | congruence].
Qed.

(** The scenario order on the pro shop, which holds high-risk orders and
    also flags them for review. *)
Lemma status_follows_priority_witness :
  exists v, analyzeOrderRisk (H := Sample.host) Sample.proDb Sample.order Sample.shop = Ok v
            /\ Store.flagForReview (Store.automations Sample.settings) = true
            /\ status v = on_hold.
Proof.
  eexists. split; [reflexivity|]. split; [reflexivity|].
  exact (proj1 (status_follows_priority (H := Sample.host)
                  Sample.proDb Sample.order Sample.shop _ eq_refl)
               eq_refl eq_refl).
Defined.

(** ** The free plan *)

Lemma scoreFactors_free_contributions `{Host} fc order st :
  scoreFactors fc false order = Ok st ->
  Forall (fun f => In (factor f) basicFactors) (riskFactors st)
  /\ totalRiskScore st =
       contributionOf "orderValue" st + contributionOf "addressMismatch" st
       + contributionOf "emailDomain" st
  /\ Forall (fun name => contributionOf name st = 0) proOnlyFactors
  /\ 0 <= totalRiskScore st <= 60.
Proof.
  intros Hrun. apply scoreFactors_free in Hrun as (s1 & s2 & A1 & A2 & A3).
  assert (Hc : forall other,
             contributionOf other st =
               (if String.eqb "orderValue" other then totalRiskScore s1 else 0)
               + (if String.eqb "addressMismatch" other
                  then totalRiskScore s2 - totalRiskScore s1 else 0)
               + (if String.eqb "emailDomain" other
                  then totalRiskScore st - totalRiskScore s2 else 0)).
  { intros other.
    rewrite (adds_contribution _ _ _ _ other A3), (adds_contribution _ _ _ _ other A2),
      (adds_contribution _ _ _ _ other A1).
    change (contributionOf other noRisk) with 0.
    change (totalRiskScore noRisk) with 0.
    destruct (String.eqb "orderValue" other), (String.eqb "addressMismatch" other),
      (String.eqb "emailDomain" other); lia. }
  repeat split.
  - apply (adds_names _ _ _ _ (fun n => In n basicFactors) A3); [simpl; tauto|].
    apply (adds_names _ _ _ _ (fun n => In n basicFactors) A2); [simpl; tauto|].
    apply (adds_names _ _ _ _ (fun n => In n basicFactors) A1); [simpl; tauto|].
    constructor.
  - rewrite !Hc; simpl; lia.
  - unfold proOnlyFactors. repeat constructor; rewrite Hc; reflexivity.
  - apply adds_total in A1, A2, A3; simpl in *; lia.
  - apply adds_total in A1, A2, A3; simpl in *; lia.
Qed.

Lemma getStoreSettings_setToggles db shopId toggles :
  getStoreSettings (setToggles db shopId toggles) shopId
  = option_map (withToggles toggles) (getStoreSettings db shopId).
Proof.
  unfold getStoreSettings, setToggles, findOne; simpl.
  induction (storeSettingsColl db) as [|[id document] coll IH]; [reflexivity|].
  simpl. destruct (String.eqb id shopId) eqn:Hid; simpl; rewrite Hid; [reflexivity|].
  exact IH.
Qed.

Lemma analyzeOrderRisk_setToggles `{Host} db order shopId toggles :
  isProPlan (getTrialStatus db shopId) = false ->
  analyzeOrderRisk (setToggles db shopId toggles) order shopId
  = analyzeOrderRisk db order shopId.
Proof.
  intros Hfree. unfold analyzeOrderRisk.
  change (getTrialStatus (setToggles db shopId toggles) shopId)
    with (getTrialStatus db shopId).
  rewrite Hfree.
  rewrite getStoreSettings_setToggles.
  destruct (getStoreSettings db shopId); reflexivity.
Qed.

(** C2. For a shop that is not pro, the toggles stored for the shop do not
    change what [analyzeOrderRisk] returns, and a returned score is made of
    entries of [orderValue], [addressMismatch] and [emailDomain] only: the
    six other factors contribute 0. *)
Theorem free_plan_basic_factors_only `{Host} db order shopId :
  isProPlan (getTrialStatus db shopId) = false ->
  (forall toggles,
      analyzeOrderRisk (setToggles db shopId toggles) order shopId
      = analyzeOrderRisk db order shopId)
  /\ (forall v, analyzeOrderRisk db order shopId = Ok v ->
      exists st,
        scoreFactors freeFactors false order = Ok st
        /\ score v = totalRiskScore st
        /\ factors v = map description (riskFactors st)
        /\ Forall (fun f => In (factor f) basicFactors) (riskFactors st)
        /\ totalRiskScore st =
             contributionOf "orderValue" st + contributionOf "addressMismatch" st
             + contributionOf "emailDomain" st
        /\ Forall (fun name => contributionOf name st = 0) proOnlyFactors).
Proof.
  intros Hfree. split.
  - intros toggles. now apply analyzeOrderRisk_setToggles.
  - intros v Hrun.
    apply analyzeOrderRisk_inv in Hrun as (st & Hst & Hscore & Hfactors & _).
    simpl in Hst. rewrite Hfree in Hst.
    destruct (scoreFactors_free_contributions _ _ _ Hst) as (Hn & Ht & Hz & _).
    exists st. auto 10.
Qed.

(** The scenario order on the free shop: 60 points, none from the gift
    card or the hour, with every toggle switched on or all of them off. *)
Lemma free_plan_basic_factors_only_witness :
  isProPlan (getTrialStatus Sample.freeDb Sample.shop) = false
  /\ analyzeOrderRisk (H := Sample.host)
       (setToggles Sample.freeDb Sample.shop freeFactors) Sample.order Sample.shop
     = analyzeOrderRisk (H := Sample.host) Sample.freeDb Sample.order Sample.shop.
Proof.
  split; [reflexivity|].
  exact (proj1 (free_plan_basic_factors_only (H := Sample.host)
                  Sample.freeDb Sample.order Sample.shop eq_refl) freeFactors).
Defined.

(** C10. For a shop that is not pro and whose thresholds are the default
    75 and 50, a returned score lies between 0 and 60, so the level is
    never high and the status is approved, whatever the automation flags. *)
Theorem free_plan_default_thresholds_approved `{Host} db order shopId v :
  isProPlan (getTrialStatus db shopId) = false ->
  (Store.high (thresholdsOf (getStoreSettings db shopId)) == 75)%Q ->
  (Store.medium (thresholdsOf (getStoreSettings db shopId)) == 50)%Q ->
  analyzeOrderRisk db order shopId = Ok v ->
  0 <= score v <= 60 /\ level v <> high /\ status v = approved.
Proof.
  intros Hfree Hhigh _ Hrun.
  pose proof (status_below_high _ _ _ _ Hrun) as Happroved.
  apply analyzeOrderRisk_inv in Hrun as (st & Hst & Hscore & _ & Hlevel & _).
  simpl in *. rewrite Hfree in Hst.
  destruct (scoreFactors_free_contributions _ _ _ Hst) as (_ & _ & _ & Hrange).
  rewrite <- Hscore in Hrange.
  assert (Hnot : level v <> high).
  { intros Hle. rewrite Hlevel in Hle.
    apply (proj1 (step_of_thresholds _ _ _)) in Hle. rewrite Hhigh in Hle.
    change 75%Q with (inject_Z 75) in Hle. rewrite <- Zle_Qle in Hle. lia. }
  auto.
Qed.

(** The scenario order on the free shop, which holds high-risk orders. *)
Lemma free_plan_default_thresholds_approved_witness :
  exists v, analyzeOrderRisk (H := Sample.host) Sample.freeDb Sample.order Sample.shop = Ok v
            /\ score v = 60 /\ level v <> high /\ status v = approved.
Proof.
  eexists. split; [reflexivity|]. split; [reflexivity|].
  exact (proj2 (free_plan_default_thresholds_approved (H := Sample.host)
                  Sample.freeDb Sample.order Sample.shop _
                  eq_refl (Qeq_refl _) (Qeq_refl _) eq_refl)).
Defined.

(** ** When the checks fire, and when they return *)

Lemma getProp_ok v name : nullish v = false -> getProp v name = Ok (getPropOpt v name).
Proof. destruct v; simpl; try discriminate; reflexivity. Qed.

Lemma getProp_not_nullish v name x : getProp v name = Ok x -> nullish v = false.
Proof. destruct v; simpl; try discriminate; reflexivity. Qed.

Lemma truthy_not_nullish v : truthy v = true -> nullish v = false.
Proof. destruct v; simpl; try discriminate; reflexivity. Qed.

#[local] Hint Resolve truthy_not_nullish : core.

Ltac read_props :=
  repeat match goal with
    | |- context [getProp ?v ?n] =>
        rewrite (getProp_ok v n) by (assumption || auto); unfold rbind at 1
    end.

Lemma checkOrderValue_high fc order st total_price q :
  Store.orderValue fc = true ->
  getProp order "total_price" = Ok total_price ->
  parseFloat total_price = Ok (Fin q) -> (1000 < q)%Q ->
  checkOrderValue fc order st
  = Ok (flag {| factor := "orderValue"; description := "High value order";
                riskContribution := 20 |} st).
Proof.
  intros Hon Hget Hparse Hq. unfold checkOrderValue, rbind.
  rewrite Hon, Hget, Hparse. simpl.
  destruct (Qle_bool q 1000) eqn:Hle; [|reflexivity].
  apply Qle_bool_iff in Hle. exfalso. eapply Qlt_not_le; eassumption.
Qed.

Lemma checkOrderValue_unparseable fc order st total_price :
  getProp order "total_price" = Ok total_price ->
  parseFloat total_price = Ok NaN ->
  checkOrderValue fc order st = Ok st.
Proof.
  intros Hget Hparse. unfold checkOrderValue, rbind.
  rewrite Hget, Hparse. simpl. now destruct (Store.orderValue fc).
Qed.

Lemma checkAddressMismatch_country fc order st billing shipping :
  Store.addressMismatch fc = true ->
  getProp order "billing_address" = Ok billing -> truthy billing = true ->
  getProp order "shipping_address" = Ok shipping -> truthy shipping = true ->
  strictNeq (getPropOpt billing "country") (getPropOpt shipping "country") = true ->
  checkAddressMismatch fc order st
  = Ok (flag {| factor := "addressMismatch";
                description := "Billing and shipping addresses don't match";
                riskContribution := 15 |} st).
Proof.
  intros Hon Hb Tb Hs Ts Hneq. unfold checkAddressMismatch.
  rewrite Hon, Hb. unfold rbind at 1. rewrite Tb, Hs. unfold rbind at 1. rewrite Ts.
  read_props. rewrite Hneq, !orb_true_r. reflexivity.
Qed.

Lemma checkAddressMismatch_returns fc order st :
  nullish order = false -> exists st', checkAddressMismatch fc order st = Ok st'.
Proof.
  intros Horder. unfold checkAddressMismatch.
  destruct (Store.addressMismatch fc); [|eauto]. read_props.
  destruct (truthy (getPropOpt order "billing_address")) eqn:Tb; [|eauto]. read_props.
  destruct (truthy (getPropOpt order "shipping_address")) eqn:Ts; [|eauto]. read_props.
  destruct (_ || _); eauto.
Qed.

Lemma checkEmailDomain_suspicious fc order st customer email domain :
  Store.emailDomain fc = true ->
  getProp order "customer" = Ok customer ->
  getProp customer "email" = Ok (JString email) ->
  splitSecond "@" (toLowerCase email) = Some domain ->
  In domain suspiciousDomains ->
  checkEmailDomain fc order st
  = Ok (flag {| factor := "emailDomain"; description := "Suspicious email domain";
                riskContribution := 25 |} st).
Proof.
  intros Hon Hc He Hd Hin. unfold checkEmailDomain.
  assert (Tc : truthy customer = true).
  { destruct customer; simpl in He; try discriminate; reflexivity. }
  assert (Te : truthy (JString email) = true).
  { simpl. destruct (String.eqb_spec email ""); [|reflexivity].
    subst. discriminate. }
  rewrite Hon, Hc. unfold rbind at 1. rewrite Tc, He. unfold rbind at 1.
  rewrite Te. simpl callToLowerCase. unfold rbind. rewrite Hd.
  assert (Hmatch : negb (String.eqb domain "")
                   && existsb (String.eqb domain) suspiciousDomains = true).
  { simpl in Hin. intuition subst; reflexivity. }
  now rewrite Hmatch.
Qed.

Lemma checkEmailDomain_returns fc order st :
  nullish order = false ->
  (let customer := getPropOpt order "customer" in
   negb (truthy customer) || negb (truthy (getPropOpt customer "email"))
   || isString (getPropOpt customer "email")) = true ->
  exists st', checkEmailDomain fc order st = Ok st'.
Proof.
  intros Horder Htyped. unfold checkEmailDomain. simpl in Htyped.
  destruct (Store.emailDomain fc); [|eauto]. read_props.
  destruct (truthy (getPropOpt order "customer")) eqn:Tc; [|eauto]. read_props.
  destruct (truthy (getPropOpt _ "email")) eqn:Te; [|eauto].
  simpl in Htyped.
  destruct (getPropOpt _ "email"); try discriminate. simpl. unfold rbind.
  destruct (splitSecond _ _); [|eauto]. destruct (_ && _); eauto.
Qed.

Lemma checkIpLocation_absent fc order st browser_ip :
  getProp order "browser_ip" = Ok browser_ip -> truthy browser_ip = false ->
  checkIpLocation fc order st = Ok st.
Proof.
  intros Hget Hfalsy. unfold checkIpLocation, rbind. rewrite Hget, Hfalsy.
  now destruct (Store.ipLocation fc).
Qed.

Lemma checkIpLocation_returns fc order st :
  nullish order = false -> exists st', checkIpLocation fc order st = Ok st'.
Proof.
  intros Horder. unfold checkIpLocation.
  destruct (Store.ipLocation fc); [|eauto]. read_props.
  destruct (truthy _); eauto.
Qed.

Lemma checkOrderTime_night `{Host} fc order st created_at h :
  Store.orderTime fc = true ->
  getProp order "created_at" = Ok created_at -> truthy created_at = true ->
  toStringThrows created_at = false -> localHours created_at = Some h ->
  22 <= h \/ h <= 4 ->
  checkOrderTime fc order st
  = Ok (flag {| factor := "orderTime";
                description := "Order placed during unusual hours";
                riskContribution := 10 |} st).
Proof.
  intros Hon Hget Tc Hdate Hh Hnight. unfold checkOrderTime, newDate, rbind.
  rewrite Hon, Hget, Tc, Hdate, Hh.
  destruct (22 <=? h)%Z eqn:H22; [reflexivity|].
  destruct (h <=? 4)%Z eqn:H4; [reflexivity|]. lia.
Qed.

Lemma checkOrderTime_returns `{Host} fc order st :
  nullish order = false -> toStringThrows (getPropOpt order "created_at") = false ->
  exists st', checkOrderTime fc order st = Ok st'.
Proof.
  intros Horder Hdate. unfold checkOrderTime, newDate.
  destruct (Store.orderTime fc); [|eauto]. read_props.
  destruct (truthy _); [|eauto]. rewrite Hdate. unfold rbind.
  destruct (localHours _); [|eauto]. destruct (_ || _); eauto.
Qed.

(** Lower-casing keeps the prefixes and the occurrences of ASCII text. *)
Lemma toLowerCase_ascii c r :
  codeOf c < 128 -> toLowerCase (String c r) = String (lowerAscii c) (toLowerCase r).
Proof.
  intros Hc. destruct r as [|c2 [|c3 r3]]; try reflexivity.
  cbn [toLowerCase]. unfold codePoint3.
  destruct (224 <=? codeOf c)%Z eqn:Hlead; [lia | reflexivity].
Qed.

Lemma toLowerCase_cases c1 r1 :
  toLowerCase (String c1 r1) = String (lowerAscii c1) (toLowerCase r1)
  \/ exists c2 c3 r3,
       r1 = String c2 (String c3 r3) /\ 128 <= codeOf c2 /\ 128 <= codeOf c3
       /\ toLowerCase (String c1 r1) = String "k" (toLowerCase r3).
Proof.
  destruct r1 as [|c2 [|c3 r3]]; try (left; reflexivity).
  cbn [toLowerCase]. destruct (codePoint3 c1 c2 c3 =? 8490)%Z eqn:Hk; [|left; reflexivity].
  right. exists c2, c3, r3. unfold codePoint3 in Hk.
  destruct ((224 <=? codeOf c1) && (codeOf c1 <=? 239)
            && (128 <=? codeOf c2) && (codeOf c2 <=? 191)
            && (128 <=? codeOf c3) && (codeOf c3 <=? 191))%Z eqn:Hseq; [|discriminate].
  repeat (apply andb_true_iff in Hseq as [Hseq ?]).
  repeat split; try reflexivity; lia.
Qed.

Lemma prefix_toLowerCase a : forall b,
  (forall c, In c (list_ascii_of_string a) -> codeOf c < 128) ->
  String.prefix a b = true -> String.prefix (toLowerCase a) (toLowerCase b) = true.
Proof.
  induction a as [|c a IH]; intros b Hascii Hp.
  { cbn [toLowerCase]. now destruct (toLowerCase b). }
  destruct b as [|d b]; [discriminate|].
  simpl String.prefix in Hp. destruct (ascii_dec c d) as [->|]; [|discriminate].
  assert (Hd : codeOf d < 128) by (apply Hascii; now left).
  rewrite !toLowerCase_ascii by assumption. simpl.
  destruct (ascii_dec (lowerAscii d) (lowerAscii d)); [|congruence].
  apply IH; [|assumption]. intros x Hx. apply Hascii. now right.
Qed.

Lemma prefix_first c a d b : String.prefix (String c a) (String d b) = true -> c = d.
Proof. simpl. destruct (ascii_dec c d); [auto | discriminate]. Qed.

Lemma includes_unfold needle hay :
  includes needle hay =
    String.prefix needle hay
    || match hay with
       | EmptyString => false
       | String _ rest => includes needle rest
       end.
Proof. destruct hay; reflexivity. Qed.

Lemma includes_toLowerCase_bounded a n : forall b,
  (String.length b <= n)%nat ->
  (forall c, In c (list_ascii_of_string a) -> codeOf c < 128) ->
  includes a b = true -> includes (toLowerCase a) (toLowerCase b) = true.
Proof.
  destruct a as [|x a].
  { intros b _ _ _. rewrite includes_unfold. now destruct (toLowerCase b). }
  induction n as [|n IH]; intros [|c1 r1] Hlen Hascii; simpl String.length in Hlen;
    try (simpl; discriminate); try lia.
  rewrite (includes_unfold _ (String c1 r1)). intros Hin.
  apply orb_true_iff in Hin as [Hp|Hrest].
  { apply prefix_toLowerCase in Hp; [|assumption].
    rewrite includes_unfold, Hp. reflexivity. }
  assert (Hx : codeOf x < 128) by (apply Hascii; now left).
  destruct (toLowerCase_cases c1 r1) as [->|(c2 & c3 & r3 & -> & H2 & H3 & ->)].
  - rewrite includes_unfold. rewrite (IH r1) by (assumption || lia).
    apply orb_true_r.
  - rewrite includes_unfold in Hrest. apply orb_true_iff in Hrest as [Hp|Hrest].
    { apply prefix_first in Hp. subst. lia. }
    rewrite includes_unfold in Hrest. apply orb_true_iff in Hrest as [Hp|Hrest].
    { apply prefix_first in Hp. subst. lia. }
    rewrite includes_unfold. rewrite (IH r3); [apply orb_true_r | | assumption..].
    simpl in Hlen. lia.
Qed.

Lemma includes_toLowerCase a b :
  (forall c, In c (list_ascii_of_string a) -> codeOf c < 128) ->
  includes a b = true -> includes (toLowerCase a) (toLowerCase b) = true.
Proof. apply (includes_toLowerCase_bounded a (String.length b)). lia. Qed.

Lemma prefix_shorter a c : forall b,
  String.prefix (a +:+ c) b = true -> String.prefix a b = true.
Proof.
  induction a as [|x a IH]; intros [|d b]; simpl; try congruence.
  destruct (ascii_dec x d); [apply IH | discriminate].
Qed.

Lemma includes_shorter a c b :
  includes (a +:+ c) b = true -> includes a b = true.
Proof.
  induction b as [|d b IH];
    [rewrite (includes_unfold _ ""), (includes_unfold a "")
    |rewrite (includes_unfold _ (String d b)), (includes_unfold a (String d b))];
    intros Hin; apply orb_true_iff in Hin as [Hp|Hrest].
  - apply prefix_shorter in Hp. now rewrite Hp.
  - discriminate.
  - apply prefix_shorter in Hp. now rewrite Hp.
  - rewrite (IH Hrest). apply orb_true_r.
Qed.

Lemma includes_gift s :
  includes "Gift Card" s = true -> includes "gift" (toLowerCase s) = true.
Proof.
  intros Hin. apply includes_toLowerCase in Hin.
  2:{ intros c Hc. simpl in Hc.
      repeat (destruct Hc as [<-|Hc]; [vm_compute; reflexivity|]). destruct Hc. }
  apply (includes_shorter "gift" " card"). exact Hin.
Qed.

Lemma someGift_returns names :
  forallb isString names = true -> exists b, someGift names = Ok b.
Proof.
  induction names as [|n names IH]; simpl; [eauto|].
  intros Hall. apply andb_true_iff in Hall as [Hn Hrest].
  destruct n; try discriminate. simpl. unfold rbind.
  destruct (includes "gift" _); eauto.
Qed.

Lemma someGift_found names :
  forallb isString names = true ->
  Exists (fun n => exists s, n = JString s /\ includes "Gift Card" s = true) names ->
  someGift names = Ok true.
Proof.
  induction names as [|n names IH]; simpl; intros Hall Hex.
  - inversion Hex.
  - apply andb_true_iff in Hall as [Hn Hrest].
    destruct n; try discriminate. simpl. unfold rbind.
    destruct (includes "gift" (toLowerCase s)) eqn:Hgift; [reflexivity|].
    inversion Hex as [? ? (s' & Heq & Hin)|]; subst; [|auto].
    inversion Heq; subst. apply includes_gift in Hin. congruence.
Qed.

Lemma checkGiftCardUse_found fc order st names :
  Store.giftCardUse fc = true ->
  getProp order "payment_gateway_names" = Ok (JArray names) ->
  forallb isString names = true ->
  Exists (fun n => exists s, n = JString s /\ includes "Gift Card" s = true) names ->
  checkGiftCardUse fc order st
  = Ok (flag {| factor := "giftCardUse"; description := "Payment with gift card";
                riskContribution := 15 |} st).
Proof.
  intros Hon Hget Hall Hex. unfold checkGiftCardUse, rbind.
  rewrite Hon, Hget. simpl. now rewrite (someGift_found names Hall Hex).
Qed.

Lemma checkGiftCardUse_returns fc order st :
  nullish order = false ->
  (let names := getPropOpt order "payment_gateway_names" in
   negb (truthy names)
   || match names with
      | JArray l => forallb isString l
      | _ => false
      end) = true ->
  exists st', checkGiftCardUse fc order st = Ok st'.
Proof.
  intros Horder Htyped. unfold checkGiftCardUse. simpl in Htyped.
  destruct (Store.giftCardUse fc); [|eauto]. read_props.
  destruct (truthy _) eqn:Tn; [|eauto]. simpl in Htyped.
  destruct (getPropOpt order "payment_gateway_names"); try discriminate.
  simpl. destruct (someGift_returns _ Htyped) as [b ->]. unfold rbind.
  destruct b; eauto.
Qed.

(** [analyzeOrderRisk] returns as soon as the factor checks do. *)
Lemma analyzeOrderRisk_returns `{Host} db order shopId st :
  nullish order = false ->
  scoreFactors
    (if isProPlan (getTrialStatus db shopId)
     then match getStoreSettings db shopId with
          | Some s => Store.riskFactors s
          | None => defaultFactors
          end
     else freeFactors) (isProPlan (getTrialStatus db shopId)) order = Ok st ->
  exists v, analyzeOrderRisk db order shopId = Ok v /\ score v = totalRiskScore st.
Proof.
  intros Horder Hst. unfold analyzeOrderRisk. rewrite Hst. unfold rbind at 1.
  read_props. eexists. split; reflexivity.
Qed.

(** ** The scenario *)

(** C4. An order of 1200.00 with another billing than shipping country, a
    customer at [mailinator.com], placed at hour 23 of the server, paid
    with a gateway whose name contains "Gift Card", without browser IP,
    scored for a pro shop with every factor on, thresholds 75 and 50 and
    [holdHighRiskOrders]: the verdict has score 85 = 20+15+25+10+15, level
    high and status on_hold. *)
Theorem night_gift_card_order_on_hold `{Host} db shopId settings order
    total_price price billing shipping customer email browser_ip created_at names :
  getStoreSettings db shopId = Some settings ->
  isProPlan (getTrialStatus db shopId) = true ->
  Store.riskFactors settings = defaultFactors ->
  (Store.high (Store.riskThresholds settings) == 75)%Q ->
  (Store.medium (Store.riskThresholds settings) == 50)%Q ->
  Store.holdHighRiskOrders (Store.automations settings) = true ->
  getProp order "total_price" = Ok total_price ->
  parseFloat total_price = Ok (Fin price) -> (price == 1200)%Q ->
  getProp order "billing_address" = Ok billing -> truthy billing = true ->
  getProp order "shipping_address" = Ok shipping -> truthy shipping = true ->
  strictNeq (getPropOpt billing "country") (getPropOpt shipping "country") = true ->
  getProp order "customer" = Ok customer ->
  getProp customer "email" = Ok (JString email) ->
  splitSecond "@" (toLowerCase email) = Some "mailinator.com" ->
  getProp order "browser_ip" = Ok browser_ip -> truthy browser_ip = false ->
  getProp order "created_at" = Ok created_at -> truthy created_at = true ->
  toStringThrows created_at = false -> localHours created_at = Some 23 ->
  getProp order "payment_gateway_names" = Ok (JArray names) ->
  forallb isString names = true ->
  Exists (fun n => exists s, n = JString s /\ includes "Gift Card" s = true) names ->
  exists v, analyzeOrderRisk db order shopId = Ok v
            /\ score v = 85 /\ level v = high /\ status v = on_hold.
Proof.
  intros Hsettings Hpro Hfactors Hhigh _ Hhold Hprice Hparse Hq Hb Tb Hs Ts Hneq
    Hc He Hd Hip Tip Hat Tat Hdate Hhour Hnames Hall Hex.
  set (fc := Store.riskFactors settings).
  assert (Hst : exists st, scoreFactors fc true order = Ok st /\ totalRiskScore st = 85).
  { unfold scoreFactors. subst fc. rewrite Hfactors.
    erewrite checkOrderValue_high; eauto; [|rewrite Hq; reflexivity].
    unfold rbind at 1.
    erewrite checkAddressMismatch_country; eauto. unfold rbind at 1.
    erewrite checkEmailDomain_suspicious; eauto; [|simpl; tauto]. unfold rbind at 1.
    erewrite checkIpLocation_absent; eauto. unfold rbind at 1.
    erewrite checkOrderTime_night; eauto; [|lia]. unfold rbind at 1.
    erewrite checkGiftCardUse_found; eauto. }
  destruct Hst as (st & Hst & Htotal).
  destruct (analyzeOrderRisk_returns db order shopId st) as (v & Hrun & Hscore).
  { eapply getProp_not_nullish; eassumption. }
  { rewrite Hpro, Hsettings. exact Hst. }
  exists v. split; [exact Hrun|].
  apply analyzeOrderRisk_inv in Hrun as (_ & _ & _ & _ & Hlevel & Hstatus).
  rewrite Hsettings in Hlevel, Hstatus. simpl in Hlevel, Hstatus.
  assert (Hv : score v = 85) by congruence.
  assert (Hl : level v = high).
  { rewrite Hlevel. apply (proj1 (step_of_thresholds _ _ _)).
    rewrite Hhigh, Hv. discriminate. }
  rewrite Hl, Hhold in Hstatus. auto.
Qed.

Lemma night_gift_card_order_on_hold_witness :
  exists v, analyzeOrderRisk (H := Sample.host) Sample.proDb Sample.order Sample.shop = Ok v
            /\ score v = 85 /\ level v = high /\ status v = on_hold.
Proof.
  apply (night_gift_card_order_on_hold (H := Sample.host)
           Sample.proDb Sample.shop Sample.settings Sample.order
           (JString "1200.00") 1200
           (JObject [("zip", JString "10001"); ("city", JString "New York");
                     ("country", JString "United States")])
           (JObject [("zip", JString "10001"); ("city", JString "New York");
                     ("country", JString "Canada")])
           (JObject [("email", JString "Buyer@Mailinator.com")])
           "Buyer@Mailinator.com" JUndefined
           (JString "2024-05-04T23:15:00") [JString "Gift Card"]);
    try reflexivity.
  constructor. exists "Gift Card". split; reflexivity.
Defined.

(** ** A total price that is not a number *)

(** The factor set with the order value switched off. *)
Lemma scoreFactors_without_orderValue `{Host} fc isPro order total_price :
  getProp order "total_price" = Ok total_price ->
  parseFloat total_price = Ok NaN ->
  scoreFactors fc isPro order =
    (st <- checkAddressMismatch fc order noRisk ;;
     st <- checkEmailDomain fc order st ;;
     if isPro then
       st <- checkIpLocation fc order st ;;
       st <- checkOrderTime fc order st ;;
       checkGiftCardUse fc order st
     else Ok st).
Proof.
  intros Hget Hparse. unfold scoreFactors.
  now rewrite (checkOrderValue_unparseable fc order noRisk total_price Hget Hparse).
Qed.

Lemma scoreFactors_returns `{Host} fc isPro order :
  nullish order = false ->
  (exists st, checkOrderValue fc order noRisk = Ok st) ->
  methodFieldsTyped order = true ->
  exists st, scoreFactors fc isPro order = Ok st.
Proof.
  intros Horder [s0 H0] Htyped. unfold methodFieldsTyped in Htyped.
  apply andb_true_iff in Htyped as [Htyped Hnames].
  apply andb_true_iff in Htyped as [Hemail Hdate].
  apply negb_true_iff in Hdate.
  unfold scoreFactors. rewrite H0. unfold rbind at 1.
  destruct (checkAddressMismatch_returns fc order s0 Horder) as [s1 ->].
  unfold rbind at 1.
  destruct (checkEmailDomain_returns fc order s1 Horder Hemail) as [s2 ->].
  unfold rbind at 1.
  destruct isPro; [|eauto].
  destruct (checkIpLocation_returns fc order s2 Horder) as [s3 ->].
  unfold rbind at 1.
  destruct (checkOrderTime_returns fc order s3 Horder Hdate) as [s4 ->].
  unfold rbind at 1.
  apply checkGiftCardUse_returns; assumption.
Qed.

(** C8, as the code has it.  When [total_price] can be read off the
    payload and is missing or makes [parseFloat] return NaN, the order
    value check returns without flagging anything, the scoring is that of
    the remaining checks, in a returned verdict the order value counts for
    0, and [analyzeOrderRisk] returns a verdict provided the fields the
    other checks call methods on have their types. *)
Theorem unparseable_total_price_counts_zero `{Host} db order shopId total_price :
  getProp order "total_price" = Ok total_price ->
  parseFloat total_price = Ok NaN ->
  (forall fc st, checkOrderValue fc order st = Ok st)
  /\ (forall fc isPro,
        scoreFactors fc isPro order =
          (st <- checkAddressMismatch fc order noRisk ;;
           st <- checkEmailDomain fc order st ;;
           if isPro then
             st <- checkIpLocation fc order st ;;
             st <- checkOrderTime fc order st ;;
             checkGiftCardUse fc order st
           else Ok st))
  /\ (forall v, analyzeOrderRisk db order shopId = Ok v ->
        exists st,
          scoreFactors (Observations.factorsToCheck db shopId)
            (isProPlan (getTrialStatus db shopId)) order = Ok st
          /\ score v = totalRiskScore st
          /\ factors v = map description (riskFactors st)
          /\ contributionOf "orderValue" st = 0)
  /\ (methodFieldsTyped order = true ->
      exists v, analyzeOrderRisk db order shopId = Ok v).
Proof.
  intros Hget Hparse.
  assert (Hzero : forall fc st, checkOrderValue fc order st = Ok st).
  { intros. eapply checkOrderValue_unparseable; eassumption. }
  assert (Horder : nullish order = false).
  { eapply getProp_not_nullish; eassumption. }
  repeat split.
  - exact Hzero.
  - intros. eapply scoreFactors_without_orderValue; eassumption.
  - intros v Hrun.
    apply analyzeOrderRisk_inv in Hrun as (st & Hst & Hscore & Hfactors & _).
    exists st. simpl in Hst.
    split; [exact Hst|]. split; [assumption|]. split; [assumption|].
    set (fc := if isProPlan _ then _ else freeFactors) in Hst. clearbody fc.
    set (isPro := isProPlan _) in Hst. clearbody isPro.
    rewrite (scoreFactors_without_orderValue _ _ _ _ Hget Hparse) in Hst.
    unfold rbind in Hst.
    destruct (checkAddressMismatch fc order noRisk) as [s1|] eqn:A1; [|discriminate].
    destruct (checkEmailDomain fc order s1) as [s2|] eqn:A2; [|discriminate].
    apply checkAddressMismatch_adds in A1. apply checkEmailDomain_adds in A2.
    destruct isPro.
    + destruct (checkIpLocation fc order s2) as [s3|] eqn:A3; [|discriminate].
      destruct (checkOrderTime fc order s3) as [s4|] eqn:A4; [|discriminate].
      apply checkIpLocation_adds in A3. apply checkOrderTime_adds in A4.
      apply checkGiftCardUse_adds in Hst.
      rewrite (adds_contribution _ _ _ _ "orderValue" Hst),
        (adds_contribution _ _ _ _ "orderValue" A4),
        (adds_contribution _ _ _ _ "orderValue" A3),
        (adds_contribution _ _ _ _ "orderValue" A2),
        (adds_contribution _ _ _ _ "orderValue" A1).
      reflexivity.
    + inversion Hst; subst.
      rewrite (adds_contribution _ _ _ _ "orderValue" A2),
        (adds_contribution _ _ _ _ "orderValue" A1).
      reflexivity.
  - intros Htyped.
    destruct (scoreFactors_returns
                (if isProPlan (getTrialStatus db shopId)
                 then match getStoreSettings db shopId with
                      | Some s => Store.riskFactors s
                      | None => defaultFactors
                      end
                 else freeFactors)
                (isProPlan (getTrialStatus db shopId)) order Horder)
      as [st Hst]; [eauto | assumption |].
    destruct (analyzeOrderRisk_returns db order shopId st Horder Hst) as (v & Hv & _).
    eauto.
Qed.

(** An order without [total_price], with matching addresses and a
    disposable mailbox, on the free shop: 25 points, none for the value. *)
Lemma unparseable_total_price_counts_zero_witness :
  let order :=
    JObject [("id", JNumber (Fin 7));
             ("customer", JObject [("email", JString "a@yopmail.com")])] in
  parseFloat JUndefined = Ok NaN
  /\ exists v, analyzeOrderRisk (H := Sample.host) Sample.freeDb order Sample.shop = Ok v.
Proof.
  split; [reflexivity|].
  exact (proj2 (proj2 (proj2
    (unparseable_total_price_counts_zero (H := Sample.host) Sample.freeDb
       (JObject [("id", JNumber (Fin 7));
                 ("customer", JObject [("email", JString "a@yopmail.com")])])
       Sample.shop JUndefined eq_refl eq_refl))) eq_refl).
Defined.

(** C8, as the claim has it, fails in the order value check itself: a
    [total_price] that is an object with a property [toString] of its own
    is not a parseable number, yet [parseFloat] throws on it, its
    conversion to a string finding nothing to call.  Every other field of
    the payload is as the other checks need it, and without the price the
    same payload is scored. *)
Lemma unconvertible_total_price_throws :
  let price := JObject [("toString", JNumber (Fin 0))] in
  let order := JObject [("id", JNumber (Fin 7)); ("total_price", price)] in
  methodFieldsTyped order = true
  /\ parseFloat price = Throw TypeError
  /\ checkOrderValue freeFactors order noRisk = Throw TypeError
  /\ analyzeOrderRisk (H := Sample.host) Sample.freeDb order Sample.shop = Throw TypeError
  /\ exists v, analyzeOrderRisk (H := Sample.host) Sample.freeDb
                 (JObject [("id", JNumber (Fin 7))]) Sample.shop = Ok v.
Proof. repeat split. eexists. reflexivity. Qed.

(** Outside the order value check nothing is validated either: without
    [total_price] and with a customer e-mail that is a number,
    [analyzeOrderRisk] throws, the number having no method
    [toLowerCase]. *)
Example missing_total_price_may_still_throw :
  let order := JObject [("id", JNumber (Fin 7));
                        ("customer", JObject [("email", JNumber (Fin 42))])] in
  getProp order "total_price" = Ok JUndefined
  /\ parseFloat JUndefined = Ok NaN
  /\ analyzeOrderRisk (H := Sample.host) Sample.freeDb order Sample.shop = Throw TypeError.
Proof. repeat split. Qed.

(** ** The notification dispatcher *)

(** C7. When the level is low, or when the shop is not pro and the level is
    not high, [sendRiskNotifications] writes one console line and calls
    neither dispatch: the line is the one of the low-risk guard for a low
    level, whatever the settings; otherwise the one of the missing
    settings or of the free-plan guard, whatever the frequency and the
    channels stored. *)
Theorem low_or_free_not_high_sends_nothing order shopId w :
  level (riskAnalysis order) = low
  \/ (isProPlan (getTrialStatus (database w) shopId) = false
      /\ level (riskAnalysis order) <> high) ->
  Notifications.sendRiskNotifications order shopId w
  = (Ok tt,
     {| database := database w;
        events := events w ++
          [ConsoleLog
             (match level (riskAnalysis order), getStoreSettings (database w) shopId with
              | low, _ => "No notification needed for low-risk order"
              | _, None => "No notification settings found for shop:"
              | _, Some _ =>
                  "Free plan users only receive notifications for high-risk orders"
              end)] |}).
Proof.
  intros Hguard.
  unfold Notifications.sendRiskNotifications, tryCatch, ioBind, readDatabase, emit.
  destruct (level (riskAnalysis order)) eqn:Hlevel; simpl.
  - reflexivity.
  - destruct Hguard as [|[Hfree _]]; [discriminate|].
    destruct (getStoreSettings (database w) shopId); simpl; [|reflexivity].
    now rewrite Hfree.
  - destruct Hguard as [|[_ Hnot]]; [discriminate | congruence].
Qed.

Lemma low_or_free_not_high_sends_nothing_witness :
  exists order,
    Webhook.processWebhook (H := Sample.host)
      (Sample.request None) Sample.rawOrder (Sample.world Sample.freeDb)
    = (Ok tt, {| database := createOrder Sample.freeDb order;
                 events :=
                   [JsonParse Sample.rawOrder;
                    ConsoleLog "Received webhook from shop";
                    ConsoleLog "Order received";
                    ConsoleLog "Analyzing order risk for shop:";
                    ConsoleLog "Risk analysis result:";
                    InsertOne order;
                    ConsoleLog "Order saved to database";
                    ConsoleLog "Order Analysis Summary:";
                    ConsoleLog
                      "Free plan users only receive notifications for high-risk orders"] |})
    /\ level (riskAnalysis order) = medium
    /\ Notifications.sendRiskNotifications order Sample.shop (Sample.world Sample.freeDb)
       = (Ok tt, {| database := Sample.freeDb;
                    events := [ConsoleLog
                      "Free plan users only receive notifications for high-risk orders"] |}).
Proof.
  eexists. split; [vm_compute; reflexivity|]. split; [reflexivity|].
  refine (eq_trans
    (low_or_free_not_high_sends_nothing _ Sample.shop (Sample.world Sample.freeDb) _) _).
  - right. split; [reflexivity | discriminate].
  - reflexivity.
Defined.

(** ** The webhook handler *)

(** C6, as the code has it.  A delivery whose signature header is not
    empty and differs from the base64 HMAC-SHA256 of the raw body under the
    app secret only writes the error line: the body is not parsed, no
    document is inserted, the database is as before. *)
Theorem mismatched_signature_aborts `{Host} request rawPayload w signature :
  Webhook.headersGet request "x-shopify-hmac-sha256" = Some signature ->
  signature <> "" ->
  signature <> hmacSha256Base64 Webhook.secretKey rawPayload ->
  Webhook.processWebhook request rawPayload w
  = (Ok tt, {| database := database w;
               events := events w ++ [ConsoleError "Invalid webhook signature"] |}).
Proof.
  intros Hheader Hnonempty Hdiffers. unfold Webhook.processWebhook.
  rewrite Hheader. simpl.
  destruct (String.eqb_spec signature ""); [contradiction|]. simpl.
  rewrite bool_decide_eq_false_2 by congruence. reflexivity.
Qed.

Lemma mismatched_signature_aborts_witness :
  Webhook.processWebhook (H := Sample.host)
    (Sample.request (Some "dGFtcGVyZWQ=")) Sample.rawOrder (Sample.world Sample.freeDb)
  = (Ok tt, {| database := Sample.freeDb;
               events := [ConsoleError "Invalid webhook signature"] |}).
Proof.
  apply (mismatched_signature_aborts (H := Sample.host)
           (Sample.request (Some "dGFtcGVyZWQ=")) Sample.rawOrder
           (Sample.world Sample.freeDb) "dGFtcGVyZWQ=");
    [reflexivity | discriminate | discriminate].
Defined.

(** C6, as the claim has it, fails: a signature header that is present but
    empty differs from every digest, yet it is read as absent, and the
    order is parsed and inserted. *)
Lemma empty_signature_header_is_not_checked :
  let request := Sample.request (Some "") in
  let after := snd (Webhook.processWebhook (H := Sample.host) request Sample.rawOrder
                      (Sample.world Sample.freeDb)) in
  Webhook.headersGet request "x-shopify-hmac-sha256" = Some ""
  /\ "" <> hmacSha256Base64 (Host := Sample.host)
              (Webhook.secretKey (H := Sample.host)) Sample.rawOrder
  /\ exists order,
       ordersColl (database after) = [order]
       /\ In (JsonParse Sample.rawOrder) (events after)
       /\ In (InsertOne order) (events after).
Proof.
  split; [reflexivity|]. split; [discriminate|].
  eexists. split; [vm_compute; reflexivity|].
  split; vm_compute; tauto.
Qed.

(** Every event [processWebhook] adds is something else than a message to
    a socket. *)
Lemma emitsOnly_ret {A} P (a : A) : emitsOnly P (ioRet a).
Proof. intros w. exists []. simpl. rewrite app_nil_r. auto. Qed.

Lemma emitsOnly_emit P e : P e -> emitsOnly P (emit e).
Proof. intros He w. exists [e]. simpl. auto. Qed.

Lemma emitsOnly_readDatabase P : emitsOnly P readDatabase.
Proof. intros w. exists []. simpl. rewrite app_nil_r. auto. Qed.

Lemma emitsOnly_writeDatabase P db : emitsOnly P (writeDatabase db).
Proof. intros w. exists []. simpl. rewrite app_nil_r. auto. Qed.

Lemma emitsOnly_liftResult {A} P (r : result A) : emitsOnly P (liftResult r).
Proof. intros w. exists []. simpl. rewrite app_nil_r. auto. Qed.

Lemma emitsOnly_bind {A B} P (m : IO A) (k : A -> IO B) :
  emitsOnly P m -> (forall a, emitsOnly P (k a)) -> emitsOnly P (ioBind m k).
Proof.
  intros Hm Hk w. unfold ioBind.
  destruct (Hm w) as (new1 & E1 & F1).
  destruct (m w) as [[a|e] w1]; simpl in *.
  - destruct (Hk a w1) as (new2 & E2 & F2).
    exists (new1 ++ new2). rewrite E2, E1, app_assoc. split; [reflexivity|].
    apply Forall_app; auto.
  - eauto.
Qed.

Lemma emitsOnly_tryCatch P (body : IO unit) (handler : JSError -> IO unit) :
  emitsOnly P body -> (forall e, emitsOnly P (handler e)) ->
  emitsOnly P (tryCatch body handler).
Proof.
  intros Hm Hk w. unfold tryCatch.
  destruct (Hm w) as (new1 & E1 & F1).
  destruct (body w) as [[a|e] w1]; simpl in *.
  - eauto.
  - destruct (Hk e w1) as (new2 & E2 & F2).
    exists (new1 ++ new2). rewrite E2, E1, app_assoc. split; [reflexivity|].
    apply Forall_app; auto.
Qed.

Ltac emits_only_using known :=
  repeat first
    [ known
    | apply emitsOnly_tryCatch; [|intros]
    | apply emitsOnly_bind; [|intros]
    | apply emitsOnly_emit; reflexivity
    | apply emitsOnly_ret
    | apply emitsOnly_readDatabase
    | apply emitsOnly_writeDatabase
    | apply emitsOnly_liftResult
    | match goal with
      | |- emitsOnly _ (if ?c then _ else _) => destruct c
      | |- emitsOnly _ (match ?x with _ => _ end) => destruct x
      end ].

Ltac emits_only := emits_only_using fail.

Lemma sendRiskNotifications_no_socket order shopId :
  emitsOnly (fun e => isSocketSend e = false)
    (Notifications.sendRiskNotifications order shopId).
Proof.
  unfold Notifications.sendRiskNotifications, Notifications.sendEmailNotification,
    Notifications.sendSlackNotification.
  emits_only.
Qed.

Lemma emitted_of_emitsOnly {A} P (m : IO A) w : emitsOnly P m -> Forall P (emitted m w).
Proof.
  intros Hm. destruct (Hm w) as (new & E & F). unfold emitted.
  rewrite E, drop_app_length. exact F.
Qed.

(** C5, on the code.  Whatever the delivery and the world,
    [processWebhook] sends no message to any socket: [notifyNewOrder] is
    not among the calls it makes. *)
Theorem processWebhook_never_broadcasts `{Host} request rawPayload w :
  Forall (fun e => isSocketSend e = false)
         (emitted (Webhook.processWebhook request rawPayload) w).
Proof.
  apply emitted_of_emitsOnly.
  unfold Webhook.processWebhook, Webhook.jsonParse.
  emits_only_using ltac:(apply sendRiskNotifications_no_socket).
Qed.

(** The scenario order delivered with its signature to the pro shop, while
    socket 1 is open and registered for the shop: the order is inserted and
    the shop mailed, the socket gets nothing; [notifyNewOrder] would have
    reached it. *)
Example signed_delivery_reaches_no_subscriber :
  let sv := WebSocketServer.run
              [WebSocketServer.Connection 1%nat (Some Sample.shop)]
              WebSocketServer.initial in
  WebSocketServer.connectionsOf sv Sample.shop = [1%nat]
  /\ WebSocketServer.notifyNewOrder (fun _ => 1) sv Sample.shop Sample.order
     = (Ok tt,
        [SocketSend 1%nat
           (UpdateMessage (JObject [("event", JString "new_order");
                                    ("order", Sample.order)]));
         ConsoleLog "Broadcasted update to clients for shop"])
  /\ exists order,
       Webhook.processWebhook (H := Sample.host)
         (Sample.request (Some Sample.signatureOfRaw)) Sample.rawOrder
         (Sample.world Sample.proDb)
       = (Ok tt, {| database := createOrder Sample.proDb order;
                    events :=
                      [JsonParse Sample.rawOrder;
                       ConsoleLog "Received webhook from shop";
                       ConsoleLog "Order received";
                       ConsoleLog "Analyzing order risk for shop:";
                       ConsoleLog "Risk analysis result:";
                       InsertOne order;
                       ConsoleLog "Order saved to database";
                       ConsoleLog "Order Analysis Summary:";
                       EmailNotification "owner@demo.example" order None;
                       ConsoleLog "Notifications sent for order"] |})
       /\ level (riskAnalysis order) = high.
Proof.
  split; [vm_compute; reflexivity|]. split; [vm_compute; reflexivity|].
  eexists. split; [vm_compute; reflexivity | reflexivity].
Qed.

(** ** The broadcast registry *)

Section Registry.
Import WebSocketServer.

Implicit Types (conns : gmap string (list Socket)) (socket : Socket) (shopId : string).

Lemma elem_of_setAdd socket x (s : list Socket) :
  x ∈ setAdd socket s <-> x ∈ s \/ x = socket.
Proof.
  unfold setAdd. case_bool_decide as Hin.
  - split; [auto | intros [? | ->]; auto].
  - rewrite elem_of_app, list_elem_of_singleton. tauto.
Qed.

Lemma elem_of_setDelete socket x (s : list Socket) :
  x ∈ setDelete socket s <-> x ∈ s /\ x <> socket.
Proof. unfold setDelete. rewrite list_elem_of_filter. tauto. Qed.

Lemma onClose_lookup conns socket shopId other :
  onClose socket shopId conns !! other =
    if decide (shopId = other) then
      match conns !! shopId with
      | Some s => match setDelete socket s with
                  | [] => None
                  | remaining => Some remaining
                  end
      | None => None
      end
    else conns !! other.
Proof.
  unfold onClose. rewrite lookup_alter_eq.
  destruct (conns !! shopId) as [s|] eqn:Hs; simpl.
  - destruct (setDelete socket s) as [|y others] eqn:Hleft.
    + case_decide as Heq.
      * subst. apply lookup_delete_eq.
      * rewrite lookup_delete_ne, lookup_alter_ne by assumption. reflexivity.
    + case_decide as Heq.
      * subst. rewrite lookup_alter_eq, Hs. simpl. now rewrite Hleft.
      * now rewrite lookup_alter_ne.
  - case_decide as Heq.
    + subst. rewrite lookup_alter_eq, Hs. reflexivity.
    + now rewrite lookup_alter_ne.
Qed.

Lemma onClose_members conns socket shopId other x :
  x ∈ default [] (onClose socket shopId conns !! other)
  <-> x ∈ default [] (conns !! other) /\ ~ (x = socket /\ other = shopId).
Proof.
  rewrite onClose_lookup. case_decide as Heq.
  - subst other. destruct (conns !! shopId) as [s|]; simpl.
    + pose proof (elem_of_setDelete socket x s) as Hdel.
      destruct (setDelete socket s) as [|y others]; simpl.
      * rewrite elem_of_nil in *. tauto.
      * rewrite Hdel. tauto.
    + rewrite elem_of_nil. tauto.
  - split; [intros Hin; split; [assumption | intros [_ ?]; congruence] | tauto].
Qed.

Lemma onClose_no_empty conns socket shopId :
  (forall other, conns !! other <> Some []) ->
  forall other, onClose socket shopId conns !! other <> Some [].
Proof.
  intros Hconns other. rewrite onClose_lookup. case_decide; [|apply Hconns].
  destruct (conns !! shopId) as [s|]; [|discriminate].
  destruct (setDelete socket s); discriminate.
Qed.

Lemma closeAll_members shops : forall conns socket other x,
  x ∈ default [] (fold_left (fun c shopId => onClose socket shopId c) shops conns !! other)
  <-> x ∈ default [] (conns !! other) /\ ~ (x = socket /\ other ∈ shops).
Proof.
  induction shops as [|shopId shops IH]; intros conns socket other x; simpl.
  - rewrite elem_of_nil. tauto.
  - rewrite IH, onClose_members, elem_of_cons. tauto.
Qed.

Lemma closeAll_no_empty shops : forall conns socket,
  (forall other, conns !! other <> Some []) ->
  forall other,
    fold_left (fun c shopId => onClose socket shopId c) shops conns !! other <> Some [].
Proof.
  induction shops as [|shopId shops IH]; intros conns socket Hconns; simpl.
  - exact Hconns.
  - apply IH. now apply onClose_no_empty.
Qed.

Lemma errorAll_same shops conns socket :
  fold_left (fun c shopId => onError socket shopId c) shops conns = conns.
Proof. induction shops; simpl; auto. Qed.

Lemma slotOf_stored conns shopId :
  shopId ∉ objectPrototypeKeys ->
  slotOf conns shopId = match conns !! shopId with
                        | Some connections => OwnSet connections
                        | None => NoValue
                        end.
Proof.
  intros Hkey. unfold slotOf. destruct (conns !! shopId); [reflexivity|].
  case_bool_decide; [contradiction | reflexivity].
Qed.

Lemma empty_not_inherited : "" ∉ objectPrototypeKeys.
Proof. apply (bool_decide_unpack _). vm_compute. exact I. Qed.

(** An attach under a name that is not inherited. *)
Lemma onConnection_lookup sv socket shopId other :
  shopId <> "" -> shopId ∉ objectPrototypeKeys ->
  ended (onConnection socket (Some shopId) sv) = Ok tt
  /\ shopConnections (after (onConnection socket (Some shopId) sv)) !! other =
       if decide (shopId = other)
       then Some (setAdd socket (default [] (shopConnections sv !! shopId)))
       else shopConnections sv !! other.
Proof.
  intros Hshop Hkey. unfold onConnection.
  destruct (String.eqb_spec shopId ""); [contradiction|].
  rewrite !slotOf_stored by assumption.
  destruct (shopConnections sv !! shopId) as [s|] eqn:Hs.
  - rewrite Hs. simpl. split; [reflexivity|]. case_decide as Heq.
    + subst other. now rewrite lookup_alter_eq, Hs.
    + now rewrite lookup_alter_ne.
  - rewrite lookup_insert_eq. simpl. split; [reflexivity|]. case_decide as Heq.
    + subst other. now rewrite lookup_alter_eq, lookup_insert_eq.
    + now rewrite lookup_alter_ne, lookup_insert_ne.
Qed.

Lemma onConnection_listeners sv socket shopId :
  shopId <> "" -> shopId ∉ objectPrototypeKeys ->
  listeners (after (onConnection socket (Some shopId) sv))
  = <[socket := default [] (listeners sv !! socket) ++ [shopId]]> (listeners sv).
Proof.
  intros Hshop Hkey. unfold onConnection.
  destruct (String.eqb_spec shopId ""); [contradiction|].
  rewrite !slotOf_stored by assumption.
  destruct (shopConnections sv !! shopId) as [s|] eqn:Hs.
  - now rewrite Hs.
  - now rewrite lookup_insert_eq.
Qed.

(** An attach under an inherited name: the handler throws after its
    console line, and nothing is registered. *)
Lemma onConnection_inherited sv socket shopId :
  shopId ∈ objectPrototypeKeys -> shopConnections sv !! shopId = None ->
  onConnection socket (Some shopId) sv
  = {| ended := Throw TypeError;
       after := {| shopConnections := shopConnections sv; listeners := listeners sv |};
       wrote := [ConsoleLog "WebSocket connected for shop"] |}.
Proof.
  intros Hkey Hnone. unfold onConnection.
  destruct (String.eqb_spec shopId "") as [->|_].
  { now apply empty_not_inherited in Hkey. }
  unfold slotOf. rewrite !Hnone, !(bool_decide_eq_true_2 _ Hkey).
  now rewrite ?Hnone, ?(bool_decide_eq_true_2 _ Hkey).
Qed.

Lemma setAdd_not_empty socket (s : list Socket) : setAdd socket s <> [].
Proof.
  unfold setAdd. case_bool_decide as Hin.
  - intros ->. now apply elem_of_nil in Hin.
  - destruct s; discriminate.
Qed.

Lemma run_snoc ds d sv : run (ds ++ [d]) sv = after (step (run ds sv) d).
Proof. unfold run. now rewrite fold_left_app. Qed.

(** One delivery on a well-formed server. *)
Lemma step_members sv d shopId socket :
  wellFormed sv ->
  socket ∈ connectionsOf (after (step sv d)) shopId
  <-> match d with
      | Connection s (Some shop) =>
          if negb (String.eqb shop "") && negb (bool_decide (shop ∈ objectPrototypeKeys))
             && bool_decide (s = socket) && bool_decide (shop = shopId)
          then True else socket ∈ connectionsOf sv shopId
      | Close s => if bool_decide (s = socket) then False
                   else socket ∈ connectionsOf sv shopId
      | _ => socket ∈ connectionsOf sv shopId
      end.
Proof.
  intros (Hne & Hlisten & Hown). unfold connectionsOf. destruct d as [s [shop|]|s|s].
  - change (step sv (Connection s (Some shop))) with (onConnection s (Some shop) sv).
    destruct (decide (shop = "")) as [->|Hshop]; [reflexivity|].
    rewrite (proj2 (String.eqb_neq shop "") Hshop).
    destruct (decide (shop ∈ objectPrototypeKeys)) as [Hkey|Hkey].
    { rewrite (onConnection_inherited _ _ _ Hkey (Hown _ Hkey)).
      now rewrite (bool_decide_eq_true_2 _ Hkey). }
    rewrite (bool_decide_eq_false_2 _ Hkey).
    rewrite (proj2 (onConnection_lookup sv s shop shopId Hshop Hkey)).
    case_decide as Heq; simpl.
    + subst shopId. rewrite elem_of_setAdd.
      rewrite (bool_decide_eq_true_2 (shop = shop)) by reflexivity.
      rewrite andb_true_r. case_bool_decide; [subst; tauto|]. split; [|tauto].
      intros [|]; [assumption | congruence].
    + rewrite (bool_decide_eq_false_2 (shop = shopId)) by assumption.
      now rewrite andb_false_r.
  - reflexivity.
  - simpl. rewrite closeAll_members. case_bool_decide as Heq.
    + subst s. split; [|tauto]. intros [Hin Hnot]. apply Hnot. split; [reflexivity|].
      now apply Hlisten.
    + split; [tauto | intros Hin; split; [assumption | intros [? _]; congruence]].
  - simpl. now rewrite errorAll_same.
Qed.

Lemma closeAll_lookup_none shops : forall conns socket other,
  conns !! other = None ->
  fold_left (fun c shopId => onClose socket shopId c) shops conns !! other = None.
Proof.
  induction shops as [|shopId shops IH]; intros conns socket other Hnone; simpl.
  - exact Hnone.
  - apply IH. rewrite onClose_lookup. case_decide as Heq; [|exact Hnone].
    subst other. now rewrite Hnone.
Qed.

Lemma step_wellFormed sv d : wellFormed sv -> wellFormed (after (step sv d)).
Proof.
  intros (Hne & Hlisten & Hown).
  destruct d as [s [shop|]|s|s].
  - change (step sv (Connection s (Some shop))) with (onConnection s (Some shop) sv).
    destruct (decide (shop = "")) as [->|Hshop]; [repeat split; assumption|].
    destruct (decide (shop ∈ objectPrototypeKeys)) as [Hkey|Hkey].
    { rewrite (onConnection_inherited _ _ _ Hkey (Hown _ Hkey)).
      repeat split; assumption. }
    pose proof (fun other => proj2 (onConnection_lookup sv s shop other Hshop Hkey))
      as Hlookup.
    pose proof (onConnection_listeners sv s shop Hshop Hkey) as Hls.
    split; [|split].
    + intros shopId. rewrite Hlookup. case_decide; [|apply Hne].
      intros Hempty. inversion Hempty as [He]. now apply setAdd_not_empty in He.
    + intros shopId socket. unfold connectionsOf. rewrite Hlookup, Hls.
      destruct (decide (s = socket)) as [->|Hs].
      * rewrite lookup_insert_eq. simpl. rewrite elem_of_app, list_elem_of_singleton.
        case_decide as Heq; simpl; [auto|].
        intros Hin. left. now apply Hlisten.
      * rewrite lookup_insert_ne by assumption.
        case_decide as Heq; simpl; [|apply Hlisten].
        subst shopId. rewrite elem_of_setAdd. intros [Hin|]; [|congruence].
        now apply Hlisten.
    + intros shopId Hin. rewrite Hlookup. case_decide as Heq; [|now apply Hown].
      subst shopId. contradiction.
  - repeat split; assumption.
  - split; [|split].
    + simpl. now apply closeAll_no_empty.
    + intros shopId socket. unfold connectionsOf. simpl. rewrite closeAll_members.
      intros [Hin _]. now apply Hlisten.
    + intros shopId Hin. simpl. apply closeAll_lookup_none. now apply Hown.
  - split; [|split]; simpl; rewrite ?errorAll_same; assumption.
Qed.

Lemma initial_wellFormed : wellFormed initial.
Proof.
  split; [|split].
  - intros shopId. unfold initial; simpl. now rewrite lookup_empty.
  - intros shopId socket. unfold connectionsOf, initial; simpl.
    rewrite lookup_empty. simpl. now rewrite elem_of_nil.
  - intros shopId _. apply lookup_empty.
Qed.

Lemma run_wellFormed ds : wellFormed (run ds initial).
Proof.
  induction ds as [|d ds IH] using rev_ind.
  - apply initial_wellFormed.
  - rewrite run_snoc. now apply step_wellFormed.
Qed.

Lemma run_members ds shopId socket :
  socket ∈ connectionsOf (run ds initial) shopId
  <-> attachedOpen (rev ds) shopId socket = true.
Proof.
  revert shopId socket.
  induction ds as [|d ds IH] using rev_ind; intros shopId socket.
  - unfold connectionsOf, initial; simpl. rewrite lookup_empty. simpl.
    rewrite elem_of_nil. split; [tauto | discriminate].
  - rewrite run_snoc, rev_app_distr. simpl rev. simpl app.
    rewrite (step_members _ _ _ _ (run_wellFormed ds)).
    destruct d as [s [shop|]|s|s]; simpl attachedOpen.
    + destruct (_ && _ && _ && _); [tauto | apply IH].
    + apply IH.
    + destruct (bool_decide (s = socket)); [split; [tauto | discriminate] | apply IH].
    + apply IH.
Qed.



(** A dashboard that connects with [?shop=constructor]: the handler throws
    before the acknowledgment is sent, and the socket is not registered. *)
Example inherited_shop_id_is_not_registered :
  step initial (Connection 1%nat (Some "constructor"))
  = {| ended := Throw TypeError; after := initial;
       wrote := [ConsoleLog "WebSocket connected for shop"] |}.
Proof. reflexivity. Qed.

End Registry.

(** * Further properties of the sources *)

Import Observations.

(** ** The factor checks, one by one *)

Lemma getProp_eq_opt v name x : getProp v name = Ok x -> x = getPropOpt v name.
Proof. unfold getPropOpt. now intros ->. Qed.

Ltac inspect_check H :=
  repeat match type of H with
    | context [match getProp ?v ?n with _ => _ end] =>
        let E := fresh "E" in
        destruct (getProp v n) eqn:E; [apply getProp_eq_opt in E; subst | discriminate]
    end.

Lemma checkOrderValue_exact fc order st st' total_price q :
  checkOrderValue fc order st = Ok st' ->
  Store.orderValue fc = true ->
  getProp order "total_price" = Ok total_price ->
  parseFloat total_price = Ok (Fin q) ->
  totalRiskScore st' - totalRiskScore st =
    if negb (Qle_bool q 1000) then 20 else if negb (Qle_bool q 500) then 10 else 0.
Proof.
  unfold checkOrderValue, rbind. intros Hrun Hon Hget Hparse.
  rewrite Hon, Hget, Hparse in Hrun. simpl in Hrun.
  destruct (Qle_bool q 1000); simpl in *; [|inversion Hrun; unfold flag; simpl; lia].
  destruct (Qle_bool q 500); simpl in *; inversion Hrun; unfold flag; simpl; lia.
Qed.

Lemma checkAddressMismatch_exact fc order st st' :
  checkAddressMismatch fc order st = Ok st' ->
  let billing := getPropOpt order "billing_address" in
  let shipping := getPropOpt order "shipping_address" in
  totalRiskScore st' - totalRiskScore st =
    if Store.addressMismatch fc && truthy billing && truthy shipping
       && addressesDiffer billing shipping
    then 15 else 0.
Proof.
  unfold checkAddressMismatch, rbind, addressesDiffer. intros Hrun. simpl.
  destruct (Store.addressMismatch fc); simpl; [|inversion Hrun; lia].
  inspect_check Hrun.
  destruct (truthy (getPropOpt order "billing_address")); simpl; [|inversion Hrun; lia].
  inspect_check Hrun.
  destruct (truthy (getPropOpt order "shipping_address")); simpl; [|inversion Hrun; lia].
  inspect_check Hrun.
  destruct (_ || _); inversion Hrun; unfold flag; simpl; lia.
Qed.

Lemma checkEmailDomain_exact fc order st st' :
  checkEmailDomain fc order st = Ok st' ->
  let customer := getPropOpt order "customer" in
  let email := getPropOpt customer "email" in
  totalRiskScore st' - totalRiskScore st =
    if Store.emailDomain fc && truthy customer && truthy email
       && match email with
          | JString s => hasSuspiciousDomain s
          | _ => false
          end
    then 25 else 0.
Proof.
  unfold checkEmailDomain, rbind, hasSuspiciousDomain. intros Hrun. simpl.
  destruct (Store.emailDomain fc); simpl; [|inversion Hrun; lia].
  inspect_check Hrun.
  destruct (truthy (getPropOpt order "customer")); simpl; [|inversion Hrun; lia].
  inspect_check Hrun.
  destruct (truthy (getPropOpt _ "email")); simpl; [|inversion Hrun; lia].
  destruct (getPropOpt _ "email"); simpl in Hrun; try discriminate.
  destruct (splitSecond "@" (toLowerCase s)); [|inversion Hrun; lia].
  destruct (_ && _); inversion Hrun; unfold flag; simpl; lia.
Qed.

Lemma checkIpLocation_exact fc order st st' :
  checkIpLocation fc order st = Ok st' ->
  totalRiskScore st' - totalRiskScore st =
    if Store.ipLocation fc && truthy (getPropOpt order "browser_ip") then 5 else 0.
Proof.
  unfold checkIpLocation, rbind. intros Hrun.
  destruct (Store.ipLocation fc); simpl; [|inversion Hrun; lia].
  inspect_check Hrun.
  destruct (truthy _); inversion Hrun; unfold flag; simpl; lia.
Qed.

Lemma checkOrderTime_exact `{Host} fc order st st' :
  checkOrderTime fc order st = Ok st' ->
  let created_at := getPropOpt order "created_at" in
  totalRiskScore st' - totalRiskScore st =
    if Store.orderTime fc && truthy created_at && unusualHour (localHours created_at)
    then 10 else 0.
Proof.
  unfold checkOrderTime, newDate, rbind, unusualHour. intros Hrun. simpl.
  destruct (Store.orderTime fc); simpl; [|inversion Hrun; lia].
  inspect_check Hrun.
  destruct (truthy _); simpl; [|inversion Hrun; lia].
  destruct (toStringThrows _); [discriminate|].
  destruct (localHours _); [|inversion Hrun; lia].
  destruct (_ || _); inversion Hrun; unfold flag; simpl; lia.
Qed.

Lemma checkGiftCardUse_exact fc order st st' :
  checkGiftCardUse fc order st = Ok st' ->
  let names := getPropOpt order "payment_gateway_names" in
  exists gift,
    (truthy names = true -> Store.giftCardUse fc = true -> callSomeGift names = Ok gift)
    /\ totalRiskScore st' - totalRiskScore st =
         if Store.giftCardUse fc && truthy names && gift then 15 else 0.
Proof.
  unfold checkGiftCardUse, rbind. intros Hrun. simpl.
  destruct (Store.giftCardUse fc); simpl;
    [|exists false; split; [discriminate | inversion Hrun; lia]].
  inspect_check Hrun.
  destruct (truthy _); simpl;
    [|exists false; split; [discriminate | inversion Hrun; lia]].
  destruct (callSomeGift _) as [gift|]; [|discriminate].
  exists gift. split; [reflexivity|].
  destruct gift; inversion Hrun; unfold flag; simpl; lia.
Qed.

(** The states between the checks, and what each name adds up to in the
    end. *)
Lemma scoreFactors_steps `{Host} fc isPro order st :
  scoreFactors fc isPro order = Ok st ->
  exists s1 s2 s3 s4 s5,
    checkOrderValue fc order noRisk = Ok s1
    /\ checkAddressMismatch fc order s1 = Ok s2
    /\ checkEmailDomain fc order s2 = Ok s3
    /\ (if isPro
        then checkIpLocation fc order s3 = Ok s4
             /\ checkOrderTime fc order s4 = Ok s5
             /\ checkGiftCardUse fc order s5 = Ok st
        else s4 = s3 /\ s5 = s3 /\ st = s3)
    /\ contributionOf "orderValue" st = totalRiskScore s1
    /\ contributionOf "addressMismatch" st = totalRiskScore s2 - totalRiskScore s1
    /\ contributionOf "emailDomain" st = totalRiskScore s3 - totalRiskScore s2
    /\ contributionOf "ipLocation" st = totalRiskScore s4 - totalRiskScore s3
    /\ contributionOf "orderTime" st = totalRiskScore s5 - totalRiskScore s4
    /\ contributionOf "giftCardUse" st = totalRiskScore st - totalRiskScore s5.
Proof.
  unfold scoreFactors, rbind. intros Hrun.
  destruct (checkOrderValue fc order noRisk) as [s1|] eqn:H1; [|discriminate].
  destruct (checkAddressMismatch fc order s1) as [s2|] eqn:H2; [|discriminate].
  destruct (checkEmailDomain fc order s2) as [s3|] eqn:H3; [|discriminate].
  pose proof (checkOrderValue_adds _ _ _ _ H1) as A1.
  pose proof (checkAddressMismatch_adds _ _ _ _ H2) as A2.
  pose proof (checkEmailDomain_adds _ _ _ _ H3) as A3.
  assert (C3 : forall other,
             contributionOf other s3 =
               (if String.eqb "orderValue" other then totalRiskScore s1 else 0)
               + (if String.eqb "addressMismatch" other
                  then totalRiskScore s2 - totalRiskScore s1 else 0)
               + (if String.eqb "emailDomain" other
                  then totalRiskScore s3 - totalRiskScore s2 else 0)).
  { intros other.
    rewrite (adds_contribution _ _ _ _ other A3), (adds_contribution _ _ _ _ other A2),
      (adds_contribution _ _ _ _ other A1).
    change (contributionOf other noRisk) with 0.
    change (totalRiskScore noRisk) with 0.
    destruct (String.eqb "orderValue" other), (String.eqb "addressMismatch" other),
      (String.eqb "emailDomain" other); lia. }
  destruct isPro.
  - destruct (checkIpLocation fc order s3) as [s4|] eqn:H4; [|discriminate].
    destruct (checkOrderTime fc order s4) as [s5|] eqn:H5; [|discriminate].
    pose proof (checkIpLocation_adds _ _ _ _ H4) as A4.
    pose proof (checkOrderTime_adds _ _ _ _ H5) as A5.
    pose proof (checkGiftCardUse_adds _ _ _ _ Hrun) as A6.
    exists s1, s2, s3, s4, s5.
    repeat split; try assumption;
      rewrite (adds_contribution _ _ _ _ _ A6), (adds_contribution _ _ _ _ _ A5),
        (adds_contribution _ _ _ _ _ A4), C3; simpl; lia.
  - inversion Hrun; subst st.
    exists s1, s2, s3, s3, s3.
    repeat split; try assumption; rewrite C3; simpl; lia.
Qed.

(** ** What each factor is worth in the score *)

(** X1. With the order value check on and a total price that parses to the
    number [q], the entries of [orderValue] are worth 20 above 1000, 10
    above 500 up to 1000 included, and nothing up to 500 included. *)
Theorem orderValue_points_by_price `{Host} fc isPro order st total_price q :
  scoreFactors fc isPro order = Ok st ->
  Store.orderValue fc = true ->
  getProp order "total_price" = Ok total_price ->
  parseFloat total_price = Ok (Fin q) ->
  ((1000 < q)%Q -> contributionOf "orderValue" st = 20)
  /\ ((500 < q)%Q -> (q <= 1000)%Q -> contributionOf "orderValue" st = 10)
  /\ ((q <= 500)%Q -> contributionOf "orderValue" st = 0).
Proof.
  intros Hrun Hon Hget Hparse.
  apply scoreFactors_steps in Hrun
    as (s1 & s2 & s3 & s4 & s5 & H1 & _ & _ & _ & C1 & _).
  pose proof (checkOrderValue_exact _ _ _ _ _ _ H1 Hon Hget Hparse) as Hd.
  change (totalRiskScore noRisk) with 0 in Hd. rewrite C1.
  pose proof (Qle_bool_iff q 1000) as I1. pose proof (Qle_bool_iff q 500) as I5.
  repeat split.
  - intros Hq. destruct (Qle_bool q 1000); simpl in Hd; [|lia].
    exfalso. apply (Qlt_not_le _ _ Hq). now apply I1.
  - intros Hq Hle. apply I1 in Hle. rewrite Hle in Hd. simpl in Hd.
    destruct (Qle_bool q 500); simpl in Hd; [|lia].
    exfalso. apply (Qlt_not_le _ _ Hq). now apply I5.
  - intros Hle.
    assert (Hle' : (q <= 1000)%Q) by (eapply Qle_trans; [exact Hle | discriminate]).
    apply I1 in Hle'. apply I5 in Hle. rewrite Hle', Hle in Hd. simpl in Hd. lia.
Qed.

(** The boundary: exactly 1000.00 is worth 10. *)
Lemma orderValue_points_by_price_witness :
  let order := JObject [("total_price", JString "1000.00")] in
  exists st, scoreFactors (H := Sample.host) freeFactors false order = Ok st
             /\ contributionOf "orderValue" st = 10.
Proof.
  eexists. split; [reflexivity|].
  refine (proj1 (proj2 (orderValue_points_by_price (H := Sample.host) freeFactors false
                          (JObject [("total_price", JString "1000.00")]) _
                          (JString "1000.00") 1000 eq_refl eq_refl eq_refl eq_refl)) _ _);
    [reflexivity | discriminate].
Defined.

(** X2. The entries of [addressMismatch] are worth 15 when the check is on,
    both addresses are set and the zip, the city or the country differs, and
    nothing in every other case: an address missing, or the three fields
    equal whatever the other fields are. *)
Theorem addressMismatch_points `{Host} fc isPro order st :
  scoreFactors fc isPro order = Ok st ->
  let billing := getPropOpt order "billing_address" in
  let shipping := getPropOpt order "shipping_address" in
  contributionOf "addressMismatch" st =
    if Store.addressMismatch fc && truthy billing && truthy shipping
       && addressesDiffer billing shipping
    then 15 else 0.
Proof.
  intros Hrun.
  apply scoreFactors_steps in Hrun
    as (s1 & s2 & s3 & s4 & s5 & _ & H2 & _ & _ & _ & C2 & _).
  simpl. rewrite C2. exact (checkAddressMismatch_exact _ _ _ _ H2).
Qed.

(** The same zip, city and country with another street: nothing. *)
Lemma addressMismatch_points_witness :
  let order :=
    JObject [("billing_address",
               JObject [("address1", JString "1 Main St"); ("zip", JString "10001");
                        ("city", JString "New York"); ("country", JString "US")]);
             ("shipping_address",
               JObject [("address1", JString "9 Side St"); ("zip", JString "10001");
                        ("city", JString "New York"); ("country", JString "US")])] in
  exists st, scoreFactors (H := Sample.host) freeFactors false order = Ok st
             /\ contributionOf "addressMismatch" st = 0.
Proof.
  intros order. eexists. split; [reflexivity|].
  exact (addressMismatch_points (H := Sample.host) freeFactors false order _ eq_refl).
Defined.

(** X3. The entries of [emailDomain] are worth 25 when the check is on and
    the customer's e-mail, lower-cased, has one of the six listed domains
    between its first and its second at-sign, and nothing otherwise. *)
Theorem emailDomain_points `{Host} fc isPro order st :
  scoreFactors fc isPro order = Ok st ->
  let customer := getPropOpt order "customer" in
  let email := getPropOpt customer "email" in
  contributionOf "emailDomain" st =
    if Store.emailDomain fc && truthy customer && truthy email
       && match email with
          | JString s => hasSuspiciousDomain s
          | _ => false
          end
    then 25 else 0.
Proof.
  intros Hrun.
  apply scoreFactors_steps in Hrun
    as (s1 & s2 & s3 & s4 & s5 & _ & _ & H3 & _ & _ & _ & C3 & _).
  simpl. rewrite C3. exact (checkEmailDomain_exact _ _ _ _ H3).
Qed.

(** Upper case counts; a listed domain after a second at-sign does not. *)
Lemma emailDomain_points_witness :
  (exists st,
      scoreFactors (H := Sample.host) freeFactors false
        (JObject [("customer", JObject [("email", JString "Joe@YOPmail.COM")])]) = Ok st
      /\ contributionOf "emailDomain" st = 25)
  /\ (exists st,
        scoreFactors (H := Sample.host) freeFactors false
          (JObject [("customer", JObject [("email", JString "joe@shop.example@yopmail.com")])])
        = Ok st
        /\ contributionOf "emailDomain" st = 0).
Proof.
  split; eexists; (split; [reflexivity|]).
  - exact (emailDomain_points (H := Sample.host) freeFactors false
             (JObject [("customer", JObject [("email", JString "Joe@YOPmail.COM")])])
             _ eq_refl).
  - exact (emailDomain_points (H := Sample.host) freeFactors false
             (JObject [("customer",
                        JObject [("email", JString "joe@shop.example@yopmail.com")])])
             _ eq_refl).
Defined.

(** X4. The three pro checks: [ipLocation] is worth 5 exactly when the
    order has a [browser_ip] of its own (the one under [client_details]
    does not count); [orderTime] is worth 10 exactly when [created_at] is
    set and its server hour is 22 or later, or 4 or earlier; [giftCardUse]
    is worth 15 exactly when a gateway name contains "gift" in any case;
    each only for a pro shop with the check on. *)
Theorem pro_checks_points `{Host} fc isPro order st :
  scoreFactors fc isPro order = Ok st ->
  let created_at := getPropOpt order "created_at" in
  let names := getPropOpt order "payment_gateway_names" in
  contributionOf "ipLocation" st =
    (if isPro && Store.ipLocation fc && truthy (getPropOpt order "browser_ip")
     then 5 else 0)
  /\ contributionOf "orderTime" st =
       (if isPro && Store.orderTime fc && truthy created_at
           && unusualHour (localHours created_at)
        then 10 else 0)
  /\ exists gift,
       (isPro = true -> truthy names = true -> Store.giftCardUse fc = true ->
        callSomeGift names = Ok gift)
       /\ contributionOf "giftCardUse" st =
            (if isPro && Store.giftCardUse fc && truthy names && gift then 15 else 0).
Proof.
  intros Hrun.
  apply scoreFactors_steps in Hrun
    as (s1 & s2 & s3 & s4 & s5 & _ & _ & _ & Hpro & _ & _ & _ & C4 & C5 & C6).
  simpl. rewrite C4, C5, C6. destruct isPro; simpl.
  - destruct Hpro as (H4 & H5 & H6).
    split; [exact (checkIpLocation_exact _ _ _ _ H4)|].
    split; [exact (checkOrderTime_exact _ _ _ _ H5)|].
    destruct (checkGiftCardUse_exact _ _ _ _ H6) as (gift & Hgift & Hd).
    exists gift. split; [intros _; exact Hgift | exact Hd].
  - destruct Hpro as (-> & -> & ->).
    split; [lia|]. split; [lia|]. exists false. split; [discriminate | lia].
Qed.

(** An IP known only from [client_details], at hour 23, paid by gift
    card, on a pro shop: 25 points, none for the IP. *)
Lemma pro_checks_points_witness :
  let order :=
    JObject [("client_details", JObject [("browser_ip", JString "203.0.113.7")]);
             ("created_at", JString "2024-05-04T23:15:00");
             ("payment_gateway_names", JArray [JString "shopify_payments";
                                                JString "GIFT_CARD"])] in
  exists st, scoreFactors (H := Sample.host) defaultFactors true order = Ok st
             /\ totalRiskScore st = 25
             /\ contributionOf "ipLocation" st = 0.
Proof.
  intros order. eexists. split; [reflexivity|]. split; [reflexivity|].
  exact (proj1 (pro_checks_points (H := Sample.host) defaultFactors true order _ eq_refl)).
Defined.

(** ** The shape of a verdict *)

Ltac solve_flags :=
  intros; unfold rbind in *; split_checks;
  first [ left; reflexivity
        | right; eexists; split; [reflexivity | simpl; split; [lia | reflexivity]] ].

Lemma checkOrderValue_flags fc order st st' :
  checkOrderValue fc order st = Ok st' -> flagsAtMostOne st st'.
Proof. unfold checkOrderValue. solve_flags. Qed.

Lemma checkAddressMismatch_flags fc order st st' :
  checkAddressMismatch fc order st = Ok st' -> flagsAtMostOne st st'.
Proof. unfold checkAddressMismatch. solve_flags. Qed.

Lemma checkEmailDomain_flags fc order st st' :
  checkEmailDomain fc order st = Ok st' -> flagsAtMostOne st st'.
Proof. unfold checkEmailDomain. solve_flags. Qed.

Lemma checkIpLocation_flags fc order st st' :
  checkIpLocation fc order st = Ok st' -> flagsAtMostOne st st'.
Proof. unfold checkIpLocation. solve_flags. Qed.

Lemma checkOrderTime_flags `{Host} fc order st st' :
  checkOrderTime fc order st = Ok st' -> flagsAtMostOne st st'.
Proof. unfold checkOrderTime. solve_flags. Qed.

Lemma checkGiftCardUse_flags fc order st st' :
  checkGiftCardUse fc order st = Ok st' -> flagsAtMostOne st st'.
Proof. unfold checkGiftCardUse. solve_flags. Qed.

Lemma flagsAtMostOne_wellScored st st' :
  flagsAtMostOne st st' -> wellScored st ->
  wellScored st' /\ (length (riskFactors st') <= length (riskFactors st) + 1)%nat.
Proof.
  intros [->|(f & -> & Hpos & Hfive)] (Hnn & Hmod & Hzero).
  - split; [repeat split; tauto || assumption | lia].
  - unfold wellScored, flag; simpl. rewrite length_app. simpl.
    split; [|lia]. split; [lia|]. split.
    + rewrite Z.add_mod, Hmod, Hfive by lia. reflexivity.
    + split; [lia|]. intros Happ. now apply app_eq_nil in Happ as [_ ?].
Qed.

Lemma noRisk_wellScored : wellScored noRisk.
Proof. unfold wellScored; simpl. repeat split; auto with lia. Qed.

Lemma scoreFactors_wellScored `{Host} fc isPro order st :
  scoreFactors fc isPro order = Ok st ->
  wellScored st /\ (length (riskFactors st) <= 6)%nat.
Proof.
  intros Hrun.
  apply scoreFactors_steps in Hrun as (s1 & s2 & s3 & s4 & s5 & H1 & H2 & H3 & Hpro & _).
  apply checkOrderValue_flags in H1. apply checkAddressMismatch_flags in H2.
  apply checkEmailDomain_flags in H3.
  destruct (flagsAtMostOne_wellScored _ _ H1 noRisk_wellScored) as [W1 L1].
  destruct (flagsAtMostOne_wellScored _ _ H2 W1) as [W2 L2].
  destruct (flagsAtMostOne_wellScored _ _ H3 W2) as [W3 L3].
  simpl in L1. destruct isPro.
  - destruct Hpro as (H4 & H5 & H6).
    apply checkIpLocation_flags in H4. apply checkOrderTime_flags in H5.
    apply checkGiftCardUse_flags in H6.
    destruct (flagsAtMostOne_wellScored _ _ H4 W3) as [W4 L4].
    destruct (flagsAtMostOne_wellScored _ _ H5 W4) as [W5 L5].
    destruct (flagsAtMostOne_wellScored _ _ H6 W5) as [W6 L6].
    split; [assumption | lia].
  - destruct Hpro as (_ & _ & ->). split; [assumption | lia].
Qed.

(** X5. Every verdict [analyzeOrderRisk] returns has a score between 0 and
    90 that is a multiple of 5, at most six factor descriptions, and a
    score of 0 exactly when no factor is listed. *)
Theorem verdict_score_shape `{Host} db order shopId v :
  analyzeOrderRisk db order shopId = Ok v ->
  0 <= score v <= 90
  /\ score v mod 5 = 0
  /\ (length (factors v) <= 6)%nat
  /\ (score v = 0 <-> factors v = []).
Proof.
  intros Hrun.
  apply analyzeOrderRisk_inv in Hrun as (st & Hst & Hscore & Hfactors & _).
  simpl in Hst. pose proof (scoreFactors_range _ _ _ _ Hst) as Hrange.
  apply scoreFactors_wellScored in Hst as [(_ & Hmod & Hzero) Hlen].
  rewrite Hscore, Hfactors, length_map.
  repeat split; try lia; try assumption.
  - intros Hs. apply Hzero in Hs. now rewrite Hs.
  - intros Hnil. apply Hzero. now apply map_eq_nil in Hnil.
Qed.

Lemma verdict_score_shape_witness :
  exists v, analyzeOrderRisk (H := Sample.host) Sample.proDb Sample.order Sample.shop = Ok v
            /\ 0 <= score v <= 90
            /\ score v mod 5 = 0
            /\ (length (factors v) <= 6)%nat
            /\ (score v = 0 <-> factors v = []).
Proof.
  eexists. split; [reflexivity|].
  exact (verdict_score_shape (H := Sample.host)
           Sample.proDb Sample.order Sample.shop _ eq_refl).
Defined.

(** X6. With a high threshold above 90, the top of the slider's range, no
    order is rated high, so that every verdict is approved and none of the
    three high-risk automations applies. *)
Theorem high_threshold_above_90_unreachable `{Host} db order shopId v :
  (90 < Store.high (thresholdsOf (getStoreSettings db shopId)))%Q ->
  analyzeOrderRisk db order shopId = Ok v ->
  level v <> high /\ status v = approved.
Proof.
  intros Hth Hrun.
  pose proof (status_below_high _ _ _ _ Hrun) as Happroved.
  apply analyzeOrderRisk_inv in Hrun as (st & Hst & Hscore & _ & Hlevel & _).
  simpl in *. apply scoreFactors_range in Hst.
  assert (Hnot : level v <> high).
  { intros Hle. rewrite Hlevel in Hle.
    apply (proj1 (step_of_thresholds _ _ _)) in Hle.
    assert (Hq : (inject_Z (score v) <= 90)%Q).
    { change 90%Q with (inject_Z 90). rewrite <- Zle_Qle. lia. }
    apply (Qlt_not_le _ _ Hth). eapply Qle_trans; eassumption. }
  auto.
Qed.

(** The scenario order, worth 85, on a pro shop whose high threshold is 95. *)
Lemma high_threshold_above_90_unreachable_witness :
  let settings95 :=
    {| Store.riskThresholds := {| Store.high := 95; Store.medium := 50 |};
       Store.riskFactors := Store.riskFactors Sample.settings;
       Store.notifications := Store.notifications Sample.settings;
       Store.automations := Store.automations Sample.settings;
       Store.aiSettings := Store.aiSettings Sample.settings |} in
  let db := {| storeSettingsColl := [(Sample.shop, settings95)];
               trialStatusColl := [(Sample.shop, Sample.proTrial)];
               ordersColl := [] |} in
  exists v, analyzeOrderRisk (H := Sample.host) db Sample.order Sample.shop = Ok v
            /\ score v = 85 /\ level v <> high /\ status v = approved.
Proof.
  intros settings95 db. eexists. split; [reflexivity|]. split; [reflexivity|].
  exact (high_threshold_above_90_unreachable (H := Sample.host)
           db Sample.order Sample.shop _ eq_refl eq_refl).
Defined.

(** ** What the scoring does not read *)

Lemma scoreFactors_same_toggles `{Host} a b isPro order :
  sameImplementedToggles a b -> scoreFactors a isPro order = scoreFactors b isPro order.
Proof.
  intros (Hv & Ha & He & Hi & Ht & Hg).
  unfold scoreFactors, checkOrderValue, checkAddressMismatch, checkEmailDomain,
    checkIpLocation, checkOrderTime, checkGiftCardUse.
  now rewrite Hv, Ha, He, Hi, Ht, Hg.
Qed.

(** X7. The toggles [customerHistory], [checkoutSpeed] and [quantitySpike]
    have no effect on any shop, pro or not: storing other values for them
    leaves what [analyzeOrderRisk] returns as it is. *)
Theorem unimplemented_toggles_have_no_effect `{Host} db order shopId toggles :
  (forall s, getStoreSettings db shopId = Some s ->
             sameImplementedToggles (Store.riskFactors s) toggles) ->
  analyzeOrderRisk (setToggles db shopId toggles) order shopId
  = analyzeOrderRisk db order shopId.
Proof.
  intros Hsame. unfold analyzeOrderRisk.
  change (getTrialStatus (setToggles db shopId toggles) shopId)
    with (getTrialStatus db shopId).
  rewrite getStoreSettings_setToggles.
  destruct (getStoreSettings db shopId) as [s|]; simpl; [|reflexivity].
  destruct (isProPlan (getTrialStatus db shopId)); [|reflexivity].
  now rewrite (scoreFactors_same_toggles _ _ true order (Hsame s eq_refl)).
Qed.

Lemma unimplemented_toggles_have_no_effect_witness :
  let toggles :=
    {| Store.orderValue := true; Store.customerHistory := false;
       Store.ipLocation := true; Store.checkoutSpeed := false;
       Store.addressMismatch := true; Store.emailDomain := true;
       Store.orderTime := true; Store.giftCardUse := true;
       Store.quantitySpike := false |} in
  analyzeOrderRisk (H := Sample.host)
    (setToggles Sample.proDb Sample.shop toggles) Sample.order Sample.shop
  = analyzeOrderRisk (H := Sample.host) Sample.proDb Sample.order Sample.shop.
Proof.
  intros toggles.
  apply (unimplemented_toggles_have_no_effect (H := Sample.host)).
  intros s Hs. vm_compute in Hs. inversion Hs; subst.
  repeat split.
Defined.

(** ** Payloads that are not objects *)

(** X8. For the payloads [null] and [undefined], [analyzeOrderRisk] throws
    a TypeError on every shop and with any toggles: no verdict comes out. *)
Theorem nullish_payload_throws `{Host} db order shopId :
  nullish order = true ->
  analyzeOrderRisk db order shopId = Throw TypeError.
Proof.
  intros Hnull.
  assert (Hget : forall name, getProp order name = Throw TypeError).
  { intros name. destruct order; simpl in *; try discriminate; reflexivity. }
  unfold analyzeOrderRisk, scoreFactors, checkOrderValue, checkAddressMismatch,
    checkEmailDomain, checkIpLocation, checkOrderTime, checkGiftCardUse.
  rewrite !Hget. unfold rbind.
  destruct (if isProPlan _ then _ else freeFactors) as [a b c d e f g h i].
  simpl. destruct a, e, f, (isProPlan (getTrialStatus db shopId)), c, g, h; reflexivity.
Qed.

Lemma nullish_payload_throws_witness :
  analyzeOrderRisk (H := Sample.host) Sample.freeDb JNull Sample.shop = Throw TypeError.
Proof.
  exact (nullish_payload_throws (H := Sample.host) Sample.freeDb JNull Sample.shop eq_refl).
Defined.

(** ** The stored order *)

Lemma callToString_ok `{Host} v s :
  callToString v = Ok s -> nullish v = false /\ s = jsString v.
Proof.
  unfold callToString. destruct (nullish v); simpl; [discriminate|].
  destruct (toStringThrows v); [discriminate|]. intros Hs. now inversion Hs.
Qed.

Lemma mapItems_length `{Host} l : forall mapped,
  mapItems l = Ok mapped ->
  length mapped = length l
  /\ Forall (fun item => nullish item = false
                         /\ nullish (getPropOpt item "id") = false) l.
Proof.
  induction l as [|item l IH]; simpl; intros mapped Hrun.
  - inversion Hrun. auto.
  - unfold rbind in Hrun.
    destruct (itemOf item) as [first|] eqn:Hitem; [|discriminate].
    destruct (mapItems l) as [others|]; [|discriminate].
    inversion Hrun; subst. destruct (IH others eq_refl) as [Hlen Hall].
    split; [simpl; now rewrite Hlen|]. constructor; [|exact Hall].
    unfold itemOf, rbind in Hitem.
    destruct (getProp item "id") as [id|] eqn:Hid; [|discriminate].
    destruct (callToString id) as [shown|] eqn:Hshown; [|discriminate].
    apply callToString_ok in Hshown as [Hnn _].
    split; [eapply getProp_not_nullish; eassumption|].
    now rewrite <- (getProp_eq_opt _ _ _ Hid).
Qed.

Lemma mapShopifyOrderToModel_inv `{Host} order shopId ra o :
  mapShopifyOrderToModel order shopId ra = Ok o ->
  exists id number lineItems,
    getProp order "id" = Ok id /\ callToString id = Ok (orderId o)
    /\ orderNumberOf order = Ok number /\ orderNumber o = number
    /\ itemsOf order = Ok lineItems /\ items o = lineItems
    /\ OrderModel.shopId o = shopId /\ riskAnalysis o = ra.
Proof.
  unfold mapShopifyOrderToModel, rbind. intros Hrun.
  destruct (getProp order "id") as [id|] eqn:Hid; [|discriminate].
  destruct (callToString id) as [shown|] eqn:Hshown; [|discriminate].
  destruct (orderNumberOf order) as [number|] eqn:Hnumber; [|discriminate].
  destruct (getProp order "created_at"); [|discriminate].
  destruct (newDate _); [|discriminate].
  destruct (customerOf order); [|discriminate].
  destruct (getProp order "financial_status"); [|discriminate].
  destruct (getProp order "fulfillment_status"); [|discriminate].
  destruct (getProp order "total_price"); [|discriminate].
  destruct (parseFloat _); [|discriminate].
  destruct (getProp order "currency"); [|discriminate].
  destruct (itemsOf order) as [lineItems|] eqn:Hitems; [|discriminate].
  destruct (addressOf order "shipping_address"); [|discriminate].
  destruct (addressOf order "billing_address"); [|discriminate].
  inversion Hrun; subst; simpl. exists id, number, lineItems.
  repeat split; reflexivity || assumption.
Qed.

Lemma orderNumberOf_string `{Host} order number :
  orderNumberOf order = Ok number ->
  let order_number := getPropOpt order "order_number" in
  number =
    if negb (nullish order_number) && negb (String.eqb (jsString order_number) "")
    then JString (jsString order_number)
    else match getPropOpt order "name" with
         | JString name => JString (removeFirstHash name)
         | _ => JString ""
         end.
Proof.
  unfold orderNumberOf, rbind. intros Hrun. simpl.
  destruct (getProp order "order_number") as [n|] eqn:Hn; [|discriminate].
  apply getProp_eq_opt in Hn. subst n.
  destruct (nullish (getPropOpt order "order_number")) eqn:Hnull; simpl in *.
  - destruct (getProp order "name") as [name|] eqn:Hname; [|discriminate].
    apply getProp_eq_opt in Hname. subst name.
    destruct (getPropOpt order "name"); simpl in Hrun; try discriminate;
      inversion Hrun; try reflexivity.
    unfold orElse; simpl. destruct (String.eqb_spec (removeFirstHash s) ""); simpl;
      [now rewrite e | reflexivity].
  - destruct (callToString _) as [shown|] eqn:Hshown; [|discriminate].
    apply callToString_ok in Hshown as [_ ->]. simpl in Hrun.
    destruct (String.eqb (jsString _) ""); simpl in *; [|now inversion Hrun].
    destruct (getProp order "name") as [name|] eqn:Hname; [|discriminate].
    apply getProp_eq_opt in Hname. subst name.
    destruct (getPropOpt order "name"); simpl in Hrun; try discriminate;
      inversion Hrun; try reflexivity.
    unfold orElse; simpl. destruct (String.eqb_spec (removeFirstHash s) ""); simpl;
      [now rewrite e | reflexivity].
Qed.

(** X9. An order that [mapShopifyOrderToModel] returns carries the shop id
    and the verdict it was given, the text of the payload's [id] as its
    order id, one item per element of [line_items] (none when they are
    missing), and as order number a string: the text of [order_number] when
    that is not empty, otherwise [name] without its first [#], otherwise
    the empty string. *)
Theorem mapShopifyOrderToModel_identity `{Host} order shopId ra o :
  mapShopifyOrderToModel order shopId ra = Ok o ->
  let id := getPropOpt order "id" in
  let order_number := getPropOpt order "order_number" in
  OrderModel.shopId o = shopId
  /\ riskAnalysis o = ra
  /\ nullish id = false /\ orderId o = jsString id
  /\ orderNumber o =
       (if negb (nullish order_number) && negb (String.eqb (jsString order_number) "")
        then JString (jsString order_number)
        else match getPropOpt order "name" with
             | JString name => JString (removeFirstHash name)
             | _ => JString ""
             end)
  /\ length (items o) =
       match getPropOpt order "line_items" with
       | JArray l => if truthy (getPropOpt order "line_items") then length l else 0%nat
       | _ => 0%nat
       end.
Proof.
  intros Hrun. simpl.
  apply mapShopifyOrderToModel_inv in Hrun
    as (id & number & lineItems & Hid & Hshown & Hnumber & -> & Hitems & -> & -> & ->).
  apply getProp_eq_opt in Hid. subst id.
  apply callToString_ok in Hshown as [Hnn ->].
  apply orderNumberOf_string in Hnumber. simpl in Hnumber.
  repeat split; try assumption.
  unfold itemsOf, rbind in Hitems.
  destruct (getProp order "line_items") as [li|] eqn:Hli; [|discriminate].
  apply getProp_eq_opt in Hli. subst li.
  destruct (getPropOpt order "line_items") as [| |b|n|s|l|fs]; simpl in *;
    repeat match type of Hitems with
           | context [if ?c then _ else _] => destruct c
           end;
    try discriminate; try (inversion Hitems; reflexivity).
  now apply mapItems_length in Hitems as [-> _].
Qed.

Lemma mapShopifyOrderToModel_identity_witness :
  exists ra o,
    analyzeOrderRisk (H := Sample.host) Sample.freeDb Sample.order Sample.shop = Ok ra
    /\ mapShopifyOrderToModel (H := Sample.host) Sample.order Sample.shop ra = Ok o
    /\ orderId o = "820982911946154508"
    /\ orderNumber o = JString "1001".
Proof.
  eexists. eexists. split; [reflexivity|]. split; [reflexivity|].
  match goal with
  | |- orderId ?o = _ /\ _ =>
      pose proof (mapShopifyOrderToModel_identity (H := Sample.host)
                    Sample.order Sample.shop (riskAnalysis o) o eq_refl)
        as (_ & _ & _ & Hid & Hnum & _)
  end.
  split; [exact Hid | exact Hnum].
Defined.

Lemma only_Ok {A} (a : A) : throwsOnlyTypeError (Ok a).
Proof. intros e He. discriminate. Qed.

Lemma only_Throw {A} : throwsOnlyTypeError (@Throw A TypeError).
Proof. intros e He. now inversion He. Qed.

Lemma only_rbind {A B} (m : result A) (k : A -> result B) :
  throwsOnlyTypeError m -> (forall a, throwsOnlyTypeError (k a)) ->
  throwsOnlyTypeError (rbind m k).
Proof.
  intros Hm Hk e. unfold rbind. destruct m as [a|e']; [apply Hk|].
  intros He. inversion He; subst. now apply Hm.
Qed.

Lemma only_getProp v name : throwsOnlyTypeError (getProp v name).
Proof. destruct v; simpl; apply only_Ok || apply only_Throw. Qed.

Lemma only_parseFloat v : throwsOnlyTypeError (parseFloat v).
Proof. unfold parseFloat. destruct (toStringThrows v); apply only_Ok || apply only_Throw. Qed.

Lemma only_newDate v : throwsOnlyTypeError (newDate v).
Proof. unfold newDate. destruct (toStringThrows v); apply only_Ok || apply only_Throw. Qed.

Lemma only_callToString `{Host} v : throwsOnlyTypeError (callToString v).
Proof. unfold callToString. destruct (_ || _); apply only_Ok || apply only_Throw. Qed.

Lemma only_callReplaceHashOpt v : throwsOnlyTypeError (callReplaceHashOpt v).
Proof. destruct v; simpl; apply only_Ok || apply only_Throw. Qed.

Ltac only_type_error :=
  repeat first
    [ apply only_rbind; [|intros]
    | apply only_Ok
    | apply only_Throw
    | apply only_getProp
    | apply only_parseFloat
    | apply only_newDate
    | apply only_callToString
    | apply only_callReplaceHashOpt
    | match goal with
      | |- throwsOnlyTypeError (if ?c then _ else _) => destruct c
      | |- throwsOnlyTypeError (match ?x with _ => _ end) => destruct x
      end ].

Lemma only_mapItems `{Host} l : throwsOnlyTypeError (mapItems l).
Proof.
  induction l as [|item l IH]; simpl; [apply only_Ok|].
  apply only_rbind; [unfold itemOf; only_type_error|]. intros first.
  apply only_rbind; [exact IH | intros; apply only_Ok].
Qed.

Lemma mapShopifyOrderToModel_throws `{Host} order shopId ra :
  throwsOnlyTypeError (mapShopifyOrderToModel order shopId ra).
Proof.
  unfold mapShopifyOrderToModel, orderNumberOf, customerOf, itemsOf, addressOf.
  repeat first
    [ apply only_mapItems
    | apply only_rbind; [|intros]
    | apply only_Ok
    | apply only_Throw
    | apply only_getProp
    | apply only_parseFloat
    | apply only_newDate
    | apply only_callToString
    | apply only_callReplaceHashOpt
    | match goal with
      | |- throwsOnlyTypeError (if ?c then _ else _) => destruct c
      | |- throwsOnlyTypeError (match ?x with _ => _ end) => destruct x
      end ].
Qed.

(** X10. [mapShopifyOrderToModel] throws a TypeError, so that nothing can
    be stored, when the payload has no [id], and when [line_items] is an
    array one element of which is [null] or has no [id]. *)
Theorem mapShopifyOrderToModel_needs_ids `{Host} order shopId ra :
  nullish (getPropOpt order "id") = true
  \/ (exists l item,
        getPropOpt order "line_items" = JArray l /\ In item l
        /\ (nullish item = true \/ nullish (getPropOpt item "id") = true)) ->
  mapShopifyOrderToModel order shopId ra = Throw TypeError.
Proof.
  intros Hbad.
  destruct (mapShopifyOrderToModel order shopId ra) as [o|e] eqn:Hrun.
  - exfalso. apply mapShopifyOrderToModel_inv in Hrun
      as (id & number & lineItems & Hid & Hshown & _ & _ & Hitems & _).
    apply getProp_eq_opt in Hid. subst id.
    apply callToString_ok in Hshown as [Hnn _].
    destruct Hbad as [Hnull|(l & item & Hli & Hin & Hitem)]; [congruence|].
    unfold itemsOf, rbind in Hitems.
    destruct (getProp order "line_items") as [li|] eqn:Hget; [|discriminate].
    apply getProp_eq_opt in Hget. subst li. rewrite Hli in Hitems. simpl in Hitems.
    apply mapItems_length in Hitems as [_ Hall].
    rewrite List.Forall_forall in Hall. destruct (Hall item Hin) as [H1 H2].
    destruct Hitem; congruence.
  - f_equal. now apply (mapShopifyOrderToModel_throws order shopId ra).
Qed.

(** A line item without an id, under a low verdict. *)
Lemma mapShopifyOrderToModel_needs_ids_witness :
  mapShopifyOrderToModel (H := Sample.host)
    (JObject [("id", JString "1"); ("line_items", JArray [JObject [("title", JString "Mug")]])])
    Sample.shop
    {| score := 0; level := low; factors := []; reviewed := false; status := approved;
       ipAddress := JUndefined; checkoutSpeed := JUndefined |}
  = Throw TypeError.
Proof.
  apply (mapShopifyOrderToModel_needs_ids (H := Sample.host)).
  right. exists [JObject [("title", JString "Mug")]], (JObject [("title", JString "Mug")]).
  split; [reflexivity|]. split; [left; reflexivity | right; reflexivity].
Defined.

Lemma find_createOrder db o shop id :
  getOrderById (createOrder db o) shop id =
    match getOrderById db shop id with
    | Some stored => Some stored
    | None =>
        if String.eqb (OrderModel.shopId o) shop && String.eqb (orderId o) id
        then Some o else None
    end.
Proof.
  unfold getOrderById, createOrder. simpl.
  induction (ordersColl db) as [|x l IH]; simpl.
  - reflexivity.
  - destruct (String.eqb (OrderModel.shopId x) shop && String.eqb (orderId x) id);
      [reflexivity | exact IH].
Qed.

(** X11. [getOrderById] after [createOrder]: an order already stored under
    the shop and order id is still the one returned, the new record staying
    behind it; otherwise the new record is returned exactly for its own
    shop and order id. *)
Theorem getOrderById_after_createOrder db o shop id :
  getOrderById (createOrder db o) shop id =
    match getOrderById db shop id with
    | Some stored => Some stored
    | None =>
        if String.eqb (OrderModel.shopId o) shop && String.eqb (orderId o) id
        then Some o else None
    end.
Proof. apply find_createOrder. Qed.

(** ** What the dispatcher sends *)

Lemma emitted_append {A} (m : IO A) w r db new :
  m w = (r, {| database := db; events := events w ++ new |}) -> emitted m w = new.
Proof. intros Hm. unfold emitted. rewrite Hm. simpl. apply drop_app_length. Qed.

Lemma level_eqb_eq a b : level_eqb a b = true <-> a = b.
Proof. destruct a, b; simpl; split; congruence. Qed.

Lemma frequency_eqb_eq a b : Store.frequency_eqb a b = true <-> a = b.
Proof. destruct a, b; simpl; split; congruence. Qed.

(** When a guard stops the dispatcher: one console line. *)
Lemma sendRiskNotifications_stopped order shopId w :
  (match getStoreSettings (database w) shopId with
   | Some s =>
       level_eqb (level (riskAnalysis order)) low
       || negb (isProPlan (getTrialStatus (database w) shopId))
          && negb (level_eqb (level (riskAnalysis order)) high)
       || negb (Store.frequency_eqb (Store.frequency (Store.notifications s))
                  Store.immediate)
   | None => true
   end) = true ->
  exists line,
    Notifications.sendRiskNotifications order shopId w
    = (Ok tt, {| database := database w; events := events w ++ [ConsoleLog line] |}).
Proof.
  unfold Notifications.sendRiskNotifications, tryCatch, ioBind, readDatabase, emit.
  intros Hstop.
  destruct (level (riskAnalysis order)) eqn:Hlevel; simpl in *; [eauto| |].
  - destruct (getStoreSettings (database w) shopId) as [s|]; simpl in *; [|eauto].
    destruct (isProPlan _); simpl in *; [|eauto].
    destruct (Store.frequency_eqb _ _); simpl in *; [discriminate | eauto].
  - destruct (getStoreSettings (database w) shopId) as [s|]; simpl in *; [|eauto].
    rewrite andb_false_r in *. simpl in *.
    destruct (Store.frequency_eqb _ _); simpl in *; [discriminate | eauto].
Qed.

(** When no guard stops it: the e-mail if that channel is set up, then the
    chat message if the shop is pro and that channel is set up, then the
    closing console line. *)
Lemma sendRiskNotifications_passed order shopId w s :
  getStoreSettings (database w) shopId = Some s ->
  level (riskAnalysis order) <> low ->
  isProPlan (getTrialStatus (database w) shopId) = true
  \/ level (riskAnalysis order) = high ->
  Store.frequency (Store.notifications s) = Store.immediate ->
  Notifications.sendRiskNotifications order shopId w
  = (Ok tt,
     {| database := database w;
        events := events w ++
          (if Store.emailEnabled (Store.email (Store.notifications s))
              && Notifications.nonEmpty (Store.address (Store.email (Store.notifications s)))
           then [EmailNotification (Store.address (Store.email (Store.notifications s)))
                   order (Store.customEmailTemplate (Store.automations s))]
           else [])
          ++ (if isProPlan (getTrialStatus (database w) shopId)
                 && Store.slackEnabled (Store.slack (Store.notifications s))
                 && Notifications.nonEmpty
                      (Store.webhookUrl (Store.slack (Store.notifications s)))
              then [SlackNotification
                      (Store.webhookUrl (Store.slack (Store.notifications s))) order]
              else [])
          ++ [ConsoleLog "Notifications sent for order"] |}).
Proof.
  intros Hs Hlevel Hplan Hfreq.
  unfold Notifications.sendRiskNotifications, Notifications.sendEmailNotification,
    Notifications.sendSlackNotification, tryCatch, ioBind, readDatabase, emit, ioRet.
  simpl. rewrite Hs, Hfreq. simpl.
  assert (Hguard1 : negb (level_eqb (level (riskAnalysis order)) high)
                    && negb (level_eqb (level (riskAnalysis order)) medium) = false).
  { destruct (level (riskAnalysis order)); simpl; congruence. }
  assert (Hguard2 : negb (isProPlan (getTrialStatus (database w) shopId))
                    && negb (level_eqb (level (riskAnalysis order)) high) = false).
  { destruct Hplan as [-> | ->]; [reflexivity | apply andb_false_r]. }
  rewrite Hguard1, Hguard2.
  destruct (Store.emailEnabled _ && Notifications.nonEmpty _); simpl;
    destruct (isProPlan _ && Store.slackEnabled _ && Notifications.nonEmpty _); simpl;
    rewrite <- ?app_assoc; reflexivity.
Qed.

(** X12. [sendRiskNotifications] calls the e-mail dispatch exactly when the
    shop has settings, the level is medium or high, the shop is pro or the
    level is high, the frequency is immediate (an hourly or daily setting
    sends nothing at all), the e-mail channel is enabled and its address is
    not empty; the mail is for the stored address, about the order given,
    with the stored template. *)
Theorem email_dispatch_conditions order shopId w address about template :
  In (EmailNotification address about template)
     (emitted (Notifications.sendRiskNotifications order shopId) w)
  <-> exists s,
        getStoreSettings (database w) shopId = Some s
        /\ level (riskAnalysis order) <> low
        /\ (isProPlan (getTrialStatus (database w) shopId) = true
            \/ level (riskAnalysis order) = high)
        /\ Store.frequency (Store.notifications s) = Store.immediate
        /\ Store.emailEnabled (Store.email (Store.notifications s)) = true
        /\ Store.address (Store.email (Store.notifications s)) <> ""
        /\ address = Store.address (Store.email (Store.notifications s))
        /\ about = order
        /\ template = Store.customEmailTemplate (Store.automations s).
Proof.
  split.
  - intros Hin.
    destruct (getStoreSettings (database w) shopId) as [s|] eqn:Hs.
    + destruct (level_eqb (level (riskAnalysis order)) low
                || negb (isProPlan (getTrialStatus (database w) shopId))
                   && negb (level_eqb (level (riskAnalysis order)) high)
                || negb (Store.frequency_eqb (Store.frequency (Store.notifications s))
                           Store.immediate)) eqn:Hstop.
      * destruct (sendRiskNotifications_stopped order shopId w) as [line Hrun];
          [now rewrite Hs|].
        rewrite (emitted_append _ _ _ _ _ Hrun) in Hin.
        destruct Hin as [Hin|[]]. discriminate.
      * apply orb_false_iff in Hstop as [Hstop Hfreq].
        apply orb_false_iff in Hstop as [Hlow Hplan].
        apply negb_false_iff, frequency_eqb_eq in Hfreq.
        assert (Hlevel : level (riskAnalysis order) <> low).
        { intros Heq. apply level_eqb_eq in Heq. congruence. }
        assert (Hplan' : isProPlan (getTrialStatus (database w) shopId) = true
                         \/ level (riskAnalysis order) = high).
        { apply andb_false_iff in Hplan as [Hp|Hp]; apply negb_false_iff in Hp;
            [left; exact Hp | right; now apply level_eqb_eq]. }
        rewrite (emitted_append _ _ _ _ _
                   (sendRiskNotifications_passed order shopId w s Hs Hlevel Hplan' Hfreq))
          in Hin.
        exists s. split; [reflexivity|]. split; [assumption|]. split; [assumption|].
        split; [assumption|].
        destruct (Store.emailEnabled _) eqn:Hon; simpl in Hin.
        -- unfold Notifications.nonEmpty in Hin.
           destruct (String.eqb_spec (Store.address (Store.email (Store.notifications s))) "")
             as [Hempty|Hfull]; simpl in Hin.
           ++ exfalso. destruct (_ && _ && _) in Hin; simpl in Hin;
                repeat destruct Hin as [Hin|Hin]; try discriminate; assumption.
           ++ destruct Hin as [Hin|Hin].
              ** inversion Hin; subst. auto 10.
              ** exfalso. destruct (_ && _ && _) in Hin; simpl in Hin;
                   repeat destruct Hin as [Hin|Hin]; try discriminate; assumption.
        -- exfalso. destruct (_ && _ && _) in Hin; simpl in Hin;
             repeat destruct Hin as [Hin|Hin]; try discriminate; assumption.
    + destruct (sendRiskNotifications_stopped order shopId w) as [line Hrun];
        [now rewrite Hs|].
      rewrite (emitted_append _ _ _ _ _ Hrun) in Hin.
      destruct Hin as [Hin|[]]. discriminate.
  - intros (s & Hs & Hlevel & Hplan & Hfreq & Hon & Hfull & -> & -> & ->).
    rewrite (emitted_append _ _ _ _ _
               (sendRiskNotifications_passed order shopId w s Hs Hlevel Hplan Hfreq)).
    rewrite Hon. unfold Notifications.nonEmpty.
    rewrite (proj2 (String.eqb_neq _ _) Hfull). simpl. now left.
Qed.

(** X13. [sendRiskNotifications] calls the chat dispatch exactly when the
    shop is pro and has settings, the level is medium or high, the
    frequency is immediate, the chat channel is enabled and its webhook URL
    is not empty: a shop that is not pro gets no chat message even for a
    high-risk order. *)
Theorem slack_dispatch_conditions order shopId w url about :
  In (SlackNotification url about)
     (emitted (Notifications.sendRiskNotifications order shopId) w)
  <-> exists s,
        getStoreSettings (database w) shopId = Some s
        /\ level (riskAnalysis order) <> low
        /\ isProPlan (getTrialStatus (database w) shopId) = true
        /\ Store.frequency (Store.notifications s) = Store.immediate
        /\ Store.slackEnabled (Store.slack (Store.notifications s)) = true
        /\ Store.webhookUrl (Store.slack (Store.notifications s)) <> ""
        /\ url = Store.webhookUrl (Store.slack (Store.notifications s))
        /\ about = order.
Proof.
  split.
  - intros Hin.
    destruct (getStoreSettings (database w) shopId) as [s|] eqn:Hs.
    + destruct (level_eqb (level (riskAnalysis order)) low
                || negb (isProPlan (getTrialStatus (database w) shopId))
                   && negb (level_eqb (level (riskAnalysis order)) high)
                || negb (Store.frequency_eqb (Store.frequency (Store.notifications s))
                           Store.immediate)) eqn:Hstop.
      * destruct (sendRiskNotifications_stopped order shopId w) as [line Hrun];
          [now rewrite Hs|].
        rewrite (emitted_append _ _ _ _ _ Hrun) in Hin.
        destruct Hin as [Hin|[]]. discriminate.
      * apply orb_false_iff in Hstop as [Hstop Hfreq].
        apply orb_false_iff in Hstop as [Hlow Hplan].
        apply negb_false_iff, frequency_eqb_eq in Hfreq.
        assert (Hlevel : level (riskAnalysis order) <> low).
        { intros Heq. apply level_eqb_eq in Heq. congruence. }
        assert (Hplan' : isProPlan (getTrialStatus (database w) shopId) = true
                         \/ level (riskAnalysis order) = high).
        { apply andb_false_iff in Hplan as [Hp|Hp]; apply negb_false_iff in Hp;
            [left; exact Hp | right; now apply level_eqb_eq]. }
        rewrite (emitted_append _ _ _ _ _
                   (sendRiskNotifications_passed order shopId w s Hs Hlevel Hplan' Hfreq))
          in Hin.
        exists s. split; [reflexivity|]. split; [assumption|].
        apply in_app_or in Hin as [Hin|Hin].
        { exfalso. destruct (_ && _) in Hin; simpl in Hin;
            repeat destruct Hin as [Hin|Hin]; try discriminate; assumption. }
        apply in_app_or in Hin as [Hin|Hin];
          [|exfalso; destruct Hin as [Hin|[]]; discriminate].
        destruct (isProPlan _) eqn:Hpro; simpl in Hin; [|destruct Hin].
        destruct (Store.slackEnabled _) eqn:Hon; simpl in Hin; [|destruct Hin].
        unfold Notifications.nonEmpty in Hin.
        destruct (String.eqb_spec (Store.webhookUrl (Store.slack (Store.notifications s))) "")
          as [Hempty|Hfull]; simpl in Hin; [destruct Hin|].
        destruct Hin as [Hin|[]]. inversion Hin; subst. auto 10.
    + destruct (sendRiskNotifications_stopped order shopId w) as [line Hrun];
        [now rewrite Hs|].
      rewrite (emitted_append _ _ _ _ _ Hrun) in Hin.
      destruct Hin as [Hin|[]]. discriminate.
  - intros (s & Hs & Hlevel & Hpro & Hfreq & Hon & Hfull & -> & ->).
    rewrite (emitted_append _ _ _ _ _
               (sendRiskNotifications_passed order shopId w s Hs Hlevel
                  (or_introl Hpro) Hfreq)).
    rewrite Hpro, Hon. unfold Notifications.nonEmpty.
    rewrite (proj2 (String.eqb_neq _ _) Hfull). simpl.
    apply in_or_app. right. now left.
Qed.

(** ** The webhook pipeline *)

Lemma sendRiskNotifications_frame order shopId w :
  exists new,
    Notifications.sendRiskNotifications order shopId w
    = (Ok tt, {| database := database w; events := events w ++ new |}).
Proof.
  destruct (match getStoreSettings (database w) shopId with
            | Some s =>
                level_eqb (level (riskAnalysis order)) low
                || negb (isProPlan (getTrialStatus (database w) shopId))
                   && negb (level_eqb (level (riskAnalysis order)) high)
                || negb (Store.frequency_eqb (Store.frequency (Store.notifications s))
                           Store.immediate)
            | None => true
            end) eqn:Hstop.
  - destruct (sendRiskNotifications_stopped order shopId w Hstop) as [line Hrun]. eauto.
  - destruct (getStoreSettings (database w) shopId) as [s|] eqn:Hs; [|discriminate].
    apply orb_false_iff in Hstop as [Hstop Hfreq].
    apply orb_false_iff in Hstop as [Hlow Hplan].
    apply negb_false_iff, frequency_eqb_eq in Hfreq.
    eexists. apply (sendRiskNotifications_passed order shopId w s Hs); [| |exact Hfreq].
    + intros Heq. apply level_eqb_eq in Heq. congruence.
    + apply andb_false_iff in Hplan as [Hp|Hp]; apply negb_false_iff in Hp;
        [left; exact Hp | right; now apply level_eqb_eq].
Qed.

Lemma getOrderById_own db o :
  exists saved,
    getOrderById (createOrder db o) (OrderModel.shopId o) (orderId o) = Some saved
    /\ OrderModel.shopId saved = OrderModel.shopId o /\ orderId saved = orderId o.
Proof.
  unfold getOrderById, createOrder; simpl.
  induction (ordersColl db) as [|x l IH]; simpl.
  - rewrite !String.eqb_refl. simpl. eauto.
  - destruct (String.eqb (OrderModel.shopId x) (OrderModel.shopId o)
              && String.eqb (orderId x) (orderId o)) eqn:Hx; [|exact IH].
    apply andb_true_iff in Hx as [H1 H2].
    apply String.eqb_eq in H1, H2. eauto.
Qed.

(** A delivery that gets through every stage: the order is stored and the
    dispatcher runs on the first record stored under its shop and id. *)
Lemma processWebhook_stored `{Host} request rawPayload w payload shop ra o :
  passesSignature request rawPayload = true ->
  JSON_parse rawPayload = Some payload ->
  Webhook.headersGet request "x-shopify-shop-domain" = Some shop -> shop <> "" ->
  Webhook.orderLabel payload = Ok tt ->
  analyzeOrderRisk (database w) payload shop = Ok ra ->
  mapShopifyOrderToModel payload shop ra = Ok o ->
  exists saved,
    getOrderById (createOrder (database w) o) shop (orderId o) = Some saved
    /\ Webhook.processWebhook request rawPayload w
       = Notifications.sendRiskNotifications saved shop
           {| database := createOrder (database w) o;
              events := events w ++ storedTrace rawPayload o |}.
Proof.
  intros Hsig Hparse Hshop Hne Hlabel Hra Hmap.
  pose proof (mapShopifyOrderToModel_inv _ _ _ _ Hmap)
    as (id & number & lineItems & Hid & Hshown & _ & _ & _ & _ & Hsh & _).
  destruct (getOrderById_own (database w) o) as (saved & Hsaved & _).
  rewrite Hsh in Hsaved. exists saved. split; [exact Hsaved|].
  unfold passesSignature in Hsig. apply negb_true_iff in Hsig.
  unfold Webhook.processWebhook. rewrite Hsig.
  unfold tryCatch, Webhook.jsonParse, ioBind, emit, liftResult, readDatabase,
    writeDatabase.
  cbn [database events fst snd]. rewrite Hparse, Hshop.
  rewrite (proj2 (String.eqb_neq shop "") Hne).
  cbn [database events fst snd]. rewrite Hlabel, Hra, Hmap.
  cbn [database events fst snd]. rewrite Hid, Hshown, Hsaved.
  destruct (sendRiskNotifications_frame saved shop
              {| database := createOrder (database w) o;
                 events := events w ++ storedTrace rawPayload o |}) as [new Hsend].
  unfold storedTrace in *. rewrite <- !app_assoc. simpl app.
  rewrite Hsend. reflexivity.
Qed.

(** Either the delivery is dropped, with console lines only, or it is
    stored and the dispatcher runs. *)
Lemma processWebhook_cases `{Host} request rawPayload w :
  (exists new,
      Webhook.processWebhook request rawPayload w
      = (Ok tt, {| database := database w; events := events w ++ new |})
      /\ Forall (fun e => isConsoleOrParse e = true) new)
  \/ (exists payload shop ra o saved,
        passesSignature request rawPayload = true
        /\ JSON_parse rawPayload = Some payload
        /\ Webhook.headersGet request "x-shopify-shop-domain" = Some shop
        /\ shop <> ""
        /\ analyzeOrderRisk (database w) payload shop = Ok ra
        /\ mapShopifyOrderToModel payload shop ra = Ok o
        /\ getOrderById (createOrder (database w) o) shop (orderId o) = Some saved
        /\ Webhook.processWebhook request rawPayload w
           = Notifications.sendRiskNotifications saved shop
               {| database := createOrder (database w) o;
                  events := events w ++ storedTrace rawPayload o |}).
Proof.
  destruct (passesSignature request rawPayload) eqn:Hsig.
  2:{ left. unfold passesSignature in Hsig. apply negb_false_iff in Hsig.
      unfold Webhook.processWebhook. rewrite Hsig. unfold emit.
      eexists. split; [reflexivity | repeat constructor]. }
  assert (Hguard := Hsig). unfold passesSignature in Hguard.
  apply negb_true_iff in Hguard.
  destruct (JSON_parse rawPayload) as [payload|] eqn:Hparse.
  2:{ left. unfold Webhook.processWebhook. rewrite Hguard.
      unfold tryCatch, Webhook.jsonParse, ioBind, emit, liftResult.
      cbn [database events fst snd]. rewrite Hparse. cbn [database events fst snd].
      rewrite <- app_assoc. eexists. split; [reflexivity | repeat constructor]. }
  destruct (Webhook.headersGet request "x-shopify-shop-domain") as [shop|] eqn:Hshop.
  2:{ left. unfold Webhook.processWebhook. rewrite Hguard.
      unfold tryCatch, Webhook.jsonParse, ioBind, emit, liftResult.
      cbn [database events fst snd]. rewrite Hparse, Hshop. cbn [database events fst snd].
      rewrite <- app_assoc. eexists. split; [reflexivity | repeat constructor]. }
  destruct (decide (shop = "")) as [->|Hne].
  { left. unfold Webhook.processWebhook. rewrite Hguard.
    unfold tryCatch, Webhook.jsonParse, ioBind, emit, liftResult.
    cbn [database events fst snd]. rewrite Hparse, Hshop. simpl.
    rewrite <- app_assoc. eexists. split; [reflexivity | repeat constructor]. }
  destruct (Webhook.orderLabel payload) as [[]|e] eqn:Hlabel.
  2:{ left. unfold Webhook.processWebhook. rewrite Hguard.
      unfold tryCatch, Webhook.jsonParse, ioBind, emit, liftResult.
      cbn [database events fst snd]. rewrite Hparse, Hshop.
      rewrite (proj2 (String.eqb_neq shop "") Hne). cbn [database events fst snd].
      rewrite Hlabel. cbn [database events fst snd].
      rewrite <- !app_assoc. eexists. split; [reflexivity | repeat constructor]. }
  destruct (analyzeOrderRisk (database w) payload shop) as [ra|e] eqn:Hra.
  2:{ left. unfold Webhook.processWebhook. rewrite Hguard.
      unfold tryCatch, Webhook.jsonParse, ioBind, emit, liftResult, readDatabase.
      cbn [database events fst snd]. rewrite Hparse, Hshop.
      rewrite (proj2 (String.eqb_neq shop "") Hne). cbn [database events fst snd].
      rewrite Hlabel. cbn [database events fst snd]. rewrite Hra.
      cbn [database events fst snd].
      rewrite <- !app_assoc. eexists. split; [reflexivity | repeat constructor]. }
  destruct (mapShopifyOrderToModel payload shop ra) as [o|e] eqn:Hmap.
  2:{ left. unfold Webhook.processWebhook. rewrite Hguard.
      unfold tryCatch, Webhook.jsonParse, ioBind, emit, liftResult, readDatabase.
      cbn [database events fst snd]. rewrite Hparse, Hshop.
      rewrite (proj2 (String.eqb_neq shop "") Hne). cbn [database events fst snd].
      rewrite Hlabel. cbn [database events fst snd]. rewrite Hra.
      cbn [database events fst snd]. rewrite Hmap. cbn [database events fst snd].
      rewrite <- !app_assoc. eexists. split; [reflexivity | repeat constructor]. }
  right.
  destruct (processWebhook_stored request rawPayload w payload shop ra o
              Hsig Hparse Hshop Hne Hlabel Hra Hmap) as (saved & Hsaved & Hrun).
  exists payload, shop, ra, o, saved. auto 10.
Qed.

(** X14. [processWebhook] never throws, and it leaves the database as it
    found it unless the delivery got past the signature check, its body
    parsed, the shop header was set, and the scoring and the mapping both
    returned: then the only change is that the mapped order, carrying the
    verdict computed on the database as it was, is appended to the orders.
    Settings and trial statuses are never written. *)
Theorem processWebhook_outcome `{Host} request rawPayload w :
  let after := Webhook.processWebhook request rawPayload w in
  fst after = Ok tt
  /\ (database (snd after) = database w
      \/ exists payload shop ra o,
           passesSignature request rawPayload = true
           /\ JSON_parse rawPayload = Some payload
           /\ Webhook.headersGet request "x-shopify-shop-domain" = Some shop
           /\ shop <> ""
           /\ analyzeOrderRisk (database w) payload shop = Ok ra
           /\ mapShopifyOrderToModel payload shop ra = Ok o
           /\ database (snd after) = createOrder (database w) o).
Proof.
  simpl.
  destruct (processWebhook_cases request rawPayload w)
    as [(new & -> & _)
       |(payload & shop & ra & o & saved & Hsig & Hparse & Hshop & Hne & Hra & Hmap
         & _ & ->)].
  - simpl. auto.
  - destruct (sendRiskNotifications_frame saved shop
                {| database := createOrder (database w) o;
                   events := events w ++ storedTrace rawPayload o |}) as [new ->].
    simpl. split; [reflexivity|]. right. exists payload, shop, ra, o. auto 10.
Qed.

(** X15. A delivery with the right signature is processed exactly like the
    same delivery without any signature header. *)
Theorem signed_delivery_like_unsigned `{Host} request rawPayload w :
  Webhook.headersGet request "x-shopify-hmac-sha256"
  = Some (hmacSha256Base64 Webhook.secretKey rawPayload) ->
  Webhook.processWebhook request rawPayload w
  = Webhook.processWebhook (withoutSignature request) rawPayload w.
Proof.
  intros Hsigned. unfold Webhook.processWebhook.
  assert (Hnone : Webhook.headersGet (withoutSignature request) "x-shopify-hmac-sha256"
                  = None).
  { unfold Webhook.headersGet, withoutSignature; simpl. apply lookup_delete_eq. }
  assert (Hshop : Webhook.headersGet (withoutSignature request) "x-shopify-shop-domain"
                  = Webhook.headersGet request "x-shopify-shop-domain").
  { unfold Webhook.headersGet, withoutSignature; simpl.
    now apply lookup_delete_ne. }
  rewrite Hnone, Hshop, Hsigned.
  rewrite bool_decide_eq_true_2 by reflexivity.
  rewrite andb_false_r. reflexivity.
Qed.

Lemma signed_delivery_like_unsigned_witness :
  Webhook.processWebhook (H := Sample.host)
    (Sample.request (Some Sample.signatureOfRaw)) Sample.rawOrder
    (Sample.world Sample.freeDb)
  = Webhook.processWebhook (H := Sample.host)
      (withoutSignature (Sample.request (Some Sample.signatureOfRaw))) Sample.rawOrder
      (Sample.world Sample.freeDb).
Proof.
  exact (signed_delivery_like_unsigned (H := Sample.host)
           (Sample.request (Some Sample.signatureOfRaw)) Sample.rawOrder
           (Sample.world Sample.freeDb) eq_refl).
Defined.

(** X27. A delivery whose signature header is present but empty is
    processed exactly like the same delivery without any signature header,
    whatever its body: nothing of it is verified. *)
Theorem empty_signature_like_unsigned `{Host} request rawPayload w :
  Webhook.headersGet request "x-shopify-hmac-sha256" = Some "" ->
  Webhook.processWebhook request rawPayload w
  = Webhook.processWebhook (withoutSignature request) rawPayload w.
Proof.
  intros Hempty. unfold Webhook.processWebhook.
  assert (Hnone : Webhook.headersGet (withoutSignature request) "x-shopify-hmac-sha256"
                  = None).
  { unfold Webhook.headersGet, withoutSignature; simpl. apply lookup_delete_eq. }
  assert (Hshop : Webhook.headersGet (withoutSignature request) "x-shopify-shop-domain"
                  = Webhook.headersGet request "x-shopify-shop-domain").
  { unfold Webhook.headersGet, withoutSignature; simpl.
    now apply lookup_delete_ne. }
  rewrite Hnone, Hshop, Hempty. reflexivity.
Qed.

Lemma empty_signature_like_unsigned_witness :
  Webhook.processWebhook (H := Sample.host)
    (Sample.request (Some "")) Sample.rawOrder (Sample.world Sample.freeDb)
  = Webhook.processWebhook (H := Sample.host)
      (withoutSignature (Sample.request (Some ""))) Sample.rawOrder
      (Sample.world Sample.freeDb).
Proof.
  exact (empty_signature_like_unsigned (H := Sample.host)
           (Sample.request (Some "")) Sample.rawOrder
           (Sample.world Sample.freeDb) eq_refl).
Defined.

(** X16. A delivery that gets past the signature check is dropped after
    one error line when its body does not parse, and, the body being
    parsed first, when the shop header is missing or empty: nothing is
    scored or stored. *)
Theorem unusable_delivery_dropped `{Host} request rawPayload w :
  passesSignature request rawPayload = true ->
  (JSON_parse rawPayload = None ->
   Webhook.processWebhook request rawPayload w
   = (Ok tt, {| database := database w;
                events := events w ++
                  [JsonParse rawPayload;
                   ConsoleError "Error processing webhook payload:"] |}))
  /\ (forall payload,
        JSON_parse rawPayload = Some payload ->
        Webhook.present (Webhook.headersGet request "x-shopify-shop-domain") = false ->
        Webhook.processWebhook request rawPayload w
        = (Ok tt, {| database := database w;
                     events := events w ++
                       [JsonParse rawPayload;
                        ConsoleError "Missing shop domain in webhook headers"] |})).
Proof.
  intros Hsig. unfold passesSignature in Hsig. apply negb_true_iff in Hsig.
  unfold Webhook.processWebhook. rewrite Hsig.
  unfold tryCatch, Webhook.jsonParse, ioBind, emit, liftResult.
  cbn [database events fst snd]. split.
  - intros ->. simpl. now rewrite <- app_assoc.
  - intros payload -> Hshop.
    destruct (Webhook.headersGet request "x-shopify-shop-domain") as [shop|];
      simpl in Hshop.
    + apply negb_false_iff in Hshop. rewrite Hshop. simpl. now rewrite <- app_assoc.
    + simpl. now rewrite <- app_assoc.
Qed.

Lemma unusable_delivery_dropped_witness :
  Webhook.processWebhook (H := Sample.host) (Sample.request None) "{ not json"
    (Sample.world Sample.freeDb)
  = (Ok tt, {| database := Sample.freeDb;
               events := [JsonParse "{ not json";
                          ConsoleError "Error processing webhook payload:"] |}).
Proof.
  exact (proj1 (unusable_delivery_dropped (H := Sample.host) (Sample.request None)
                  "{ not json" (Sample.world Sample.freeDb) eq_refl) eq_refl).
Defined.

Lemma analyzeOrderRisk_ignores_orders `{Host} db o order shopId :
  analyzeOrderRisk (createOrder db o) order shopId = analyzeOrderRisk db order shopId.
Proof. reflexivity. Qed.

(** X17. Nothing in [processWebhook] recognises a delivery it has seen: a
    delivery that is stored once is stored again when it arrives a second
    time, as an equal second record, and the dispatcher then runs on the
    same record as the first time, the first one stored under that shop
    and order id. *)
Theorem repeated_delivery_stored_twice `{Host} request rawPayload w payload shop ra o :
  passesSignature request rawPayload = true ->
  JSON_parse rawPayload = Some payload ->
  Webhook.headersGet request "x-shopify-shop-domain" = Some shop -> shop <> "" ->
  Webhook.orderLabel payload = Ok tt ->
  analyzeOrderRisk (database w) payload shop = Ok ra ->
  mapShopifyOrderToModel payload shop ra = Ok o ->
  let once := snd (Webhook.processWebhook request rawPayload w) in
  let twice := snd (Webhook.processWebhook request rawPayload once) in
  ordersColl (database twice) = ordersColl (database w) ++ [o; o]
  /\ exists saved,
       getOrderById (database once) shop (orderId o) = Some saved
       /\ getOrderById (database twice) shop (orderId o) = Some saved
       /\ Webhook.processWebhook request rawPayload once
          = Notifications.sendRiskNotifications saved shop
              {| database := createOrder (database once) o;
                 events := events once ++ storedTrace rawPayload o |}.
Proof.
  intros Hsig Hparse Hshop Hne Hlabel Hra Hmap. simpl.
  destruct (processWebhook_stored request rawPayload w payload shop ra o
              Hsig Hparse Hshop Hne Hlabel Hra Hmap) as (saved & Hsaved & Hrun).
  destruct (sendRiskNotifications_frame saved shop
              {| database := createOrder (database w) o;
                 events := events w ++ storedTrace rawPayload o |}) as [new Hsend].
  rewrite Hsend in Hrun. simpl in Hrun.
  set (once := snd (Webhook.processWebhook request rawPayload w)).
  assert (Hdb : database once = createOrder (database w) o).
  { unfold once. now rewrite Hrun. }
  assert (Hra' : analyzeOrderRisk (database once) payload shop = Ok ra).
  { now rewrite Hdb, analyzeOrderRisk_ignores_orders. }
  destruct (processWebhook_stored request rawPayload once payload shop ra o
              Hsig Hparse Hshop Hne Hlabel Hra' Hmap) as (saved' & Hsaved' & Hrun').
  rewrite find_createOrder, Hdb, Hsaved in Hsaved'.
  inversion Hsaved'; subst saved'.
  destruct (sendRiskNotifications_frame saved shop
              {| database := createOrder (database once) o;
                 events := events once ++ storedTrace rawPayload o |}) as [new' Hsend'].
  split.
  - rewrite Hrun', Hsend'. simpl. rewrite Hdb. simpl. now rewrite <- app_assoc.
  - exists saved. split; [now rewrite Hdb|]. split; [|exact Hrun'].
    rewrite Hrun', Hsend'. simpl.
    now rewrite find_createOrder, Hdb, Hsaved.
Qed.

Lemma repeated_delivery_stored_twice_witness :
  exists o,
    let once := snd (Webhook.processWebhook (H := Sample.host) (Sample.request None)
                       Sample.rawOrder (Sample.world Sample.freeDb)) in
    let twice := snd (Webhook.processWebhook (H := Sample.host) (Sample.request None)
                        Sample.rawOrder once) in
    ordersColl (database twice) = [o; o].
Proof.
  eexists.
  refine (proj1 (repeated_delivery_stored_twice (H := Sample.host)
                   (Sample.request None) Sample.rawOrder (Sample.world Sample.freeDb)
                   Sample.order Sample.shop _ _
                   eq_refl eq_refl eq_refl _ eq_refl eq_refl eq_refl)).
  discriminate.
Defined.

(** ** Saving settings and starting a trial *)

Section StoreWrites.
Import StoreOps.

Lemma findOne_cons {A} shopId id (fields : A) coll :
  findOne shopId ((id, fields) :: coll)
  = if String.eqb id shopId then Some fields else findOne shopId coll.
Proof. unfold findOne; simpl. now destruct (String.eqb id shopId). Qed.

Lemma findOne_insertOne {A} shopId id (fields : A) coll :
  findOne shopId (insertOne id fields coll)
  = match findOne shopId coll with
    | Some found => Some found
    | None => if String.eqb id shopId then Some fields else None
    end.
Proof.
  unfold insertOne. induction coll as [|[id' fields'] coll IH].
  - simpl. rewrite findOne_cons. reflexivity.
  - simpl. rewrite !findOne_cons. destruct (String.eqb id' shopId); [reflexivity | exact IH].
Qed.

Lemma updateOne_none {A} shopId change (coll : list (string * A)) :
  findOne shopId coll = None -> updateOne shopId change coll = (false, coll).
Proof.
  induction coll as [|[id fields] coll IH]; [reflexivity|].
  rewrite findOne_cons. simpl. destruct (String.eqb id shopId); [discriminate|].
  intros Hnone. now rewrite (IH Hnone).
Qed.

Lemma updateOne_some {A} shopId change (coll : list (string * A)) found :
  findOne shopId coll = Some found -> fst (updateOne shopId change coll) = true.
Proof.
  induction coll as [|[id fields] coll IH]; [discriminate|].
  rewrite findOne_cons. simpl. destruct (String.eqb id shopId); [reflexivity|].
  intros Hsome. specialize (IH Hsome).
  destruct (updateOne shopId change coll). exact IH.
Qed.

(** An update that leaves the document with the shop. *)
Lemma findOne_updateOne_kept {A} shopId change (g : A -> A) coll other :
  (forall fields, change (shopId, fields) = (shopId, g fields)) ->
  findOne other (snd (updateOne shopId change coll))
  = if decide (shopId = other) then option_map g (findOne shopId coll)
    else findOne other coll.
Proof.
  intros Hchange. induction coll as [|[id fields] coll IH].
  - simpl. now case_decide.
  - simpl. destruct (String.eqb_spec id shopId) as [->|Hid].
    + simpl. rewrite Hchange, !findOne_cons, String.eqb_refl.
      case_decide as Heq.
      * subst. now rewrite String.eqb_refl.
      * now rewrite (proj2 (String.eqb_neq shopId other) Heq).
    + destruct (updateOne shopId change coll) as [matched updated]. simpl in *.
      rewrite !findOne_cons, IH, (proj2 (String.eqb_neq id shopId) Hid).
      destruct (String.eqb_spec id other) as [->|Hother]; [|reflexivity].
      now rewrite decide_False by congruence.
Qed.

(** An update that hands the document to another shop, which has none. *)
Lemma findOne_updateOne_moved {A} shopId newShopId change (g : A -> A) coll :
  (forall fields, change (shopId, fields) = (newShopId, g fields)) ->
  findOne newShopId coll = None ->
  findOne newShopId (snd (updateOne shopId change coll))
  = option_map g (findOne shopId coll).
Proof.
  intros Hchange. induction coll as [|[id fields] coll IH]; [reflexivity|].
  rewrite findOne_cons. simpl. destruct (String.eqb id newShopId) eqn:Hnew; [discriminate|].
  intros Hnone. destruct (String.eqb_spec id shopId) as [->|Hid].
  - simpl. rewrite Hchange, !findOne_cons, !String.eqb_refl. reflexivity.
  - destruct (updateOne shopId change coll) as [matched updated]. simpl in *.
    rewrite !findOne_cons, Hnew, (proj2 (String.eqb_neq id shopId) Hid).
    now apply IH.
Qed.

Lemma updateOne_twice {A} shopId change (g : A -> A) coll :
  (forall fields, change (shopId, fields) = (shopId, g fields)) ->
  (forall fields, g (g fields) = g fields) ->
  snd (updateOne shopId change (snd (updateOne shopId change coll)))
  = snd (updateOne shopId change coll).
Proof.
  intros Hchange Hg. induction coll as [|[id fields] coll IH]; [reflexivity|].
  simpl. destruct (String.eqb_spec id shopId) as [->|Hid].
  - simpl. rewrite Hchange. simpl. rewrite String.eqb_refl. simpl.
    now rewrite Hchange, Hg.
  - destruct (updateOne shopId change coll) as [matched updated] eqn:Hu. simpl in *.
    rewrite (proj2 (String.eqb_neq id shopId) Hid).
    destruct (updateOne shopId change updated) as [matched' updated']. simpl in *.
    now rewrite IH.
Qed.

Lemma setSettingsDocument_kept shopId p :
  keepsShop shopId (setShopId p) ->
  forall fields, setSettingsDocument p (shopId, fields) = (shopId, setSettings p fields).
Proof. intros [Hp|Hp] fields; unfold setSettingsDocument; now rewrite Hp. Qed.

Lemma setTrialStatusDocument_kept shopId p :
  keepsShop shopId (setTrialShopId p) ->
  forall fields,
    setTrialStatusDocument p (shopId, fields) = (shopId, setTrialStatus p fields).
Proof. intros [Hp|Hp] fields; unfold setTrialStatusDocument; now rewrite Hp. Qed.

(** The two cases of [updateStoreSettings]: the shop has a document, or one
    with the default settings is inserted first. *)
Lemma updateStoreSettings_cases db shopId p :
  updateStoreSettings db shopId p
  = let coll :=
      match getStoreSettings db shopId with
      | Some _ => storeSettingsColl db
      | None => insertOne shopId defaultSettings (storeSettingsColl db)
      end in
    let updated := snd (updateOne shopId (setSettingsDocument p) coll) in
    (findOne shopId updated,
     {| storeSettingsColl := updated; trialStatusColl := trialStatusColl db;
        ordersColl := ordersColl db |}).
Proof.
  unfold updateStoreSettings, getStoreSettings.
  destruct (findOne shopId (storeSettingsColl db)) as [found|] eqn:Hfound.
  - pose proof (updateOne_some shopId (setSettingsDocument p) _ _ Hfound) as Hm.
    destruct (updateOne shopId (setSettingsDocument p) (storeSettingsColl db))
      as [matched updated]. simpl in Hm. subst matched. reflexivity.
  - rewrite (updateOne_none shopId (setSettingsDocument p) _ Hfound). reflexivity.
Qed.

Lemma updateTrialStatus_cases db shopId p :
  updateTrialStatus db shopId p
  = let coll :=
      match getTrialStatus db shopId with
      | Some _ => trialStatusColl db
      | None => insertOne shopId defaultTrialStatus (trialStatusColl db)
      end in
    let updated := snd (updateOne shopId (setTrialStatusDocument p) coll) in
    (findOne shopId updated,
     {| storeSettingsColl := storeSettingsColl db; trialStatusColl := updated;
        ordersColl := ordersColl db |}).
Proof.
  unfold updateTrialStatus, getTrialStatus.
  destruct (findOne shopId (trialStatusColl db)) as [found|] eqn:Hfound.
  - pose proof (updateOne_some shopId (setTrialStatusDocument p) _ _ Hfound) as Hm.
    destruct (updateOne shopId (setTrialStatusDocument p) (trialStatusColl db))
      as [matched updated]. simpl in Hm. subst matched. reflexivity.
  - rewrite (updateOne_none shopId (setTrialStatusDocument p) _ Hfound). reflexivity.
Qed.

Lemma updateStoreSettings_lookup db shopId p other :
  keepsShop shopId (setShopId p) ->
  getStoreSettings (snd (updateStoreSettings db shopId p)) other =
    if decide (shopId = other)
    then Some (setSettings p (default defaultSettings (getStoreSettings db shopId)))
    else getStoreSettings db other.
Proof.
  intros Hkeep. rewrite updateStoreSettings_cases. cbv zeta. unfold getStoreSettings.
  cbn [snd storeSettingsColl].
  rewrite (findOne_updateOne_kept shopId _ (setSettings p) _ other
             (setSettingsDocument_kept shopId p Hkeep)).
  destruct (findOne shopId (storeSettingsColl db)) as [found|] eqn:Hfound.
  - rewrite Hfound. reflexivity.
  - rewrite !findOne_insertOne, Hfound, String.eqb_refl. simpl.
    case_decide as Heq; [reflexivity|].
    destruct (findOne other (storeSettingsColl db)); [reflexivity|].
    now rewrite (proj2 (String.eqb_neq shopId other) Heq).
Qed.

Lemma updateTrialStatus_lookup db shopId p other :
  keepsShop shopId (setTrialShopId p) ->
  getTrialStatus (snd (updateTrialStatus db shopId p)) other =
    if decide (shopId = other)
    then Some (setTrialStatus p (default defaultTrialStatus (getTrialStatus db shopId)))
    else getTrialStatus db other.
Proof.
  intros Hkeep. rewrite updateTrialStatus_cases. cbv zeta. unfold getTrialStatus.
  cbn [snd trialStatusColl].
  rewrite (findOne_updateOne_kept shopId _ (setTrialStatus p) _ other
             (setTrialStatusDocument_kept shopId p Hkeep)).
  destruct (findOne shopId (trialStatusColl db)) as [found|] eqn:Hfound.
  - rewrite Hfound. reflexivity.
  - rewrite !findOne_insertOne, Hfound, String.eqb_refl. simpl.
    case_decide as Heq; [reflexivity|].
    destruct (findOne other (trialStatusColl db)); [reflexivity|].
    now rewrite (proj2 (String.eqb_neq shopId other) Heq).
Qed.

Lemma setSettings_twice p s : setSettings p (setSettings p s) = setSettings p s.
Proof.
  destruct p as [? [?|] [?|] [?|] [?|] [?|] ? ?]; reflexivity.
Qed.

(** X18. For an update that carries no [shopId], or the shop's own,
    [updateStoreSettings] returns and stores, for the shop, the fields
    given over the settings the shop had, or over the default settings when
    it had none; the settings of every other shop, the trial statuses and
    the orders stay as they were; saving the same fields again leaves the
    collection as it is. *)
Theorem updateStoreSettings_saves db shopId p :
  keepsShop shopId (setShopId p) ->
  let saved := setSettings p (default defaultSettings (getStoreSettings db shopId)) in
  let after := snd (updateStoreSettings db shopId p) in
  fst (updateStoreSettings db shopId p) = Some saved
  /\ getStoreSettings after shopId = Some saved
  /\ (forall other, other <> shopId ->
        getStoreSettings after other = getStoreSettings db other)
  /\ trialStatusColl after = trialStatusColl db
  /\ ordersColl after = ordersColl db
  /\ updateStoreSettings after shopId p = (Some saved, after).
Proof.
  intros Hkeep. cbv zeta.
  assert (Hown : getStoreSettings (snd (updateStoreSettings db shopId p)) shopId
                 = Some (setSettings p
                           (default defaultSettings (getStoreSettings db shopId)))).
  { rewrite updateStoreSettings_lookup by assumption.
    now rewrite decide_True by reflexivity. }
  assert (Hfst : fst (updateStoreSettings db shopId p)
                 = getStoreSettings (snd (updateStoreSettings db shopId p)) shopId).
  { rewrite updateStoreSettings_cases. reflexivity. }
  split; [now rewrite Hfst|]. split; [exact Hown|].
  split.
  { intros other Hne. rewrite updateStoreSettings_lookup by assumption.
    now rewrite decide_False by congruence. }
  split; [now rewrite updateStoreSettings_cases|].
  split; [now rewrite updateStoreSettings_cases|].
  rewrite (updateStoreSettings_cases (snd (updateStoreSettings db shopId p))).
  rewrite Hown. cbv zeta.
  assert (Hcoll : snd (updateOne shopId (setSettingsDocument p)
                         (storeSettingsColl (snd (updateStoreSettings db shopId p))))
                  = storeSettingsColl (snd (updateStoreSettings db shopId p))).
  { rewrite updateStoreSettings_cases. cbv zeta. cbn [snd storeSettingsColl].
    apply (updateOne_twice shopId _ (setSettings p)).
    - now apply setSettingsDocument_kept.
    - apply setSettings_twice. }
  rewrite Hcoll. fold (getStoreSettings (snd (updateStoreSettings db shopId p)) shopId).
  rewrite Hown. f_equal.
  now destruct (snd (updateStoreSettings db shopId p)).
Qed.

(** A shop without settings saves its e-mail channel. *)
Lemma updateStoreSettings_saves_witness :
  let p := {| setShopId := None; setRiskThresholds := None; setRiskFactors := None;
              setNotifications := Some (Store.notifications Sample.settings);
              setAutomations := None; setAiSettings := None;
              setCreatedAt := None; setUpdatedAt := None |} in
  option_map Store.notifications
    (getStoreSettings (snd (updateStoreSettings Sample.emptyDb Sample.shop p)) Sample.shop)
  = Some (Store.notifications Sample.settings).
Proof.
  intros p.
  refine (eq_trans
            (f_equal (option_map Store.notifications)
               (proj1 (proj2 (updateStoreSettings_saves Sample.emptyDb Sample.shop p
                                (or_introl eq_refl))))) _).
  reflexivity.
Defined.

(** X19. The thresholds saved with [updateStoreSettings], in an update that
    carries no [shopId] or the shop's own, are the ones [analyzeOrderRisk]
    rates the shop's next orders with, whether the shop had settings before
    or not. *)
Theorem saved_thresholds_rate_next_orders `{Host} db shopId p thresholds order v :
  keepsShop shopId (setShopId p) ->
  setRiskThresholds p = Some thresholds ->
  analyzeOrderRisk (snd (updateStoreSettings db shopId p)) order shopId = Ok v ->
  (level v = high <-> (Store.high thresholds <= inject_Z (score v))%Q)
  /\ (level v = medium <->
        (Store.medium thresholds <= inject_Z (score v))%Q
        /\ (inject_Z (score v) < Store.high thresholds)%Q).
Proof.
  intros Hkeep Hset Hrun.
  apply analyzeOrderRisk_inv in Hrun as (st & _ & _ & _ & Hlevel & _).
  rewrite updateStoreSettings_lookup in Hlevel by assumption.
  rewrite decide_True in Hlevel by reflexivity.
  unfold thresholdsOf, setSettings in Hlevel. simpl in Hlevel.
  rewrite Hset in Hlevel. simpl in Hlevel. rewrite Hlevel.
  pose proof (step_of_thresholds (Store.high thresholds) (Store.medium thresholds)
                (inject_Z (score v))) as (Hh & Hm & _).
  split; assumption.
Qed.

(** A shop without settings saves thresholds 40 and 20: the scenario order,
    worth 60 on the free plan, is rated high. *)
Lemma saved_thresholds_rate_next_orders_witness :
  let p := {| setShopId := None;
              setRiskThresholds := Some {| Store.high := 40; Store.medium := 20 |};
              setRiskFactors := None; setNotifications := None;
              setAutomations := None; setAiSettings := None;
              setCreatedAt := None; setUpdatedAt := None |} in
  exists v,
    analyzeOrderRisk (H := Sample.host)
      (snd (updateStoreSettings Sample.emptyDb Sample.shop p)) Sample.order Sample.shop
    = Ok v
    /\ score v = 60
    /\ (level v = high <-> (40 <= inject_Z (score v))%Q).
Proof.
  intros p. eexists. split; [reflexivity|]. split; [reflexivity|].
  exact (proj1 (saved_thresholds_rate_next_orders (H := Sample.host)
                  Sample.emptyDb Sample.shop p _ Sample.order _
                  (or_introl eq_refl) eq_refl eq_refl)).
Defined.

(** X20. After [startTrial] the shop is scored as pro, the other shops as
    before, and the shop stays pro under every later [updateTrialStatus]
    that sets neither [plan] nor another [shopId]: clearing [isActive]
    alone does not end the pro scoring, [startTrial] having written the
    plan pro. *)
Theorem startTrial_makes_pro currentDate db shopId :
  let started := snd (startTrial currentDate db shopId) in
  isProPlan (getTrialStatus started shopId) = true
  /\ (forall other, other <> shopId ->
        getTrialStatus started other = getTrialStatus db other)
  /\ (forall p, setPlan p = None -> keepsShop shopId (setTrialShopId p) ->
        isProPlan (getTrialStatus (snd (updateTrialStatus started shopId p)) shopId)
        = true).
Proof.
  cbv zeta.
  change (startTrial currentDate db shopId)
    with (updateTrialStatus db shopId (updatedTrialStatus currentDate)).
  assert (Hkeep : keepsShop shopId (setTrialShopId (updatedTrialStatus currentDate)))
    by (left; reflexivity).
  split; [|split].
  - rewrite updateTrialStatus_lookup, decide_True by (assumption || reflexivity).
    reflexivity.
  - intros other Hne. rewrite updateTrialStatus_lookup by assumption.
    now rewrite decide_False by congruence.
  - intros p Hplan Hp.
    rewrite !updateTrialStatus_lookup, !decide_True by (assumption || reflexivity).
    unfold setTrialStatus; simpl. rewrite Hplan. simpl.
    destruct (default true (setIsActive p)); reflexivity.
Qed.

(** X26. An update that carries the id of another shop, one without
    settings of its own, writes to that shop: after
    [updateStoreSettings] called for [shopId], the other shop has the
    fields given over the settings [shopId] had, or over the default
    settings when it had none; and a shop that had no settings gets
    nothing back, the document inserted for it having left it. *)
Theorem update_with_other_shop_id_writes_there db shopId otherShop p :
  setShopId p = Some otherShop ->
  otherShop <> shopId ->
  getStoreSettings db otherShop = None ->
  let after := snd (updateStoreSettings db shopId p) in
  getStoreSettings after otherShop
  = Some (setSettings p (default defaultSettings (getStoreSettings db shopId)))
  /\ (getStoreSettings db shopId = None ->
      fst (updateStoreSettings db shopId p) = None
      /\ getStoreSettings after shopId = None).
Proof.
  intros Hp Hne Hnone. cbv zeta.
  assert (Hchange : forall fields,
            setSettingsDocument p (shopId, fields) = (otherShop, setSettings p fields)).
  { intros fields. unfold setSettingsDocument. now rewrite Hp. }
  rewrite updateStoreSettings_cases. cbv zeta. unfold getStoreSettings in *.
  cbn [fst snd storeSettingsColl].
  destruct (findOne shopId (storeSettingsColl db)) as [found|] eqn:Hfound.
  - split; [|discriminate].
    rewrite (findOne_updateOne_moved shopId otherShop _ (setSettings p) _ Hchange Hnone).
    now rewrite Hfound.
  - assert (Hnone' : findOne otherShop
                       (insertOne shopId defaultSettings (storeSettingsColl db)) = None).
    { rewrite findOne_insertOne, Hnone.
      now rewrite (proj2 (String.eqb_neq shopId otherShop)) by congruence. }
    split.
    + rewrite (findOne_updateOne_moved shopId otherShop _ (setSettings p) _
                 Hchange Hnone').
      now rewrite findOne_insertOne, Hfound, String.eqb_refl.
    + intros _.
      assert (Hgone : findOne shopId
                        (snd (updateOne shopId (setSettingsDocument p)
                                (insertOne shopId defaultSettings
                                   (storeSettingsColl db)))) = None).
      { clear Hnone Hnone'. unfold insertOne.
        induction (storeSettingsColl db) as [|[id fields] coll IH].
        - simpl. rewrite String.eqb_refl. simpl. rewrite Hchange, findOne_cons.
          now rewrite (proj2 (String.eqb_neq otherShop shopId) Hne).
        - rewrite findOne_cons in Hfound. simpl.
          destruct (String.eqb id shopId) eqn:Hid; [discriminate|].
          specialize (IH Hfound).
          destruct (updateOne shopId (setSettingsDocument p)
                      (coll ++ [(shopId, defaultSettings)])) as [matched updated].
          simpl in *. now rewrite findOne_cons, Hid. }
      split; exact Hgone.
Qed.

(** The demo shop, which has no settings yet, saves thresholds under the
    id of another shop: that shop is now rated with them. *)
Lemma update_with_other_shop_id_writes_there_witness :
  let p := {| setShopId := Some "other.myshopify.com";
              setRiskThresholds := Some {| Store.high := 1; Store.medium := 1 |};
              setRiskFactors := None; setNotifications := None;
              setAutomations := None; setAiSettings := None;
              setCreatedAt := None; setUpdatedAt := None |} in
  let after := snd (updateStoreSettings Sample.emptyDb Sample.shop p) in
  option_map Store.riskThresholds (getStoreSettings after "other.myshopify.com")
  = Some {| Store.high := 1; Store.medium := 1 |}
  /\ getStoreSettings after Sample.shop = None.
Proof.
  intros p after.
  pose proof (update_with_other_shop_id_writes_there Sample.emptyDb Sample.shop
                "other.myshopify.com" p eq_refl ltac:(discriminate) eq_refl)
    as [Hthere Hgone].
  split.
  - exact (eq_trans (f_equal (option_map Store.riskThresholds) Hthere) eq_refl).
  - exact (proj2 (Hgone eq_refl)).
Defined.

(** X21. With the settings [createDefaultStoreSettings] writes, nothing is
    dispatched for any order, high-risk on a pro shop included: the e-mail
    channel is enabled with an empty address and the chat channel is off. *)
Theorem default_settings_dispatch_nothing db shopId order consoleSoFar :
  getStoreSettings db shopId = None ->
  let created := snd (createDefaultStoreSettings db shopId) in
  getStoreSettings created shopId = Some defaultSettings
  /\ Forall (fun e => isDispatch e = false)
       (emitted (Notifications.sendRiskNotifications order shopId)
          {| database := created; events := consoleSoFar |}).
Proof.
  intros Hnone created.
  assert (Hget : getStoreSettings created shopId = Some defaultSettings).
  { unfold created, getStoreSettings, createDefaultStoreSettings in *. simpl.
    now rewrite findOne_insertOne, Hnone, String.eqb_refl. }
  split; [exact Hget|].
  set (w := {| database := created; events := consoleSoFar |}).
  assert (Hget' : getStoreSettings (database w) shopId = Some defaultSettings)
    by exact Hget.
  destruct (level_eqb (level (riskAnalysis order)) low
            || negb (isProPlan (getTrialStatus (database w) shopId))
               && negb (level_eqb (level (riskAnalysis order)) high)) eqn:Hstop.
  - destruct (sendRiskNotifications_stopped order shopId w) as [line Hrun].
    { rewrite Hget'. now rewrite Hstop. }
    rewrite (emitted_append _ _ _ _ _ Hrun). repeat constructor.
  - apply orb_false_iff in Hstop as [Hlow Hplan].
    assert (Hlevel : level (riskAnalysis order) <> low).
    { intros Heq. apply level_eqb_eq in Heq. congruence. }
    assert (Hpro : isProPlan (getTrialStatus (database w) shopId) = true
                   \/ level (riskAnalysis order) = high).
    { apply andb_false_iff in Hplan as [Hp|Hp]; apply negb_false_iff in Hp;
        [left; exact Hp | right; now apply level_eqb_eq]. }
    rewrite (emitted_append _ _ _ _ _
               (sendRiskNotifications_passed order shopId w defaultSettings
                  Hget' Hlevel Hpro eq_refl)).
    simpl. rewrite andb_false_r. simpl. repeat constructor.
Qed.

Lemma default_settings_dispatch_nothing_witness :
  Forall (fun e => isDispatch e = false)
    (emitted (Notifications.sendRiskNotifications
                {| shopId := Sample.shop; orderId := "1"; orderNumber := JString "1";
                   date := JUndefined;
                   customer := {| customerId := JUndefined; firstName := JString "Guest";
                                  lastName := JString "Customer";
                                  customerEmail := JString ""; phone := JUndefined;
                                  totalOrders := JUndefined; totalSpent := None |};
                   financialStatus := JString "unknown";
                   fulfillmentStatus := JString "unfulfilled";
                   totalPrice := Fin 0; currency := JString "USD"; items := [];
                   shippingAddress := None; billingAddress := None;
                   riskAnalysis := {| score := 85; level := high; factors := [];
                                      reviewed := false; status := on_hold;
                                      ipAddress := JUndefined;
                                      checkoutSpeed := JUndefined |} |}
                Sample.shop)
       {| database :=
            snd (createDefaultStoreSettings
                   {| storeSettingsColl := [];
                      trialStatusColl := [(Sample.shop, Sample.proTrial)];
                      ordersColl := [] |} Sample.shop);
          events := [] |}).
Proof.
  exact (proj2 (default_settings_dispatch_nothing
                  {| storeSettingsColl := [];
                     trialStatusColl := [(Sample.shop, Sample.proTrial)];
                     ordersColl := [] |} Sample.shop _ [] eq_refl)).
Defined.

End StoreWrites.

(** ** Who a broadcast reaches *)

Section Broadcast.
Import WebSocketServer.

Lemma setAdd_NoDup socket (s : list Socket) : NoDup s -> NoDup (setAdd socket s).
Proof.
  intros Hs. unfold setAdd. case_bool_decide as Hin; [assumption|].
  apply NoDup_app. split; [assumption|]. split.
  - intros x Hx Hx'. apply list_elem_of_singleton in Hx'. now subst.
  - apply NoDup_singleton.
Qed.

Lemma setDelete_NoDup socket (s : list Socket) : NoDup s -> NoDup (setDelete socket s).
Proof. intros Hs. unfold setDelete. now apply NoDup_filter. Qed.

Lemma closeAll_NoDup shops : forall (conns : gmap string (list Socket)) socket,
  (forall shopId, NoDup (default [] (conns !! shopId))) ->
  forall shopId,
    NoDup (default []
             (fold_left (fun c shop => onClose socket shop c) shops conns !! shopId)).
Proof.
  induction shops as [|shop shops IH]; intros conns socket Hconns; simpl.
  - exact Hconns.
  - apply IH. intros shopId. rewrite onClose_lookup. case_decide; [|apply Hconns].
    specialize (Hconns shop).
    destruct (conns !! shop) as [s|]; simpl in *; [|constructor].
    pose proof (setDelete_NoDup socket s Hconns) as Hdel.
    destruct (setDelete socket s); simpl; [constructor | exact Hdel].
Qed.

Lemma run_NoDup ds shopId : NoDup (connectionsOf (run ds initial) shopId).
Proof.
  revert shopId. induction ds as [|d ds IH] using rev_ind; intros shopId.
  - unfold connectionsOf, initial; simpl. rewrite lookup_empty. constructor.
  - rewrite run_snoc. pose proof (run_wellFormed ds) as (_ & _ & Hown).
    unfold connectionsOf in *.
    destruct d as [s [shop|]|s|s].
    + change (step (run ds initial) (Connection s (Some shop)))
        with (onConnection s (Some shop) (run ds initial)).
      destruct (decide (shop = "")) as [->|Hshop]; [apply IH|].
      destruct (decide (shop ∈ objectPrototypeKeys)) as [Hkey|Hkey].
      { rewrite (onConnection_inherited _ _ _ Hkey (Hown _ Hkey)). apply IH. }
      rewrite (proj2 (onConnection_lookup _ s shop shopId Hshop Hkey)).
      case_decide; [|apply IH]. simpl. apply setAdd_NoDup, IH.
    + apply IH.
    + simpl. now apply closeAll_NoDup.
    + simpl. rewrite errorAll_same. apply IH.
Qed.

Lemma broadcastUpdate_sends readyState sv shopId data socket message :
  In (SocketSend socket message) (snd (broadcastUpdate readyState sv shopId data))
  <-> socket ∈ connectionsOf sv shopId /\ readyState socket = 1
      /\ message = UpdateMessage data.
Proof.
  unfold broadcastUpdate, connectionsOf, slotOf.
  destruct (shopConnections sv !! shopId) as [[|x l]|]; simpl default.
  - rewrite elem_of_nil. simpl. tauto.
  - cbn [snd]. rewrite in_app_iff, in_map_iff. split.
    + intros [(s & Hs & Hin)|[Hlog|[]]]; [|discriminate].
      inversion Hs; subst. apply list_elem_of_In, list_elem_of_filter in Hin. tauto.
    + intros (Hin & Hopen & ->). left. exists socket. split; [reflexivity|].
      apply list_elem_of_In, list_elem_of_filter. tauto.
  - rewrite elem_of_nil. case_bool_decide; simpl; tauto.
Qed.

Lemma broadcastUpdate_ended readyState ds shopId data :
  fst (broadcastUpdate readyState (run ds initial) shopId data)
  = if bool_decide (shopId ∈ objectPrototypeKeys) then Throw TypeError else Ok tt.
Proof.
  pose proof (run_wellFormed ds) as (_ & _ & Hown).
  unfold broadcastUpdate, slotOf. case_bool_decide as Hkey.
  - now rewrite (Hown _ Hkey).
  - destruct (shopConnections (run ds initial) !! shopId) as [[|x l]|]; reflexivity.
Qed.

(** X22. After any deliveries to the server, [broadcastUpdate] for a shop
    sends the update to exactly the sockets that attached to that shop with
    success, have not been disconnected since and are in the OPEN state; no
    socket of another shop is written to, and nothing else is sent.  It
    throws a TypeError, after no send, exactly when the shop id names a
    property the registry inherits, and returns otherwise. *)
Theorem broadcast_reaches_attached_open ds readyState shopId data :
  (forall socket message,
      In (SocketSend socket message)
         (snd (broadcastUpdate readyState (run ds initial) shopId data))
      <-> attachedOpen (rev ds) shopId socket = true
          /\ readyState socket = 1
          /\ message = UpdateMessage data)
  /\ fst (broadcastUpdate readyState (run ds initial) shopId data)
     = if bool_decide (shopId ∈ objectPrototypeKeys) then Throw TypeError else Ok tt.
Proof.
  split; [|apply broadcastUpdate_ended].
  intros socket message. rewrite broadcastUpdate_sends, run_members. reflexivity.
Qed.

Lemma sends_NoDup data (l : list Socket) :
  NoDup l -> NoDup (map (fun socket => SocketSend socket (UpdateMessage data)) l).
Proof.
  induction 1 as [|x l Hx Hl IH]; simpl; constructor; [|exact IH].
  intros Hin. apply list_elem_of_In, in_map_iff in Hin as (y & Hy & Hin).
  inversion Hy; subst. apply Hx. now apply list_elem_of_In.
Qed.

(** X23. One [broadcastUpdate] writes to a socket at most once, also when
    the socket attached to the shop several times: the events of a
    broadcast are pairwise distinct. *)
Theorem broadcast_once_per_socket ds readyState shopId data :
  NoDup (snd (broadcastUpdate readyState (run ds initial) shopId data)).
Proof.
  pose proof (run_NoDup ds shopId) as Hnd.
  unfold broadcastUpdate, connectionsOf, slotOf in *.
  destruct (shopConnections (run ds initial) !! shopId) as [[|x l]|];
    simpl default in *; try constructor.
  2:{ case_bool_decide; constructor. }
  cbn [snd]. apply NoDup_app. split; [|split].
  - apply sends_NoDup. now apply NoDup_filter.
  - intros e He Hlog. apply list_elem_of_singleton in Hlog. subst e.
    apply list_elem_of_In, in_map_iff in He as (s & Hs & _). discriminate.
  - apply NoDup_singleton.
Qed.

(** X24. After any deliveries to the server, [broadcastUpdate] for a shop
    returns having done nothing at all, console line included, exactly
    when no socket is attached to the shop and the shop id names no
    property the registry inherits; under such a name it throws a
    TypeError, having written nothing. *)
Theorem broadcast_silent_without_subscribers ds readyState shopId data :
  (broadcastUpdate readyState (run ds initial) shopId data = (Ok tt, [])
   <-> ((shopId ∉ objectPrototypeKeys)
        /\ (forall socket, attachedOpen (rev ds) shopId socket = false)))
  /\ (shopId ∈ objectPrototypeKeys ->
      broadcastUpdate readyState (run ds initial) shopId data = (Throw TypeError, [])).
Proof.
  pose proof (run_wellFormed ds) as (Hne & _ & Hown).
  assert (Hmem := fun socket => run_members ds shopId socket).
  unfold broadcastUpdate, connectionsOf, slotOf in *. specialize (Hne shopId).
  specialize (Hown shopId).
  destruct (shopConnections (run ds initial) !! shopId) as [[|x l]|]; simpl default in *.
  - congruence.
  - split; [|intros Hkey; now specialize (Hown Hkey)]. split.
    + intros Hnil. inversion Hnil as [Hlist].
      apply app_eq_nil in Hlist as [_ Hlog]. discriminate.
    + intros [_ Hnone]. specialize (Hnone x).
      assert (Hx : attachedOpen (rev ds) shopId x = true).
      { apply Hmem. apply elem_of_cons. now left. }
      congruence.
  - assert (Hnone : forall socket, attachedOpen (rev ds) shopId socket = false).
    { intros socket.
      destruct (attachedOpen (rev ds) shopId socket) eqn:Ha; [|reflexivity].
      apply Hmem in Ha. now apply elem_of_nil in Ha. }
    case_bool_decide as Hkey.
    + split; [|reflexivity]. split; [discriminate | tauto].
    + split; [tauto | contradiction].
Qed.

End Broadcast.

(** ** A shop that is never notified *)

Lemma free_shop_not_high `{Host} db order shopId v :
  isProPlan (getTrialStatus db shopId) = false ->
  (60 < Store.high (thresholdsOf (getStoreSettings db shopId)))%Q ->
  analyzeOrderRisk db order shopId = Ok v ->
  level v <> high.
Proof.
  intros Hfree Hth Hrun.
  apply analyzeOrderRisk_inv in Hrun as (st & Hst & Hscore & _ & Hlevel & _).
  simpl in *. rewrite Hfree in Hst.
  destruct (scoreFactors_free_contributions _ _ _ Hst) as (_ & _ & _ & Hrange).
  rewrite <- Hscore in Hrange.
  intros Hle. rewrite Hlevel in Hle.
  apply (proj1 (step_of_thresholds _ _ _)) in Hle.
  assert (Hq : (inject_Z (score v) <= 60)%Q).
  { change 60%Q with (inject_Z 60). rewrite <- Zle_Qle. lia. }
  apply (Qlt_not_le _ _ Hth). eapply Qle_trans; eassumption.
Qed.

Lemma getOrderById_found db shopId id saved :
  getOrderById db shopId id = Some saved ->
  In saved (ordersColl db) /\ OrderModel.shopId saved = shopId.
Proof.
  unfold getOrderById. intros Hfind. apply find_some in Hfind as [Hin Hkey].
  apply andb_true_iff in Hkey as [Hshop _]. apply String.eqb_eq in Hshop. auto.
Qed.

(** X25. For a shop that is not pro, whose high threshold is above 60 (the
    default is 75) and none of whose stored orders is rated high, a
    delivery to [processWebhook] never leads to an e-mail or a chat
    message, whatever the order and the notification settings are; and
    afterwards still none of the shop's stored orders is rated high. *)
Theorem free_shop_is_never_notified `{Host} request rawPayload w shopId :
  Webhook.headersGet request "x-shopify-shop-domain" = Some shopId ->
  isProPlan (getTrialStatus (database w) shopId) = false ->
  (60 < Store.high (thresholdsOf (getStoreSettings (database w) shopId)))%Q ->
  noHighStored (database w) shopId ->
  Forall (fun e => isDispatch e = false)
         (emitted (Webhook.processWebhook request rawPayload) w)
  /\ noHighStored (database (snd (Webhook.processWebhook request rawPayload w))) shopId.
Proof.
  intros Hheader Hfree Hth Hstored.
  destruct (processWebhook_cases request rawPayload w)
    as [(new & Hrun & Hnew)
       |(payload & shop & ra & o & saved & Hsig & Hparse & Hshop & Hne & Hra & Hmap
         & Hsaved & Hrun)].
  - rewrite (emitted_append _ _ _ _ _ Hrun), Hrun. simpl. split; [|exact Hstored].
    eapply List.Forall_impl; [|exact Hnew].
    intros e. destruct e; simpl; congruence.
  - rewrite Hheader in Hshop. inversion Hshop; subst shop.
    pose proof (free_shop_not_high _ _ _ _ Hfree Hth Hra) as Hlevel.
    pose proof (mapShopifyOrderToModel_inv _ _ _ _ Hmap)
      as (_ & _ & _ & _ & _ & _ & _ & _ & _ & Hoshop & Hora).
    assert (Hafter : noHighStored (createOrder (database w) o) shopId).
    { intros x Hin Hx. simpl in Hin. apply in_app_iff in Hin as [Hin|[<-|[]]].
      - now apply Hstored.
      - congruence. }
    apply getOrderById_found in Hsaved as [Hin Hkey].
    pose proof (Hafter saved Hin Hkey) as Hsavedlevel.
    set (w2 := {| database := createOrder (database w) o;
                  events := events w ++ storedTrace rawPayload o |}) in *.
    destruct (sendRiskNotifications_stopped saved shopId w2) as [line Hsend].
    { change (getStoreSettings (database w2) shopId)
        with (getStoreSettings (database w) shopId).
      change (getTrialStatus (database w2) shopId)
        with (getTrialStatus (database w) shopId).
      rewrite Hfree.
      destruct (getStoreSettings (database w) shopId); [|reflexivity].
      destruct (level (riskAnalysis saved)); simpl; try reflexivity. congruence. }
    rewrite Hsend in Hrun. unfold w2 in Hrun. simpl in Hrun.
    rewrite <- app_assoc in Hrun.
    rewrite (emitted_append _ _ _ _ _ Hrun), Hrun. simpl. split; [|exact Hafter].
    unfold storedTrace. simpl. repeat constructor.
Qed.

(** The scenario order delivered to the free shop, whose settings have the
    e-mail channel set up: no mail. *)
Lemma free_shop_is_never_notified_witness :
  Forall (fun e => isDispatch e = false)
    (emitted (Webhook.processWebhook (H := Sample.host) (Sample.request None)
                Sample.rawOrder)
       (Sample.world Sample.freeDb)).
Proof.
  refine (proj1 (free_shop_is_never_notified (H := Sample.host) (Sample.request None)
                   Sample.rawOrder (Sample.world Sample.freeDb) Sample.shop
                   eq_refl eq_refl eq_refl _)).
  intros o Hin. destruct Hin.
Defined.
